(** * Addons template composition (package [addons])

    A shallow embedding of [Addons.Template] and its helpers
    ([filterYAMLfiles], [contains], [validateNoMissingFiles]) together with
    the parts of the Go standard library they call
    ([strings.TrimSpace], [strings.TrimSuffix], [strings.Split],
    [strings.Join], [filepath.Ext]).

    Go strings are byte sequences: they are modelled by [string], whose
    characters are the 8-bit [ascii].  Runes are [Z]. *)

From Stdlib Require Import ZArith Ascii String List Lia Bool.
From stdpp Require Import gmap strings list.

Local Open Scope string_scope.
Local Open Scope Z_scope.

(** ** Bytes and slices *)

Definition byteZ (c : ascii) : Z := Z.of_N (N_of_ascii c).

(** [s[i]], for an index in range (0 otherwise; never used out of range). *)
Definition byteAt (s : string) (i : nat) : Z :=
  match String.get i s with
  | Some c => byteZ c
  | None => 0
  end.

(** [s[i:j]] *)
Definition slice (s : string) (i j : nat) : string :=
  String.substring i (j - i) s.

(** ** Package [unicode/utf8] *)
Module utf8.

Definition RuneError : Z := 0xFFFD.
Definition RuneSelf : Z := 0x80.
Definition UTFMax : nat := 4.

Definition maskx : Z := 0x3F.
Definition mask2 : Z := 0x1F.
Definition mask3 : Z := 0x0F.
Definition mask4 : Z := 0x07.

Definition locb : Z := 0x80.
Definition hicb : Z := 0xBF.

Definition xx : Z := 0xF1.
Definition as_ : Z := 0xF0.
Definition s1 : Z := 0x02.
Definition s2 : Z := 0x13.
Definition s3 : Z := 0x03.
Definition s4 : Z := 0x23.
Definition s5 : Z := 0x34.
Definition s6 : Z := 0x04.
Definition s7 : Z := 0x44.

(** The table [first]: information about the first byte of an encoding. *)
Definition first (b : Z) : Z :=
  if b <? 0x80 then as_
  else if b <? 0xC2 then xx
  else if b <? 0xE0 then s1
  else if b =? 0xE0 then s2
  else if b <? 0xED then s3
  else if b =? 0xED then s4
  else if b <? 0xF0 then s3
  else if b =? 0xF0 then s5
  else if b <? 0xF4 then s6
  else if b =? 0xF4 then s7
  else xx.

(** The table [acceptRanges], as pairs [(lo, hi)]. *)
Definition acceptRanges (i : Z) : Z * Z :=
  if i =? 0 then (locb, hicb)
  else if i =? 1 then (0xA0, hicb)
  else if i =? 2 then (locb, 0x9F)
  else if i =? 3 then (0x90, hicb)
  else if i =? 4 then (locb, 0x8F)
  else (0, 0).

Definition DecodeRuneInString (s : string) : Z * nat :=
  let n := String.length s in
  if (n <? 1)%nat then (RuneError, 0%nat)
  else
    let s0 := byteAt s 0 in
    let x := first s0 in
    if as_ <=? x then
      (* mask is 0 for [as] and all ones for [xx] *)
      let mask := if Z.testbit x 0 then (-1) else 0 in
      (Z.lor (Z.land s0 (Z.lnot mask)) (Z.land RuneError mask), 1%nat)
    else
      let sz := Z.to_nat (Z.land x 7) in
      let accept := acceptRanges (Z.shiftr x 4) in
      if (n <? sz)%nat then (RuneError, 1%nat)
      else
        let s1 := byteAt s 1 in
        if (s1 <? fst accept) || (snd accept <? s1) then (RuneError, 1%nat)
        else if (sz <=? 2)%nat then
          (Z.lor (Z.shiftl (Z.land s0 mask2) 6) (Z.land s1 maskx), 2%nat)
        else
          let s2 := byteAt s 2 in
          if (s2 <? locb) || (hicb <? s2) then (RuneError, 1%nat)
          else if (sz <=? 3)%nat then
            (Z.lor (Z.lor (Z.shiftl (Z.land s0 mask3) 12)
                          (Z.shiftl (Z.land s1 maskx) 6))
                   (Z.land s2 maskx), 3%nat)
          else
            let s3 := byteAt s 3 in
            if (s3 <? locb) || (hicb <? s3) then (RuneError, 1%nat)
            else
              (Z.lor (Z.lor (Z.lor (Z.shiftl (Z.land s0 mask4) 18)
                                   (Z.shiftl (Z.land s1 maskx) 12))
                            (Z.shiftl (Z.land s2 maskx) 6))
                     (Z.land s3 maskx), 4%nat).

Definition RuneStart (b : Z) : bool := negb (Z.land b 0xC0 =? 0x80).

(** The backward scan of [DecodeLastRuneInString]:
    [for start--; start >= lim; start-- { if RuneStart(s[start]) { break } }],
    entered with [start = end - 1].  [k] counts the positions left above
    [lim]; the result is the final [start], [None] standing for [lim - 1]. *)
Fixpoint scanStart (s : string) (lim k : nat) : option nat :=
  match k with
  | O => None
  | S k' =>
      let start := (lim + k')%nat in
      if RuneStart (byteAt s start) then Some start
      else scanStart s lim k'
  end.

Definition DecodeLastRuneInString (s : string) : Z * nat :=
  let end_ := String.length s in
  if (end_ =? 0)%nat then (RuneError, 0%nat)
  else
    let start := (end_ - 1)%nat in
    let r := byteAt s start in
    if r <? RuneSelf then (r, 1%nat)
    else
      let lim := (end_ - UTFMax)%nat in (* clamped at 0 by truncated subtraction *)
      let start :=
        match scanStart s lim (start - lim) with
        | Some i => i
        | None => (lim - 1)%nat (* [start < 0] is reset to 0; otherwise [lim - 1] *)
        end in
      let '(r, size) := DecodeRuneInString (slice s start end_) in
      if negb (start + size =? end_)%nat then (RuneError, 1%nat)
      else (r, size).

End utf8.

(** ** Package [unicode] *)
Module unicode.

(** [IsSpace]: the Latin-1 spaces, then the [White_Space] range table. *)
Definition IsSpace (r : Z) : bool :=
  if r <=? 0xFF then
    (r =? 0x09) || (r =? 0x0A) || (r =? 0x0B) || (r =? 0x0C) || (r =? 0x0D)
    || (r =? 0x20) || (r =? 0x85) || (r =? 0xA0)
  else
    (r =? 0x1680) || ((0x2000 <=? r) && (r <=? 0x200A))
    || (r =? 0x2028) || (r =? 0x2029) || (r =? 0x202F) || (r =? 0x205F)
    || (r =? 0x3000).

End unicode.

(** ** Package [strings] *)
Module strings.

(** [asciiSpace]: the six ASCII white space bytes. *)
Definition asciiSpace (c : Z) : bool :=
  (c =? 0x09) || (c =? 0x0A) || (c =? 0x0B) || (c =? 0x0C) || (c =? 0x0D)
  || (c =? 0x20).

(** [indexFunc]: the index of the first rune [r] of [s], at or after byte
    [i], with [f r = truth]; [None] is Go's [-1].  The [range] loop decodes
    one rune per iteration, as [utf8.DecodeRuneInString] does. *)
Fixpoint indexFuncFrom (s : string) (f : Z -> bool) (truth : bool)
    (i fuel : nat) : option nat :=
  match fuel with
  | O => None
  | S fuel' =>
      if (String.length s <=? i)%nat then None
      else
        let '(r, size) := utf8.DecodeRuneInString (slice s i (String.length s)) in
        if Bool.eqb (f r) truth then Some i
        else indexFuncFrom s f truth (i + size) fuel'
  end.

Definition indexFunc (s : string) (f : Z -> bool) (truth : bool) : option nat :=
  indexFuncFrom s f truth 0 (String.length s).

(** [lastIndexFunc]: the same from the end of [s]. *)
Fixpoint lastIndexFuncFrom (s : string) (f : Z -> bool) (truth : bool)
    (i fuel : nat) : option nat :=
  match fuel with
  | O => None
  | S fuel' =>
      if (i =? 0)%nat then None
      else
        let '(r, size) := utf8.DecodeLastRuneInString (slice s 0 i) in
        let i := (i - size)%nat in
        if Bool.eqb (f r) truth then Some i
        else lastIndexFuncFrom s f truth i fuel'
  end.

Definition lastIndexFunc (s : string) (f : Z -> bool) (truth : bool) : option nat :=
  lastIndexFuncFrom s f truth (String.length s) (String.length s).

Definition TrimLeftFunc (s : string) (f : Z -> bool) : string :=
  match indexFunc s f false with
  | None => ""
  | Some i => slice s i (String.length s)
  end.

Definition TrimRightFunc (s : string) (f : Z -> bool) : string :=
  match lastIndexFunc s f false with
  | Some i =>
      if utf8.RuneSelf <=? byteAt s i then
        let '(_, wid) := utf8.DecodeRuneInString (slice s i (String.length s)) in
        slice s 0 (i + wid)
      else slice s 0 (i + 1)
  | None => slice s 0 0
  end.

Definition TrimFunc (s : string) (f : Z -> bool) : string :=
  TrimRightFunc (TrimLeftFunc s f) f.

(** First loop of [TrimSpace]; [k] is [len(s) - start].  [inl start] when
    the loop ends, [inr r] when it returns [r] from inside. *)
Fixpoint trimSpaceStart (s : string) (start k : nat) : nat + string :=
  match k with
  | O => inl start
  | S k' =>
      let c := byteAt s start in
      if utf8.RuneSelf <=? c then
        inr (TrimFunc (slice s start (String.length s)) unicode.IsSpace)
      else if negb (asciiSpace c) then inl start
      else trimSpaceStart s (S start) k'
  end.

(** Second loop of [TrimSpace]; [k] is [stop - start]. *)
Fixpoint trimSpaceStop (s : string) (start k : nat) : nat + string :=
  match k with
  | O => inl start
  | S k' =>
      let stop := (start + S k')%nat in
      let c := byteAt s (stop - 1) in
      if utf8.RuneSelf <=? c then
        inr (TrimRightFunc (slice s start stop) unicode.IsSpace)
      else if negb (asciiSpace c) then inl stop
      else trimSpaceStop s start k'
  end.

Definition TrimSpace (s : string) : string :=
  match trimSpaceStart s 0 (String.length s) with
  | inr r => r
  | inl start =>
      match trimSpaceStop s start (String.length s - start) with
      | inr r => r
      | inl stop => slice s start stop
      end
  end.

Definition HasSuffix (s suffix : string) : bool :=
  (String.length suffix <=? String.length s)%nat
  && String.eqb (slice s (String.length s - String.length suffix) (String.length s)) suffix.

Definition TrimSuffix (s suffix : string) : string :=
  if HasSuffix s suffix then slice s 0 (String.length s - String.length suffix)
  else s.

(** [Index]: the first occurrence of [substr] in [s]; [None] is [-1]. *)
Fixpoint Index (s substr : string) : option nat :=
  if String.prefix substr s then Some O
  else match s with
       | EmptyString => None
       | String _ s' => option_map S (Index s' substr)
       end.

(** The loop of [genSplit] for a separator that is not empty (its bound
    [Count(s, sep)] is the number of iterations after which [Index]
    finds nothing). *)
Fixpoint genSplitLoop (s sep : string) (fuel : nat) : list string :=
  match fuel with
  | O => [s]
  | S fuel' =>
      match Index s sep with
      | None => [s]
      | Some m =>
          slice s 0 m
            :: genSplitLoop (slice s (m + String.length sep) (String.length s)) sep fuel'
      end
  end.

(** [Split s sep] for [sep] not empty; [Template] only passes a newline. *)
Definition Split (s sep : string) : list string :=
  genSplitLoop s sep (String.length s).

Fixpoint Join (elems : list string) (sep : string) : string :=
  match elems with
  | [] => ""
  | [e] => e
  | e :: rest => e +:+ sep +:+ Join rest sep
  end.

End strings.

(** ** Package [path/filepath] *)
Module filepath.

(** [os.IsPathSeparator] on Unix. *)
Definition IsPathSeparator (c : ascii) : bool := Ascii.eqb c "/"%char.

(** The loop of [Ext], [n] being [i + 1]. *)
Fixpoint extLoop (path : string) (n : nat) : string :=
  match n with
  | O => ""
  | S i =>
      match String.get i path with
      | Some c =>
          if IsPathSeparator c then ""
          else if Ascii.eqb c "."%char then slice path i (String.length path)
          else extLoop path i
      | None => ""
      end
  end.

Definition Ext (path : string) : string := extLoop path (String.length path).

End filepath.

(** ** Values of the Go [error] interface

    [nil] is [None] in an [option error].  The dynamic types that occur are
    [*errors.errorString] (what [fmt.Errorf] builds without a wrapping verb),
    [*fmt.wrapError] (what it builds with one: the message and the wrapped
    error) and this package's [*ErrDirNotExist].  Errors of the collaborators
    are values of the same interface. *)
Inductive error : Type :=
| errorString (s : string)
| wrapError (msg : string) (err : error)
| ErrDirNotExist (SvcName : string) (ParentErr : error).

(** The [Error] method of [ErrDirNotExist] is declared with the type, in
    another file of the package; [Template] does not depend on what it
    prints, and it is left as a parameter. *)
Class ErrDirNotExistError := errDirNotExistError : string -> error -> string.

Definition Error `{ErrDirNotExistError} (e : error) : string :=
  match e with
  | errorString s => s
  | wrapError msg _ => msg
  | ErrDirNotExist SvcName ParentErr => errDirNotExistError SvcName ParentErr
  end.

(** ** The collaborators *)

(** The anonymous struct handed to the parser. *)
Record templateData : Type := {
  SvcName : string;
  Parameters : list string;
  Resources : list string;
  Outputs : list string
}.

(** [template.Parser]; the [*template.Content] it returns is represented by
    the text its [String] method gives. *)
Record Parser : Type := {
  Parse : string -> templateData -> string * option error
}.

Record workspaceReader : Type := {
  ReadAddonsDir : string -> list string * option error;
  ReadAddonsFile : string -> string -> string * option error
}.

Record Addons : Type := {
  svcName : string;
  parser : Parser;
  ws : workspaceReader
}.

(** Calls made to the collaborators, in the order they are made. *)
Inductive call : Type :=
| CallReadAddonsDir (svcName : string)
| CallReadAddonsFile (svcName fileName : string)
| CallParse (path : string) (data : templateData).

(** Computations that call the collaborators: the log of calls is threaded
    through. *)
Definition IO (A : Type) : Type := list call -> A * list call.

Definition ret {A : Type} (x : A) : IO A := fun log => (x, log).

Definition bind {A B : Type} (m : IO A) (k : A -> IO B) : IO B :=
  fun log => let '(x, log') := m log in k x log'.

Notation "'let*' x ':=' c1 'in' c2" := (bind c1 (fun x => c2))
  (at level 10, x pattern, c1 at level 100, c2 at level 200).

Definition run {A : Type} (m : IO A) : A * list call := m [].

Definition callReadAddonsDir (a : Addons) (svc : string)
    : IO (list string * option error) :=
  fun log => (ReadAddonsDir (ws a) svc, (log ++ [CallReadAddonsDir svc])%list).

Definition callReadAddonsFile (a : Addons) (svc fileName : string)
    : IO (string * option error) :=
  fun log => (ReadAddonsFile (ws a) svc fileName, (log ++ [CallReadAddonsFile svc fileName])%list).

Definition callParse (a : Addons) (path : string) (data : templateData)
    : IO (string * option error) :=
  fun log => (Parse (parser a) path data, (log ++ [CallParse path data])%list).

(** ** Package [addons] *)

Definition StackName : string := "AddonsStack".
Definition addonsTemplatePath : string := "addons/cf.yml".
Definition paramsFileWithoutExt : string := "params".
Definition outputsFileWithoutExt : string := "outputs".
Definition resourcesFiles : string := "resources".

Definition nl : string := String (ascii_of_nat 10) EmptyString.
Definition dquote : string := String (ascii_of_nat 34) EmptyString.

(** [m[k]] on a Go [map[string]string]: the zero value for a missing key. *)
Definition index (m : gmap string string) (k : string) : string :=
  default "" (m !! k).

Fixpoint contains (arr : list string) (el : string) : bool :=
  match arr with
  | [] => false
  | item :: arr' => if String.eqb item el then true else contains arr' el
  end.

Definition yamlExtensions : list string := [".yaml"; ".yml"].

Fixpoint filterYAMLfilesLoop (files yamlFiles : list string) : list string :=
  match files with
  | [] => yamlFiles
  | f :: files' =>
      if negb (contains yamlExtensions (filepath.Ext f))
      then filterYAMLfilesLoop files' yamlFiles
      else filterYAMLfilesLoop files' (yamlFiles ++ [f])%list
  end.

Definition filterYAMLfiles (files : list string) : list string :=
  filterYAMLfilesLoop files [].

(** The list [missingFiles] built by [validateNoMissingFiles]. *)
Definition missingFiles (f : gmap string string) : list string :=
  let missingFiles := [] in
  let missingFiles :=
    if String.eqb (index f paramsFileWithoutExt) ""
    then (missingFiles ++ [paramsFileWithoutExt +:+ ".yaml"])%list else missingFiles in
  let missingFiles :=
    if String.eqb (index f outputsFileWithoutExt) ""
    then (missingFiles ++ [outputsFileWithoutExt +:+ ".yaml"])%list else missingFiles in
  let missingFiles :=
    if String.eqb (index f resourcesFiles) ""
    then (missingFiles ++ ["at least one resource YAML file such as " +:+ dquote
                             +:+ "s3-bucket.yaml" +:+ dquote])%list
    else missingFiles in
  missingFiles.

Definition validateNoMissingFiles (f : gmap string string) : option error :=
  match missingFiles f with
  | [] => None
  | missing =>
      Some (errorString ("addons directory has missing file(s): "
                           +:+ strings.Join missing ", "))
  end.

(** The body of the loop of [Template], after the read succeeded. *)
Definition addFile (addonFiles : gmap string string) (fileName content : string)
    : gmap string string :=
  let trimmedContent := strings.TrimSpace content in
  let nameWithoutExt := strings.TrimSuffix fileName (filepath.Ext fileName) in
  if String.eqb nameWithoutExt paramsFileWithoutExt then
    <[paramsFileWithoutExt := trimmedContent]> addonFiles
  else if String.eqb nameWithoutExt outputsFileWithoutExt then
    <[outputsFileWithoutExt := trimmedContent]> addonFiles
  else
    <[resourcesFiles := index addonFiles resourcesFiles +:+ trimmedContent +:+ nl]> addonFiles.

(** The loop of [Template]: [inr e] when it returns the error [e] from
    inside, [inl addonFiles] when it runs to its end. *)
Fixpoint readAddonFiles `{ErrDirNotExistError} (a : Addons) (fileNames : list string)
    (addonFiles : gmap string string) : IO (gmap string string + error) :=
  match fileNames with
  | [] => ret (inl addonFiles)
  | fileName :: fileNames' =>
      let* (content, err) := callReadAddonsFile a (svcName a) fileName in
      match err with
      | Some err =>
          ret (inr (wrapError ("read addons file " +:+ fileName +:+ " under service "
                                 +:+ svcName a +:+ ": " +:+ Error err) err))
      | None => readAddonFiles a fileNames' (addFile addonFiles fileName content)
      end
  end.

Definition Template `{ErrDirNotExistError} (a : Addons) : IO (string * option error) :=
  let* (fileNames, err) := callReadAddonsDir a (svcName a) in
  match err with
  | Some err => ret ("", Some (ErrDirNotExist (svcName a) err))
  | None =>
      let* r := readAddonFiles a (filterYAMLfiles fileNames) ∅ in
      match r with
      | inr err => ret ("", Some err)
      | inl addonFiles =>
          match validateNoMissingFiles addonFiles with
          | Some err => ret ("", Some err)
          | None =>
              let* (content, err) :=
                callParse a addonsTemplatePath
                  {| SvcName := svcName a;
                     Parameters := strings.Split (strings.TrimSpace (index addonFiles paramsFileWithoutExt)) nl;
                     Resources := strings.Split (strings.TrimSpace (index addonFiles resourcesFiles)) nl;
                     Outputs := strings.Split (strings.TrimSpace (index addonFiles outputsFileWithoutExt)) nl |} in
              match err with
              | Some err => ret ("", Some err)
              | None => ret (content, None)
              end
          end
      end
  end.

(** ** The classification made by the [switch] of [Template] *)

Definition nameWithoutExt (fileName : string) : string :=
  strings.TrimSuffix fileName (filepath.Ext fileName).

Definition isYAML (fileName : string) : bool :=
  contains yamlExtensions (filepath.Ext fileName).

Definition isParams (fileName : string) : bool :=
  String.eqb (nameWithoutExt fileName) paramsFileWithoutExt.

Definition isOutputs (fileName : string) : bool :=
  String.eqb (nameWithoutExt fileName) outputsFileWithoutExt.

Definition isResources (fileName : string) : bool :=
  negb (isParams fileName) && negb (isOutputs fileName).

(** The map [addonFiles] at the end of the loop of [Template] when every
    read succeeds: [readAddonFiles] without its calls. *)
Definition aggregate (content : string -> string) (fileNames : list string)
    (addonFiles : gmap string string) : gmap string string :=
  fold_left (fun m f => addFile m f (content f)) fileNames addonFiles.

(** The content [ReadAddonsFile] gives for a file of the service of [a]. *)
Definition contentOf (a : Addons) (fileName : string) : string :=
  fst (ReadAddonsFile (ws a) (svcName a) fileName).

(** The resources block as the specification words it: the trimmed content
    of each resource file followed by a newline, in listing order. *)
Fixpoint resourcesBlock (content : string -> string) (fileNames : list string) : string :=
  match fileNames with
  | [] => ""
  | f :: rest => strings.TrimSpace (content f) +:+ nl +:+ resourcesBlock content rest
  end.

(** A single-valued slot as the specification words it: the trimmed content
    of the last file of the category, nothing when there is none. *)
Definition lastSeen (content : string -> string) (fileNames : list string) : string :=
  match last fileNames with
  | Some f => strings.TrimSpace (content f)
  | None => ""
  end.

(** Every read of a file of [fileNames] succeeds. *)
Definition readsSucceed (a : Addons) (fileNames : list string) : Prop :=
  Forall (fun f => snd (ReadAddonsFile (ws a) (svcName a) f) = None) fileNames.

(** The calls that read the files of [fileNames], in order. *)
Definition readCalls (a : Addons) (fileNames : list string) : list call :=
  map (CallReadAddonsFile (svcName a)) fileNames.

(** The data [Template] hands to the parser for the map [addonFiles]. *)
Definition renderData (a : Addons) (addonFiles : gmap string string) : templateData :=
  {| SvcName := svcName a;
     Parameters := strings.Split (strings.TrimSpace (index addonFiles paramsFileWithoutExt)) nl;
     Resources := strings.Split (strings.TrimSpace (index addonFiles resourcesFiles)) nl;
     Outputs := strings.Split (strings.TrimSpace (index addonFiles outputsFileWithoutExt)) nl |}.

(** What [Template] returns for what [Parse] returned. *)
Definition rendered (r : string * option error) : string * option error :=
  match r with
  | (_, Some err) => ("", Some err)
  | (content, None) => (content, None)
  end.

(** The message of the error of [validateNoMissingFiles]. *)
Definition missingMessage (missing : list string) : string :=
  "addons directory has missing file(s): " +:+ strings.Join missing ", ".

Definition resourcesRequirement : string :=
  "at least one resource YAML file such as " +:+ dquote +:+ "s3-bucket.yaml" +:+ dquote.

(** The error [Template] returns when the read of [fileName] fails with
    [err]. *)
Definition readError `{ErrDirNotExistError} (a : Addons) (fileName : string)
    (err : error) : error :=
  wrapError ("read addons file " +:+ fileName +:+ " under service "
               +:+ svcName a +:+ ": " +:+ Error err) err.

(** The extension test as the specification words it. *)
Definition hasYAMLExtension (fileName : string) : bool :=
  String.eqb (filepath.Ext fileName) ".yaml" || String.eqb (filepath.Ext fileName) ".yml".

(** [a] with another directory listing, everything else the same. *)
Definition withListing (a : Addons) (fileNames : list string) : Addons :=
  {| svcName := svcName a;
     parser := parser a;
     ws := {| ReadAddonsDir := fun _ => (fileNames, None);
              ReadAddonsFile := ReadAddonsFile (ws a) |} |}.

(** ** Fixtures: a workspace given by its files, and a parser that prints
    its data *)

Definition fixtureDirError : ErrDirNotExistError :=
  fun svc _ => "read addons directory for service " +:+ svc.

Fixpoint fixtureFind (files : list (string * string)) (name : string) : option string :=
  match files with
  | [] => None
  | (n, c) :: files' => if String.eqb n name then Some c else fixtureFind files' name
  end.

Definition fixtureWs (files : list (string * string)) : workspaceReader :=
  {| ReadAddonsDir := fun _ => (map fst files, None);
     ReadAddonsFile := fun _ name =>
       match fixtureFind files name with
       | Some c => (c, None)
       | None => ("", Some (errorString "no such file"))
       end |}.

Definition fixtureParser : Parser :=
  {| Parse := fun path data =>
       (path +:+ " " +:+ SvcName data
          +:+ " P[" +:+ strings.Join (Parameters data) "|"
          +:+ "] R[" +:+ strings.Join (Resources data) "|"
          +:+ "] O[" +:+ strings.Join (Outputs data) "|" +:+ "]", None) |}.

Definition fixture (files : list (string * string)) : Addons :=
  {| svcName := "api"; parser := fixtureParser; ws := fixtureWs files |}.

(** A workspace without an addons directory. *)
Definition fixtureNoDir : Addons :=
  {| svcName := "api";
     parser := fixtureParser;
     ws := {| ReadAddonsDir := fun _ =>
                ([], Some (errorString "open addons: no such file or directory"));
              ReadAddonsFile := fun _ _ => ("", Some (errorString "no such file")) |} |}.

(** A parser that fails. *)
Definition fixtureFailingParser : Parser :=
  {| Parse := fun path _ => ("", Some (errorString ("parse " +:+ path))) |}.

(** A byte string from the values of its bytes. *)
Definition bytes (l : list Z) : string :=
  fold_right (fun n s => String (ascii_of_N (Z.to_N n)) s) EmptyString l.

(** ** The constructor [New] *)

(** The constructors of the packages [workspace] and [template] that [New]
    calls: what [workspace.New()] returns (the workspace, which implements
    [workspaceReader], and an error) and the parser [template.New()]
    returns. *)
Class Packages := {
  workspace_New : workspaceReader * option error;
  template_New : Parser
}.

(** [New]; the pointer it returns is [None] for [nil]. *)
Definition New `{ErrDirNotExistError} `{Packages} (svcName : string)
    : option Addons * option error :=
  let '(ws, err) := workspace_New in
  match err with
  | Some err => (None, Some (wrapError ("workspace cannot be created: " +:+ Error err) err))
  | None => (Some {| svcName := svcName; parser := template_New; ws := ws |}, None)
  end.

Definition fixturePackages (files : list (string * string)) : Packages :=
  {| workspace_New := (fixtureWs files, None); template_New := fixtureParser |}.

Definition fixtureNoWorkspace : Packages :=
  {| workspace_New := (fixtureWs [], Some (errorString "workspace not found"));
     template_New := fixtureParser |}.

(** * Package [cli]: the command [svc init] *)

(** ** Package [fmt] and package [strconv] *)
Module fmt.

(** [Sprintf] for the formats of this command: the verbs [%s] and [%w]
    with string operands (an error operand is given by its message) and
    [%%]; a format has as many verbs as operands, or more. *)
Fixpoint Sprintf (format : string) (a : list string) : string :=
  match format with
  | EmptyString => EmptyString
  | String c rest =>
      match rest with
      | String v rest' =>
          if Ascii.eqb c "%" then
            if Ascii.eqb v "s" || Ascii.eqb v "w" then
              match a with
              | x :: a' => x +:+ Sprintf rest' a'
              | [] => "%!" +:+ String v "(MISSING)" +:+ Sprintf rest' []
              end
            else if Ascii.eqb v "%" then String "%" (Sprintf rest' a)
            else String c (Sprintf rest a)
          else String c (Sprintf rest a)
      | EmptyString => if Ascii.eqb c "%" then "%!(NOVERB)" else String c EmptyString
      end
  end.

(** [Errorf] with a format that ends in [%w] for the error [err]. *)
Definition Errorf `{ErrDirNotExistError} (format : string) (a : list string) (err : error)
    : error :=
  wrapError (Sprintf format (a ++ [Error err])%list) err.

End fmt.

Module strconv.

Definition ErrRange : error := errorString "value out of range".
Definition ErrSyntax : error := errorString "invalid syntax".

(** The digits of [u] in base 10, most significant first, before [acc]:
    the loop of [formatBits], [for u >= 10 { ... u = u / 10 }], one digit
    for each iteration.  An [int] has at most 19 digits. *)
Fixpoint formatDecimal (fuel : nat) (u : Z) (acc : string) : string :=
  match fuel with
  | O => acc
  | S fuel' =>
      let acc' := String (ascii_of_N (Z.to_N (0x30 + u mod 10))) acc in
      if u <? 10 then acc' else formatDecimal fuel' (u / 10) acc'
  end.

Definition Itoa (i : Z) : string :=
  if i <? 0 then String "-" (formatDecimal 20 (- i) EmptyString)
  else formatDecimal 20 i EmptyString.

Definition maxUint64 : Z := 2 ^ 64 - 1.

Definition lower (c : Z) : Z := Z.lor c (0x78 - 0x58).

(** A [*NumError] is represented by its message and the error it wraps;
    [Quote] is [strconv.Quote]. *)
Definition NumError `{ErrDirNotExistError} (Quote : string -> string) (Func Num : string)
    (Err : error) : error :=
  wrapError ("strconv." +:+ Func +:+ ": parsing " +:+ Quote Num +:+ ": " +:+ Error Err) Err.

(** The loop of [ParseUint] over the bytes of [s]: the number read, or the
    value and error returned from inside. *)
Fixpoint parseUintLoop `{ErrDirNotExistError} (Quote : string -> string) (s0 : string) (base cutoff maxVal : Z)
    (s : string) (n : Z) : Z * option error :=
  match s with
  | EmptyString => (n, None)
  | String ch s' =>
      let c := byteZ ch in
      let d :=
        if (0x30 <=? c) && (c <=? 0x39) then Some (c - 0x30)
        else if (0x61 <=? lower c) && (lower c <=? 0x7A) then Some (lower c - 0x61 + 10)
        else None in
      match d with
      | None => (0, Some (NumError Quote "ParseUint" s0 ErrSyntax))
      | Some d =>
          if base <=? d then (0, Some (NumError Quote "ParseUint" s0 ErrSyntax))
          else if cutoff <=? n then (maxVal, Some (NumError Quote "ParseUint" s0 ErrRange))
          else
            let n := (n * base) mod 2 ^ 64 in
            let n1 := (n + d) mod 2 ^ 64 in
            if (n1 <? n) || (maxVal <? n1)
            then (maxVal, Some (NumError Quote "ParseUint" s0 ErrRange))
            else parseUintLoop Quote s0 base cutoff maxVal s' n1
      end
  end.

(** [ParseUint] for a base from 2 to 36 and a bit size from 1 to 64 (the
    command calls it with 10 and 16). *)
Definition ParseUint `{ErrDirNotExistError} (Quote : string -> string) (s : string) (base bitSize : Z)
    : Z * option error :=
  if String.eqb s "" then (0, Some (NumError Quote "ParseUint" s ErrSyntax))
  else
    let cutoff := maxUint64 / base + 1 in
    let maxVal := Z.shiftl 1 bitSize - 1 in
    parseUintLoop Quote s base cutoff maxVal s 0.

End strconv.

(** The value of the decimal digits of [s], read after the number [n]. *)
Fixpoint decimalValue (s : string) (n : Z) : Z :=
  match s with
  | EmptyString => n
  | String ch s' => decimalValue s' (n * 10 + (byteZ ch - 0x30))
  end.

(** Every byte of [s] is a decimal digit. *)
Fixpoint allDigits (s : string) : Prop :=
  match s with
  | EmptyString => True
  | String ch s' => (0x30 <= byteZ ch <= 0x39) /\ allDigits s'
  end.

Module cli.

Module config.
(** The fields of [config.Service] that the command sets and reads. *)
Record Service : Type := { App : string; Name : string; Type' : string }.
End config.

Module manifest.
Record ServiceProps : Type := { Name : string; Dockerfile : string }.

Record LoadBalancedWebServiceProps : Type := {
  lbServiceProps : ServiceProps;
  lbPort : Z;
  lbPath : string
}.

Record BackendServiceProps : Type := {
  beServiceProps : ServiceProps;
  bePort : Z
}.

(** A manifest, given by the constructor that builds it,
    [NewLoadBalancedWebService] or [NewBackendService], and its
    properties. *)
Inductive Manifest : Type :=
| NewLoadBalancedWebService (props : LoadBalancedWebServiceProps)
| NewBackendService (props : BackendServiceProps).
End manifest.

Module workspace.
(** The errors of [WriteServiceManifest]: an [*ErrFileExists], or another
    error. *)
Inductive writeError : Type :=
| ErrFileExists (FileName : string)
| otherError (err : error).
End workspace.

(** The package-level functions of the log, by name. *)
Inductive logFn : Type := Infoln | Infof | Successf | Debugln.

(** The validators handed to the prompt. *)
Inductive validator : Type := ValidateSvcName | ValidateSvcPort.

(** What the command uses and is declared in other files of the package or
    in other packages: types, constants and functions. *)
Class Declarations : Type := {
  Application : Type;
  LoadBalancedWebServiceType : string;
  BackendServiceType : string;
  ServiceTypes : list string;
  errNoAppInWorkspace : error;
  validateSvcType : string -> option error;
  validateSvcName : string -> option error;
  validateSvcPort : Z -> option error;
  Emphasize : string -> string;
  HighlightUserInput : string -> string;
  HighlightResource : string -> string;
  Serrorf : string -> list string -> string;
  Ssuccessf : string -> list string -> string;
  relPath : string -> string * option error;
  listDockerfiles : string -> list string * option error;
  Quote : string -> string
}.

Section SvcInit.
Context `{ErrDirNotExistError} `{Declarations}.

(** *** The interfaces of the dependencies *)

Record prompter : Type := {
  SelectOne : string -> string -> list string -> string * option error;
  Get : string -> string -> validator -> option string -> string * option error
}.

Record store : Type := {
  GetApplication : string -> option Application * option error;
  ListServices : string -> list config.Service * option error;
  CreateService : config.Service -> option error
}.

(** The manifest handed to [WriteServiceManifest] is an interface value:
    [None] is [nil]. *)
Record svcManifestWriter : Type := {
  WriteServiceManifest :
    option manifest.Manifest -> string -> string * option workspace.writeError
}.

Record appDeployer : Type := {
  AddServiceToApp : option Application -> string -> option error
}.

Record dockerfileParser : Type := {
  GetExposedPorts : list Z * option error
}.

(** [afero.Fs]: of [Stat] only the error is used. *)
Record Fs : Type := { Stat : string -> option error }.

(** [GlobalOpts]; [AppName] is the result of its method of that name. *)
Record GlobalOpts : Type := { AppName : string; prompt : prompter }.

Record initSvcVars : Type := {
  globalOpts : GlobalOpts;
  ServiceType : string;
  Name : string;
  DockerfilePath : string;
  Port : Z
}.

(** [initSvcOpts].  The progress indicator [prog] has no result: its calls
    are events.  [setupParser] is given by the parser it stores in [df], as
    a function of the variables it reads. *)
Record initSvcOpts : Type := {
  vars : initSvcVars;
  fs : Fs;
  ws : svcManifestWriter;
  store_ : store;
  deployer : appDeployer;
  df : option dockerfileParser;
  manifestPath : string;
  setupParser : initSvcVars -> dockerfileParser
}.

(** Calls to the dependencies and to the log, in the order they are made. *)
Inductive event : Type :=
| EvGetApplication (app : string)
| EvListServices (app : string)
| EvCreateService (svc : config.Service)
| EvWriteServiceManifest (m : option manifest.Manifest) (name : string)
| EvAddServiceToApp (app : option Application) (svc : string)
| EvStart (label : string)
| EvStop (label : string)
| EvStat (path : string)
| EvSelectOne (message help : string) (options : list string)
| EvGet (message help : string) (v : validator) (defaultInput : option string)
| EvGetExposedPorts
| EvListDockerfiles (dir : string)
| EvRelPath (path : string)
| EvLog (fn : logFn) (args : list string).

(** Methods of [*initSvcOpts]: the options and the events are threaded
    through. *)
Definition M (A : Type) : Type := initSvcOpts -> list event -> A * initSvcOpts * list event.

Definition retM {A : Type} (x : A) : M A := fun o evs => (x, o, evs).

Definition bindM {A B : Type} (m : M A) (k : A -> M B) : M B :=
  fun o evs => let '(x, o', evs') := m o evs in k x o' evs'.

Notation "'let!' x ':=' c1 'in' c2" := (bindM c1 (fun x => c2))
  (at level 10, x pattern, c1 at level 100, c2 at level 200).

Definition getOpts : M initSvcOpts := fun o evs => (o, o, evs).

Definition emit (e : event) : M unit := fun o evs => (tt, o, (evs ++ [e])%list).

Definition setVars (f : initSvcVars -> initSvcVars) : M unit :=
  fun o evs =>
    (tt, {| vars := f (vars o); fs := fs o; ws := ws o; store_ := store_ o;
            deployer := deployer o; df := df o; manifestPath := manifestPath o;
            setupParser := setupParser o |}, evs).

Definition setServiceType (t : string) : M unit :=
  setVars (fun v => {| globalOpts := globalOpts v; ServiceType := t; Name := Name v;
                       DockerfilePath := DockerfilePath v; Port := Port v |}).

Definition setName (n : string) : M unit :=
  setVars (fun v => {| globalOpts := globalOpts v; ServiceType := ServiceType v; Name := n;
                       DockerfilePath := DockerfilePath v; Port := Port v |}).

Definition setDockerfilePath (p : string) : M unit :=
  setVars (fun v => {| globalOpts := globalOpts v; ServiceType := ServiceType v; Name := Name v;
                       DockerfilePath := p; Port := Port v |}).

Definition setPort (p : Z) : M unit :=
  setVars (fun v => {| globalOpts := globalOpts v; ServiceType := ServiceType v; Name := Name v;
                       DockerfilePath := DockerfilePath v; Port := p |}).

Definition setManifestPath (p : string) : M unit :=
  fun o evs =>
    (tt, {| vars := vars o; fs := fs o; ws := ws o; store_ := store_ o;
            deployer := deployer o; df := df o; manifestPath := p;
            setupParser := setupParser o |}, evs).

Definition setDf (d : dockerfileParser) : M unit :=
  fun o evs =>
    (tt, {| vars := vars o; fs := fs o; ws := ws o; store_ := store_ o;
            deployer := deployer o; df := Some d; manifestPath := manifestPath o;
            setupParser := setupParser o |}, evs).

(** *** The constants of the file *)

Definition svcInitSvcTypePrompt : string :=
  "Which type of " +:+ Emphasize "infrastructure pattern" +:+ " best represents your service?".

Definition fmtSvcInitSvcTypeHelpPrompt : string :=
  "A %s is a public, internet-facing, HTTP server that's behind a load balancer. " +:+ nl
  +:+ "To learn more see: https://git.io/JfIpv" +:+ nl +:+ nl
  +:+ "A %s is a private, non internet-facing service." +:+ nl
  +:+ "To learn more see: https://git.io/JfIpT".

Definition fmtSvcInitSvcNamePrompt : string :=
  "What do you want to " +:+ Emphasize "name" +:+ " this %s?".

Definition fmtSvcInitSvcNameHelpPrompt : string :=
  "The name will uniquely identify this service within your app %s." +:+ nl
  +:+ "Deployed resources (such as your service, logs) will contain this service's name and be tagged with it.".

Definition fmtSvcInitDockerfilePrompt : string :=
  "Which Dockerfile would you like to use for %s?".
Definition svcInitDockerfileHelpPrompt : string :=
  "Dockerfile to use for building your service's container image.".

Definition svcInitSvcPortPrompt : string :=
  "Which port do you want customer traffic sent to?".
Definition svcInitSvcPortHelpPrompt : string :=
  "The port will be used by the load balancer to route incoming traffic to this service." +:+ nl
  +:+ "You should set this to the port which your Dockerfile uses to communicate with the internet.".

Definition fmtAddSvcToAppStart : string := "Creating ECR repositories for service %s.".
Definition fmtAddSvcToAppFailed : string := "Failed to create ECR repositories for service %s.".
Definition fmtAddSvcToAppComplete : string := "Created ECR repositories for service %s.".

Definition fmtParsePortFromDockerfileStart : string :=
  "Parsing dockerfile at path %s for service %s..." +:+ nl.
Definition parseFromDockerfileTooManyPorts : string :=
  "It looks like your Dockerfile exposes more than one port." +:+ nl.
Definition fmtParseFromDockerfileNoPort : string :=
  "Couldn't find an exposed port in dockerfile for service %s." +:+ nl.
Definition fmtParsePortFromDockerfileComplete : string :=
  "It looks like your Dockerfile exposes port %s. We'll use that to route traffic to your container from your load balancer." +:+ nl.

Definition defaultSvcPortString : string := "80".

(** *** Calls to the dependencies *)

Definition callStat (path : string) : M (option error) :=
  fun o evs => (Stat (fs o) path, o, (evs ++ [EvStat path])%list).

Definition callSelectOne (message help : string) (options : list string)
    : M (string * option error) :=
  fun o evs => (SelectOne (prompt (globalOpts (vars o))) message help options, o,
                (evs ++ [EvSelectOne message help options])%list).

Definition callGet (message help : string) (v : validator) (defaultInput : option string)
    : M (string * option error) :=
  fun o evs => (Get (prompt (globalOpts (vars o))) message help v defaultInput, o,
                (evs ++ [EvGet message help v defaultInput])%list).

Definition callGetApplication (app : string) : M (option Application * option error) :=
  fun o evs => (GetApplication (store_ o) app, o, (evs ++ [EvGetApplication app])%list).

Definition callListServices (app : string) : M (list config.Service * option error) :=
  fun o evs => (ListServices (store_ o) app, o, (evs ++ [EvListServices app])%list).

Definition callCreateService (svc : config.Service) : M (option error) :=
  fun o evs => (CreateService (store_ o) svc, o, (evs ++ [EvCreateService svc])%list).

Definition callWriteServiceManifest (m : option manifest.Manifest) (name : string)
    : M (string * option workspace.writeError) :=
  fun o evs => (WriteServiceManifest (ws o) m name, o,
                (evs ++ [EvWriteServiceManifest m name])%list).

Definition callAddServiceToApp (app : option Application) (svc : string) : M (option error) :=
  fun o evs => (AddServiceToApp (deployer o) app svc, o,
                (evs ++ [EvAddServiceToApp app svc])%list).

(** [o.df.GetExposedPorts()]; [df] has been set by [setupParser]. *)
Definition callGetExposedPorts : M (list Z * option error) :=
  fun o evs =>
    (match df o with
     | Some d => GetExposedPorts d
     | None => ([], None)
     end, o, (evs ++ [EvGetExposedPorts])%list).

Definition callListDockerfiles (dir : string) : M (list string * option error) :=
  fun o evs => (listDockerfiles dir, o, (evs ++ [EvListDockerfiles dir])%list).

Definition callRelPath (path : string) : M (string * option error) :=
  fun o evs => (relPath path, o, (evs ++ [EvRelPath path])%list).

Definition logCall (fn : logFn) (args : list string) : M unit := emit (EvLog fn args).

(** *** [Validate] *)

Definition Validate : M (option error) :=
  let! o := getOpts in
  if String.eqb (AppName (globalOpts (vars o))) "" then retM (Some errNoAppInWorkspace)
  else
    match (if negb (String.eqb (ServiceType (vars o)) "")
           then validateSvcType (ServiceType (vars o)) else None) with
    | Some err => retM (Some err)
    | None =>
        match (if negb (String.eqb (Name (vars o)) "")
               then validateSvcName (Name (vars o)) else None) with
        | Some err => retM (Some err)
        | None =>
            let! statErr :=
              (if negb (String.eqb (DockerfilePath (vars o)) "")
               then callStat (DockerfilePath (vars o)) else retM None) in
            match statErr with
            | Some err => retM (Some err)
            | None =>
                match (if negb (Port (vars o) =? 0)
                       then validateSvcPort (Port (vars o)) else None) with
                | Some err => retM (Some err)
                | None => retM None
                end
            end
        end
    end.

(** *** [Ask] and the four questions *)

Definition askSvcType : M (option error) :=
  let! o := getOpts in
  if negb (String.eqb (ServiceType (vars o)) "") then retM None
  else
    let help := fmt.Sprintf fmtSvcInitSvcTypeHelpPrompt
                  [LoadBalancedWebServiceType; BackendServiceType] in
    let! (t, err) := callSelectOne svcInitSvcTypePrompt help ServiceTypes in
    match err with
    | Some err => retM (Some (fmt.Errorf "select service type: %w" [] err))
    | None => let! _ := setServiceType t in retM None
    end.

Definition askSvcName : M (option error) :=
  let! o := getOpts in
  if negb (String.eqb (Name (vars o)) "") then retM None
  else
    let! (name, err) :=
      callGet (fmt.Sprintf fmtSvcInitSvcNamePrompt [HighlightUserInput (ServiceType (vars o))])
              (fmt.Sprintf fmtSvcInitSvcNameHelpPrompt [AppName (globalOpts (vars o))])
              ValidateSvcName None in
    match err with
    | Some err => retM (Some (fmt.Errorf "get service name: %w" [] err))
    | None => let! _ := setName name in retM None
    end.

Definition askDockerfile : M (option error) :=
  let! o := getOpts in
  if negb (String.eqb (DockerfilePath (vars o)) "") then retM None
  else
    let! (dockerfiles, err) := callListDockerfiles "." in
    match err with
    | Some err => retM (Some err)
    | None =>
        let! (sel, err) :=
          callSelectOne
            (fmt.Sprintf fmtSvcInitDockerfilePrompt [HighlightUserInput (Name (vars o))])
            svcInitDockerfileHelpPrompt dockerfiles in
        match err with
        | Some err => retM (Some (fmt.Errorf "select Dockerfile: %w" [] err))
        | None => let! _ := setDockerfilePath sel in retM None
        end
    end.

(** The end of [askSvcPort]: the prompt, with the default [defaultPort], and
    the parsing of the answer. *)
Definition promptSvcPort (defaultPort : string) : M (option error) :=
  let! (port, err) :=
    callGet (fmt.Sprintf svcInitSvcPortPrompt []) (fmt.Sprintf svcInitSvcPortHelpPrompt [])
            ValidateSvcPort (Some defaultPort) in
  match err with
  | Some err => retM (Some (fmt.Errorf "get port: %w" [] err))
  | None =>
      let '(portUint, err) := strconv.ParseUint Quote port 10 16 in
      match err with
      | Some err => retM (Some (fmt.Errorf "parse port string: %w" [] err))
      | None => let! _ := setPort (portUint mod 2 ^ 16) in retM None
      end
  end.

Definition askSvcPort : M (option error) :=
  let! o := getOpts in
  if negb (Port (vars o) =? 0) then retM None
  else
    let! _ := logCall Infof [fmtParsePortFromDockerfileStart;
                             HighlightUserInput (DockerfilePath (vars o));
                             HighlightUserInput (Name (vars o))] in
    let! _ := setDf (setupParser o (vars o)) in
    let! (ports, err) := callGetExposedPorts in
    let! _ := (match err with
               | Some err => logCall Debugln [Error err]
               | None => retM tt
               end) in
    match ports with
    | [] =>
        let! _ := logCall Infof [fmtParseFromDockerfileNoPort;
                                 HighlightUserInput (Name (vars o))] in
        promptSvcPort defaultSvcPortString
    | [p] =>
        let! _ := setPort p in
        let! _ := logCall Successf [fmtParsePortFromDockerfileComplete;
                                    HighlightUserInput (strconv.Itoa p)] in
        retM None
    | p :: _ =>
        let! _ := logCall Infoln [parseFromDockerfileTooManyPorts] in
        promptSvcPort (strconv.Itoa p)
    end.

Definition Ask : M (option error) :=
  let! err := askSvcType in
  match err with
  | Some err => retM (Some err)
  | None =>
      let! err := askSvcName in
      match err with
      | Some err => retM (Some err)
      | None =>
          let! err := askDockerfile in
          match err with
          | Some err => retM (Some err)
          | None =>
              let! err := askSvcPort in
              match err with
              | Some err => retM (Some err)
              | None => retM None
              end
          end
      end
  end.

(** *** The manifest *)

(** The loop of [newLoadBalancedWebServiceManifest] over the existing
    services: the path, [path] unless the loop sets it. *)
Fixpoint pathLoop (name path : string) (existingSvcs : list config.Service) : string :=
  match existingSvcs with
  | [] => path
  | existingSvc :: rest =>
      if String.eqb (config.Type' existingSvc) LoadBalancedWebServiceType
         && negb (String.eqb (config.Name existingSvc) name)
      then name
      else pathLoop name path rest
  end.

Definition newLoadBalancedWebServiceManifest : M (option manifest.Manifest * option error) :=
  let! o := getOpts in
  let! (existingSvcs, err) := callListServices (AppName (globalOpts (vars o))) in
  match err with
  | Some err => retM (None, Some err)
  | None =>
      retM (Some (manifest.NewLoadBalancedWebService
                    {| manifest.lbServiceProps :=
                         {| manifest.Name := Name (vars o);
                            manifest.Dockerfile := DockerfilePath (vars o) |};
                       manifest.lbPort := Port (vars o);
                       manifest.lbPath := pathLoop (Name (vars o)) "/" existingSvcs |}),
            None)
  end.

Definition newBackendServiceManifest : M (option manifest.Manifest * option error) :=
  let! o := getOpts in
  retM (Some (manifest.NewBackendService
                {| manifest.beServiceProps :=
                     {| manifest.Name := Name (vars o);
                        manifest.Dockerfile := DockerfilePath (vars o) |};
                   manifest.bePort := Port (vars o) |}),
        None).

Definition newManifest : M (option manifest.Manifest * option error) :=
  let! o := getOpts in
  if String.eqb (ServiceType (vars o)) LoadBalancedWebServiceType
  then newLoadBalancedWebServiceManifest
  else if String.eqb (ServiceType (vars o)) BackendServiceType
  then newBackendServiceManifest
  else retM (None, Some (errorString (fmt.Sprintf "service type %s doesn't have a manifest"
                                        [ServiceType (vars o)]))).

Definition createManifest : M (string * option error) :=
  let! o := getOpts in
  let! (m, err) := newManifest in
  match err with
  | Some err => retM ("", Some err)
  | None =>
      let! (manifestPath, werr) := callWriteServiceManifest m (Name (vars o)) in
      match (match werr with
             | Some (workspace.otherError err) => inr err
             | Some (workspace.ErrFileExists FileName) => inl (true, FileName)
             | None => inl (false, manifestPath)
             end) with
      | inr err => retM ("", Some err)
      | inl (manifestExists, manifestPath) =>
          let! (manifestPath, err) := callRelPath manifestPath in
          match err with
          | Some err => retM ("", Some err)
          | None =>
              let! _ := logCall Infoln [] in
              let manifestMsgFmt :=
                if manifestExists : bool
                then "Manifest file for service %s already exists at %s, skipping writing it." +:+ nl
                else "Wrote the manifest for service %s at %s" +:+ nl in
              let! _ := logCall Successf [manifestMsgFmt; HighlightUserInput (Name (vars o));
                                          HighlightResource manifestPath] in
              let! _ := logCall Infoln
                          ["Your manifest contains configurations like your container size and ports."] in
              let! _ := logCall Infoln [] in
              retM (manifestPath, None)
          end
      end
  end.

(** *** [Execute] *)

Definition Execute : M (option error) :=
  let! o := getOpts in
  let! (app, err) := callGetApplication (AppName (globalOpts (vars o))) in
  match err with
  | Some err =>
      retM (Some (fmt.Errorf "get application %s: %w" [AppName (globalOpts (vars o))] err))
  | None =>
      let! (manifestPath, err) := createManifest in
      match err with
      | Some err => retM (Some err)
      | None =>
          let! _ := setManifestPath manifestPath in
          let! _ := emit (EvStart (fmt.Sprintf fmtAddSvcToAppStart [Name (vars o)])) in
          let! err := callAddServiceToApp app (Name (vars o)) in
          match err with
          | Some err =>
              let! _ := emit (EvStop (Serrorf fmtAddSvcToAppFailed [Name (vars o)])) in
              retM (Some (fmt.Errorf "add service %s to application %s: %w"
                            [Name (vars o); AppName (globalOpts (vars o))] err))
          | None =>
              let! _ := emit (EvStop (Ssuccessf fmtAddSvcToAppComplete [Name (vars o)])) in
              let! err := callCreateService
                            {| config.App := AppName (globalOpts (vars o));
                               config.Name := Name (vars o);
                               config.Type' := ServiceType (vars o) |} in
              match err with
              | Some err => retM (Some (fmt.Errorf "saving service %s: %w" [Name (vars o)] err))
              | None => retM None
              end
          end
      end
  end.

(** The events [createManifest] can make. *)
Definition manifestEvent (e : event) : Prop :=
  match e with
  | EvListServices _ | EvWriteServiceManifest _ _ | EvRelPath _ | EvLog _ _ => True
  | _ => False
  end.

(** The variables that were given in [o] have the same value in [o']. *)
Definition keepsGiven (o o' : initSvcOpts) : Prop :=
  (ServiceType (vars o) <> "" -> ServiceType (vars o') = ServiceType (vars o))
  /\ (Name (vars o) <> "" -> Name (vars o') = Name (vars o))
  /\ (DockerfilePath (vars o) <> "" -> DockerfilePath (vars o') = DockerfilePath (vars o))
  /\ (Port (vars o) <> 0 -> Port (vars o') = Port (vars o)).

(** The events of the prompt. *)
Definition promptEvent (e : event) : Prop :=
  match e with
  | EvSelectOne _ _ _ | EvGet _ _ _ _ => True
  | _ => False
  end.

End SvcInit.

(** *** Fixtures *)

Definition fixtureDeclarations : Declarations :=
  {| Application := string;
     LoadBalancedWebServiceType := "Load Balanced Web Service";
     BackendServiceType := "Backend Service";
     ServiceTypes := ["Load Balanced Web Service"; "Backend Service"];
     errNoAppInWorkspace := errorString "no application in workspace";
     validateSvcType := fun t =>
       if String.eqb t "Load Balanced Web Service" || String.eqb t "Backend Service"
       then None else Some (errorString "invalid service type");
     validateSvcName := fun _ => None;
     validateSvcPort := fun p =>
       if (0 <? p) && (p <=? 65535) then None else Some (errorString "invalid port");
     Emphasize := fun s => s;
     HighlightUserInput := fun s => s;
     HighlightResource := fun s => s;
     Serrorf := fun format a => "x " +:+ fmt.Sprintf format a;
     Ssuccessf := fun format a => "v " +:+ fmt.Sprintf format a;
     relPath := fun p => (p, None);
     listDockerfiles := fun _ => (["Dockerfile"; "backend/Dockerfile"], None);
     Quote := fun s => dquote +:+ s +:+ dquote |}.

(** Options over a store that holds the services [existing], a Dockerfile
    that exposes [ports], a prompt that answers [answer], and a workspace
    where the manifest cannot be written again when [exists_] is set. *)
Definition fixtureOpts (svcType name dockerfile : string) (port : Z)
    (existing : list config.Service) (ports : list Z) (answer : string) (exists_ : bool)
    : @initSvcOpts fixtureDeclarations :=
  {| vars := {| globalOpts :=
                  {| AppName := "demo";
                     prompt := {| SelectOne := fun _ _ _ => (answer, None);
                                  Get := fun _ _ _ _ => (answer, None) |} |};
                ServiceType := svcType; Name := name; DockerfilePath := dockerfile;
                Port := port |};
     fs := {| Stat := fun _ => None |};
     ws := {| WriteServiceManifest := fun _ n =>
                if exists_
                then ("", Some (workspace.ErrFileExists (n +:+ "/manifest.yml")))
                else (n +:+ "/manifest.yml", None) |};
     store_ := @Build_store fixtureDeclarations
                 (fun app => (Some app, None)) (fun _ => (existing, None)) (fun _ => None);
     deployer := @Build_appDeployer fixtureDeclarations (fun _ _ => None);
     df := None;
     manifestPath := "";
     setupParser := fun _ => {| GetExposedPorts := (ports, None) |} |}.

(** The same options with a prompt that returns the default it is offered
    (the first option of a selection). *)
Definition fixtureOptsEnter (svcType name dockerfile : string) (port : Z)
    (existing : list config.Service) (ports : list Z) (exists_ : bool)
    : @initSvcOpts fixtureDeclarations :=
  let o := fixtureOpts svcType name dockerfile port existing ports "" exists_ in
  {| vars := {| globalOpts :=
                  {| AppName := "demo";
                     prompt := {| SelectOne := fun _ _ options => (hd "" options, None);
                                  Get := fun _ _ _ d => (default "" d, None) |} |};
                ServiceType := svcType; Name := name; DockerfilePath := dockerfile;
                Port := port |};
     fs := fs o; ws := ws o; store_ := store_ o; deployer := deployer o;
     df := df o; manifestPath := manifestPath o; setupParser := setupParser o |}.

End cli.

(** * Properties *)

(** ** The library functions on sample inputs *)

Example TrimSpace_ascii :
  strings.TrimSpace ("  a b " +:+ nl) = "a b"
  /\ strings.TrimSpace (bytes [32; 9; 10; 11; 12; 13]) = ""
  /\ strings.TrimSpace "" = "".
Proof. repeat split; vm_compute; reflexivity. Qed.

(** U+00A0, U+2003, U+3000 and U+0085 are spaces and are trimmed. *)
Example TrimSpace_unicode :
  strings.TrimSpace (bytes [194; 160; 32; 97; 226; 128; 131]) = "a"
  /\ strings.TrimSpace (bytes [97; 227; 128; 128; 194; 133; 10]) = "a".
Proof. repeat split; vm_compute; reflexivity. Qed.

(** Bytes that are not valid UTF-8 decode to [RuneError] and stay. *)
Example TrimSpace_invalid_utf8 :
  strings.TrimSpace (bytes [32; 160; 97; 195; 160; 32; 226; 128])
  = bytes [160; 97; 195; 160; 32; 226; 128].
Proof. vm_compute; reflexivity. Qed.

Example Split_newline :
  strings.Split ("a" +:+ nl +:+ nl +:+ "b") nl = ["a"; ""; "b"]
  /\ strings.Split "" nl = [""]
  /\ strings.Split ("a" +:+ nl) nl = ["a"; ""].
Proof. repeat split; vm_compute; reflexivity. Qed.

Example Join_comma :
  strings.Join ["a"; "b"; "c"] ", " = "a, b, c" /\ strings.Join [] ", " = "".
Proof. split; reflexivity. Qed.

Example Ext_samples :
  map filepath.Ext ["a.yaml"; "a.b.yml"; "noext"; "dir.d/file"; ".yaml"; "a."; "a.YAML"]
  = [".yaml"; ".yml"; ""; ""; ".yaml"; "."; ".YAML"].
Proof. vm_compute; reflexivity. Qed.

Example TrimSuffix_samples :
  strings.TrimSuffix "params.txt.yaml" ".yaml" = "params.txt"
  /\ strings.TrimSuffix "params.yaml" ".yml" = "params.yaml".
Proof. split; vm_compute; reflexivity. Qed.

(** ** Strings *)

Lemma append_nil_l (t : string) : "" +:+ t = t.
Proof. reflexivity. Qed.

Lemma append_cons (c : ascii) (s t : string) : String c s +:+ t = String c (s +:+ t).
Proof. reflexivity. Qed.

Ltac string_simpl := rewrite ?append_cons, ?append_nil_l; simpl.

Lemma append_nil_r (s : string) : s +:+ "" = s.
Proof. induction s as [|c s IH]; string_simpl; [reflexivity | now rewrite IH]. Qed.

Lemma append_assoc (s t u : string) : (s +:+ t) +:+ u = s +:+ t +:+ u.
Proof. induction s as [|c s IH]; string_simpl; [reflexivity | now rewrite IH]. Qed.

Lemma length_append (s t : string) :
  String.length (s +:+ t) = (String.length s + String.length t)%nat.
Proof. induction s as [|c s IH]; string_simpl; [reflexivity | now rewrite IH]. Qed.

Lemma append_eq_nil (s t : string) : s +:+ t = "" -> s = "" /\ t = "".
Proof. destruct s; string_simpl; [tauto | discriminate]. Qed.

Lemma substring_0_0 (s : string) : String.substring 0 0 s = "".
Proof. destruct s; reflexivity. Qed.

Lemma substring_all (s : string) : String.substring 0 (String.length s) s = s.
Proof. induction s as [|c s IH]; simpl; [reflexivity | now rewrite IH]. Qed.

Lemma substring_prefix (p e : string) :
  String.substring 0 (String.length p) (p +:+ e) = p.
Proof.
  induction p as [|c p IH]; string_simpl; [apply substring_0_0 | now rewrite IH].
Qed.

Lemma substring_suffix (p e : string) :
  String.substring (String.length p) (String.length e) (p +:+ e) = e.
Proof. induction p as [|c p IH]; string_simpl; [apply substring_all | exact IH]. Qed.

Lemma substring_split (s : string) (i : nat) :
  (i <= String.length s)%nat ->
  String.substring 0 i s +:+ String.substring i (String.length s - i) s = s.
Proof.
  revert i; induction s as [|c s IH]; intros [|i] Hi; simpl in *; try lia.
  - reflexivity.
  - string_simpl. now rewrite substring_all.
  - string_simpl. rewrite IH by lia. reflexivity.
Qed.

Lemma TrimSuffix_append (p e : string) : strings.TrimSuffix (p +:+ e) e = p.
Proof.
  unfold strings.TrimSuffix, strings.HasSuffix, slice.
  rewrite length_append.
  replace (String.length p + String.length e - String.length e)%nat
    with (String.length p) by lia.
  replace (String.length p + String.length e - String.length p)%nat
    with (String.length e) by lia.
  rewrite substring_suffix, String.eqb_refl.
  replace (String.length e <=? String.length p + String.length e)%nat with true
    by (symmetry; apply Nat.leb_le; lia).
  simpl. rewrite Nat.sub_0_r. apply substring_prefix.
Qed.

(** [Ext] gives a suffix of its argument. *)
Lemma extLoop_suffix (path : string) (n : nat) :
  (n <= String.length path)%nat -> exists p, p +:+ filepath.extLoop path n = path.
Proof.
  induction n as [|i IH]; intros Hn; simpl.
  - exists path. apply append_nil_r.
  - destruct (String.get i path) as [c|]; [|exists path; apply append_nil_r].
    destruct (filepath.IsPathSeparator c); [exists path; apply append_nil_r|].
    destruct (Ascii.eqb c "."); [|apply IH; lia].
    exists (String.substring 0 i path). unfold slice. apply substring_split. lia.
Qed.

Lemma Ext_suffix (path : string) : exists p, p +:+ filepath.Ext path = path.
Proof. apply extLoop_suffix. lia. Qed.

(** Stripping the extension and putting it back gives the name. *)
Lemma nameWithoutExt_Ext (fileName : string) :
  nameWithoutExt fileName +:+ filepath.Ext fileName = fileName.
Proof.
  unfold nameWithoutExt. destruct (Ext_suffix fileName) as [p Hp].
  rewrite <- Hp at 1. rewrite TrimSuffix_append. exact Hp.
Qed.

Lemma contains_yamlExtensions (ext : string) :
  contains yamlExtensions ext = true <-> ext = ".yaml" \/ ext = ".yml".
Proof.
  cbv [yamlExtensions contains].
  destruct (String.eqb_spec ".yaml" ext) as [E1|N1];
    [|destruct (String.eqb_spec ".yml" ext) as [E2|N2]].
  - split; auto.
  - split; auto.
  - split; [discriminate | intros [E|E]; congruence].
Qed.

Lemma isYAML_iff (f : string) :
  isYAML f = true <-> filepath.Ext f = ".yaml" \/ filepath.Ext f = ".yml".
Proof. apply contains_yamlExtensions. Qed.

(** ** The classifier *)

Lemma filterYAMLfilesLoop_filter (files yamlFiles : list string) :
  filterYAMLfilesLoop files yamlFiles = (yamlFiles ++ List.filter isYAML files)%list.
Proof.
  revert yamlFiles; induction files as [|f files IH]; intros yamlFiles;
    cbn [filterYAMLfilesLoop List.filter].
  - now rewrite app_nil_r.
  - fold (isYAML f). destruct (isYAML f); cbn [negb].
    + rewrite IH, <- app_assoc. reflexivity.
    + apply IH.
Qed.

Lemma filterYAMLfiles_filter (files : list string) :
  filterYAMLfiles files = List.filter isYAML files.
Proof. apply filterYAMLfilesLoop_filter. Qed.

(** ** The map [addonFiles] *)

Lemma index_empty (k : string) : index ∅ k = "".
Proof. unfold index. now rewrite lookup_empty. Qed.

Lemma index_insert_eq (m : gmap string string) (k v : string) :
  index (<[k := v]> m) k = v.
Proof. unfold index. now rewrite lookup_insert_eq. Qed.

Lemma index_insert_ne (m : gmap string string) (k k' v : string) :
  k <> k' -> index (<[k := v]> m) k' = index m k'.
Proof. intros Hne. unfold index. now rewrite lookup_insert_ne. Qed.

Lemma params_ne_outputs : paramsFileWithoutExt <> outputsFileWithoutExt.
Proof. discriminate. Qed.

Lemma params_ne_resources : paramsFileWithoutExt <> resourcesFiles.
Proof. discriminate. Qed.

Lemma outputs_ne_resources : outputsFileWithoutExt <> resourcesFiles.
Proof. discriminate. Qed.

Create HintDb addons.
#[local] Hint Resolve params_ne_outputs params_ne_resources outputs_ne_resources : addons.

Lemma isParams_not_isOutputs (f : string) : isParams f = true -> isOutputs f = false.
Proof.
  unfold isParams, isOutputs. intros H%String.eqb_eq. rewrite H. reflexivity.
Qed.

Lemma addFile_params (m : gmap string string) (f c : string) :
  isParams f = true ->
  addFile m f c = <[paramsFileWithoutExt := strings.TrimSpace c]> m.
Proof. unfold addFile, isParams, nameWithoutExt. now intros ->. Qed.

Lemma addFile_outputs (m : gmap string string) (f c : string) :
  isOutputs f = true ->
  addFile m f c = <[outputsFileWithoutExt := strings.TrimSpace c]> m.
Proof.
  intros H. unfold addFile. fold (nameWithoutExt f). fold (isParams f) (isOutputs f).
  rewrite H. destruct (isParams f) eqn:E; [|reflexivity].
  apply isParams_not_isOutputs in E. congruence.
Qed.

Lemma addFile_resources (m : gmap string string) (f c : string) :
  isResources f = true ->
  addFile m f c =
    <[resourcesFiles := index m resourcesFiles +:+ strings.TrimSpace c +:+ nl]> m.
Proof.
  unfold isResources. intros [H1 H2]%andb_true_iff.
  apply negb_true_iff in H1, H2.
  unfold addFile. fold (nameWithoutExt f). fold (isParams f) (isOutputs f).
  now rewrite H1, H2.
Qed.

(** The three cases of the [switch]. *)
Lemma classify_cases (f : string) :
  (isParams f = true /\ isResources f = false)
  \/ (isParams f = false /\ isOutputs f = true /\ isResources f = false)
  \/ (isParams f = false /\ isOutputs f = false /\ isResources f = true).
Proof.
  unfold isResources. destruct (isParams f) eqn:E1.
  - left. split; reflexivity.
  - destruct (isOutputs f); [right; left | right; right]; repeat split; reflexivity.
Qed.

Lemma aggregate_cons (content : string -> string) (f : string) (fs : list string)
    (m : gmap string string) :
  aggregate content (f :: fs) m = aggregate content fs (addFile m f (content f)).
Proof. reflexivity. Qed.

Lemma aggregate_resources (content : string -> string) (fs : list string)
    (m : gmap string string) :
  index (aggregate content fs m) resourcesFiles =
    index m resourcesFiles +:+ resourcesBlock content (List.filter isResources fs).
Proof.
  revert m; induction fs as [|f fs IH]; intros m.
  - cbn [List.filter resourcesBlock]. now rewrite append_nil_r.
  - rewrite aggregate_cons, IH. cbn [List.filter].
    destruct (classify_cases f) as [[Hp Hr]|[(Hp & Ho & Hr)|(Hp & Ho & Hr)]]; rewrite Hr.
    + rewrite addFile_params by exact Hp.
      rewrite index_insert_ne by auto with addons. reflexivity.
    + rewrite addFile_outputs by exact Ho.
      rewrite index_insert_ne by auto with addons. reflexivity.
    + rewrite addFile_resources by exact Hr.
      rewrite index_insert_eq. cbn [resourcesBlock].
      now rewrite !append_assoc.
Qed.

Lemma aggregate_params (content : string -> string) (fs : list string)
    (m : gmap string string) :
  index (aggregate content fs m) paramsFileWithoutExt =
    match last (List.filter isParams fs) with
    | Some f => strings.TrimSpace (content f)
    | None => index m paramsFileWithoutExt
    end.
Proof.
  revert m; induction fs as [|f fs IH]; intros m; [reflexivity|].
  rewrite aggregate_cons, IH. cbn [List.filter].
  destruct (classify_cases f) as [[Hp Hr]|[(Hp & Ho & Hr)|(Hp & Ho & Hr)]]; rewrite Hp.
  - rewrite last_cons. destruct (last (List.filter isParams fs)); [reflexivity|].
    rewrite addFile_params by exact Hp. apply index_insert_eq.
  - rewrite addFile_outputs by exact Ho.
    rewrite index_insert_ne by (apply not_eq_sym; auto with addons). reflexivity.
  - rewrite addFile_resources by exact Hr.
    rewrite index_insert_ne by (apply not_eq_sym; auto with addons). reflexivity.
Qed.

Lemma aggregate_outputs (content : string -> string) (fs : list string)
    (m : gmap string string) :
  index (aggregate content fs m) outputsFileWithoutExt =
    match last (List.filter isOutputs fs) with
    | Some f => strings.TrimSpace (content f)
    | None => index m outputsFileWithoutExt
    end.
Proof.
  revert m; induction fs as [|f fs IH]; intros m; [reflexivity|].
  rewrite aggregate_cons, IH. cbn [List.filter].
  destruct (classify_cases f) as [[Hp Hr]|[(Hp & Ho & Hr)|(Hp & Ho & Hr)]].
  - rewrite (isParams_not_isOutputs f Hp).
    rewrite addFile_params by exact Hp.
    rewrite index_insert_ne by auto with addons. reflexivity.
  - rewrite Ho, last_cons. destruct (last (List.filter isOutputs fs)); [reflexivity|].
    rewrite addFile_outputs by exact Ho. apply index_insert_eq.
  - rewrite Ho. rewrite addFile_resources by exact Hr.
    rewrite index_insert_ne by (apply not_eq_sym; auto with addons). reflexivity.
Qed.

(** ** The loop of [Template] *)

Section Loop.
Context `{ErrDirNotExistError}.
Variable a : Addons.

Lemma readAddonFiles_cons (f : string) (fs : list string) (m : gmap string string)
    (log : list call) :
  readAddonFiles a (f :: fs) m log =
    match snd (ReadAddonsFile (ws a) (svcName a) f) with
    | Some err => (inr (readError a f err), (log ++ [CallReadAddonsFile (svcName a) f])%list)
    | None => readAddonFiles a fs (addFile m f (contentOf a f))
                (log ++ [CallReadAddonsFile (svcName a) f])%list
    end.
Proof.
  cbn [readAddonFiles]. unfold bind, callReadAddonsFile, contentOf.
  destruct (ReadAddonsFile (ws a) (svcName a) f) as [c [err|]]; reflexivity.
Qed.

Lemma readAddonFiles_ok (fs : list string) (m : gmap string string) (log : list call) :
  readsSucceed a fs ->
  readAddonFiles a fs m log =
    (inl (aggregate (contentOf a) fs m), (log ++ readCalls a fs)%list).
Proof.
  revert m log; induction fs as [|f fs IH]; intros m log Hok.
  - cbn. now rewrite app_nil_r.
  - apply Forall_cons in Hok as [Hf Hfs].
    rewrite readAddonFiles_cons, Hf, IH by exact Hfs.
    rewrite aggregate_cons. unfold readCalls. cbn [map].
    now rewrite <- app_assoc.
Qed.

Lemma readAddonFiles_fail (pre post : list string) (f : string) (err : error)
    (m : gmap string string) (log : list call) :
  readsSucceed a pre ->
  snd (ReadAddonsFile (ws a) (svcName a) f) = Some err ->
  readAddonFiles a (pre ++ f :: post) m log =
    (inr (readError a f err), (log ++ readCalls a pre ++ [CallReadAddonsFile (svcName a) f])%list).
Proof.
  revert m log; induction pre as [|g pre IH]; intros m log Hok Hf.
  - cbn [app]. rewrite readAddonFiles_cons, Hf. reflexivity.
  - apply Forall_cons in Hok as [Hg Hpre].
    change ((g :: pre) ++ f :: post)%list with (g :: (pre ++ f :: post))%list.
    rewrite readAddonFiles_cons, Hg, IH by assumption.
    unfold readCalls. cbn [map]. now rewrite <- !app_assoc.
Qed.

(** The loop either reads every file, or stops at the first read that
    fails. *)
Lemma readAddonFiles_cases (fs : list string) :
  readsSucceed a fs
  \/ exists pre f post err,
       fs = (pre ++ f :: post)%list /\ readsSucceed a pre
       /\ snd (ReadAddonsFile (ws a) (svcName a) f) = Some err.
Proof.
  induction fs as [|f fs IH].
  - left. constructor.
  - destruct (snd (ReadAddonsFile (ws a) (svcName a) f)) as [err|] eqn:Ef.
    + right. exists [], f, fs, err. repeat split; [constructor | exact Ef].
    + destruct IH as [Hok|(pre & g & post & err & -> & Hpre & Hg)].
      * left. constructor; assumption.
      * right. exists (f :: pre), g, post, err.
        repeat split; [constructor; assumption | exact Hg].
Qed.

(** ** [Template], path by path *)

Lemma Template_dir_error (fileNames : list string) (err : error) (log : list call) :
  ReadAddonsDir (ws a) (svcName a) = (fileNames, Some err) ->
  Template a log =
    (("", Some (ErrDirNotExist (svcName a) err)), (log ++ [CallReadAddonsDir (svcName a)])%list).
Proof.
  intros Hdir. unfold Template, bind, callReadAddonsDir. rewrite Hdir. reflexivity.
Qed.

Lemma Template_read_error (fileNames pre post : list string) (f : string) (err : error)
    (log : list call) :
  ReadAddonsDir (ws a) (svcName a) = (fileNames, None) ->
  filterYAMLfiles fileNames = (pre ++ f :: post)%list ->
  readsSucceed a pre ->
  snd (ReadAddonsFile (ws a) (svcName a) f) = Some err ->
  Template a log =
    (("", Some (readError a f err)),
     (log ++ [CallReadAddonsDir (svcName a)] ++ readCalls a pre
          ++ [CallReadAddonsFile (svcName a) f])%list).
Proof.
  intros Hdir Hsplit Hpre Hf. unfold Template, bind, callReadAddonsDir.
  rewrite Hdir, Hsplit. cbn beta iota.
  rewrite (readAddonFiles_fail pre post f err) by assumption.
  cbn. now rewrite <- !app_assoc.
Qed.

Lemma Template_reads_ok (fileNames : list string) (log : list call) :
  ReadAddonsDir (ws a) (svcName a) = (fileNames, None) ->
  readsSucceed a (filterYAMLfiles fileNames) ->
  let yamlFiles := filterYAMLfiles fileNames in
  let addonFiles := aggregate (contentOf a) yamlFiles ∅ in
  Template a log =
    match validateNoMissingFiles addonFiles with
    | Some err =>
        (("", Some err), (log ++ [CallReadAddonsDir (svcName a)] ++ readCalls a yamlFiles)%list)
    | None =>
        (rendered (Parse (parser a) addonsTemplatePath (renderData a addonFiles)),
         (log ++ [CallReadAddonsDir (svcName a)] ++ readCalls a yamlFiles
              ++ [CallParse addonsTemplatePath (renderData a addonFiles)])%list)
    end.
Proof.
  intros Hdir Hok yamlFiles addonFiles. unfold Template, bind, callReadAddonsDir.
  rewrite Hdir. cbn beta iota.
  rewrite readAddonFiles_ok by exact Hok.
  fold yamlFiles. fold addonFiles.
  destruct (validateNoMissingFiles addonFiles) as [err|].
  - cbn. now rewrite <- !app_assoc.
  - unfold callParse. fold (renderData a addonFiles).
    destruct (Parse (parser a) addonsTemplatePath (renderData a addonFiles)) as [c [err|]];
      cbn; now rewrite <- !app_assoc.
Qed.

End Loop.

(** ** What [Template] depends on *)

Section Dependence.
Context `{ErrDirNotExistError}.
Variables a1 a2 : Addons.
Hypothesis same_service : svcName a1 = svcName a2.

Lemma readAddonFiles_ext (fs : list string) (m : gmap string string) (log : list call) :
  Forall (fun f => ReadAddonsFile (ws a1) (svcName a1) f
                   = ReadAddonsFile (ws a2) (svcName a1) f) fs ->
  readAddonFiles a1 fs m log = readAddonFiles a2 fs m log.
Proof.
  revert m log; induction fs as [|f fs IH]; intros m log Hfs; [reflexivity|].
  apply Forall_cons in Hfs as [Hf Hfs].
  rewrite !readAddonFiles_cons. unfold contentOf, readError.
  rewrite <- same_service, <- Hf.
  destruct (snd (ReadAddonsFile (ws a1) (svcName a1) f)); [reflexivity|].
  apply IH, Hfs.
Qed.

Lemma Template_ext (log : list call) :
  snd (ReadAddonsDir (ws a1) (svcName a1)) = snd (ReadAddonsDir (ws a2) (svcName a1)) ->
  filterYAMLfiles (fst (ReadAddonsDir (ws a1) (svcName a1)))
    = filterYAMLfiles (fst (ReadAddonsDir (ws a2) (svcName a1))) ->
  Forall (fun f => ReadAddonsFile (ws a1) (svcName a1) f
                   = ReadAddonsFile (ws a2) (svcName a1) f)
         (filterYAMLfiles (fst (ReadAddonsDir (ws a1) (svcName a1)))) ->
  (forall data, Parse (parser a1) addonsTemplatePath data
                = Parse (parser a2) addonsTemplatePath data) ->
  Template a1 log = Template a2 log.
Proof.
  intros Herr Hfiles Hreads Hparse.
  unfold Template, bind, callReadAddonsDir, callParse.
  rewrite <- same_service.
  destruct (ReadAddonsDir (ws a1) (svcName a1)) as [files1 err1].
  destruct (ReadAddonsDir (ws a2) (svcName a1)) as [files2 err2].
  cbn [fst snd] in *. subst err2. rewrite <- Hfiles.
  destruct err1 as [err|]; [reflexivity|].
  rewrite <- (readAddonFiles_ext _ _ _ Hreads).
  destruct (readAddonFiles a1 (filterYAMLfiles files1) ∅ _) as [[m|err] log'];
    [|reflexivity].
  destruct (validateNoMissingFiles m); [reflexivity|].
  rewrite Hparse. reflexivity.
Qed.

End Dependence.

(** ** Shape of a run *)

Section Runs.
Context `{ErrDirNotExistError}.
Variable a : Addons.

(** When the loop runs to its end, every read succeeded and the map is the
    fold of the loop body over the files. *)
Lemma readAddonFiles_inl (fs : list string) (m0 m : gmap string string)
    (log log' : list call) :
  readAddonFiles a fs m0 log = (inl m, log') ->
  readsSucceed a fs /\ m = aggregate (contentOf a) fs m0
  /\ log' = (log ++ readCalls a fs)%list.
Proof.
  intros Hrun. destruct (readAddonFiles_cases a fs) as [Hok|(pre & f & post & err & -> & Hpre & Hf)].
  - rewrite readAddonFiles_ok in Hrun by exact Hok.
    injection Hrun as <- <-. auto.
  - rewrite (readAddonFiles_fail a pre post f err) in Hrun by assumption.
    discriminate.
Qed.

(** The calls of a run: the listing, then reads of a prefix of the YAML
    files, then at most one call of the parser. *)
Lemma Template_trace (log : list call) :
  exists fs tail,
    snd (Template a log)
      = (log ++ [CallReadAddonsDir (svcName a)] ++ readCalls a fs ++ tail)%list
    /\ fs `prefix_of` filterYAMLfiles (fst (ReadAddonsDir (ws a) (svcName a)))
    /\ (tail = [] \/ exists m, tail = [CallParse addonsTemplatePath (renderData a m)]).
Proof.
  destruct (ReadAddonsDir (ws a) (svcName a)) as [fileNames [err|]] eqn:Hdir.
  - exists [], []. rewrite (Template_dir_error a fileNames err) by exact Hdir.
    cbn [fst snd]. repeat split; [apply prefix_nil | now left].
  - cbn [fst].
    destruct (readAddonFiles_cases a (filterYAMLfiles fileNames))
      as [Hok|(pre & f & post & err & Hsplit & Hpre & Hf)].
    + pose proof (Template_reads_ok a fileNames log Hdir Hok) as Hrun.
      cbv zeta in Hrun. rewrite Hrun.
      destruct (validateNoMissingFiles _) as [err|].
      * exists (filterYAMLfiles fileNames), []. cbn [snd].
        rewrite app_nil_r. repeat split; [reflexivity | now left].
      * exists (filterYAMLfiles fileNames), [CallParse addonsTemplatePath (renderData a (aggregate (contentOf a) (filterYAMLfiles fileNames) ∅))].
        cbn [snd]. repeat split; [reflexivity | right; eauto].
    + rewrite (Template_read_error a fileNames pre post f err) by assumption.
      exists (pre ++ [f])%list, []. cbn [snd]. rewrite Hsplit. repeat split.
      * unfold readCalls. rewrite map_app, app_nil_r. reflexivity.
      * exists post. now rewrite <- app_assoc.
      * now left.
Qed.

End Runs.

(** * The claims *)

Lemma hasYAMLExtension_isYAML (f : string) : hasYAMLExtension f = isYAML f.
Proof.
  unfold hasYAMLExtension, isYAML. cbv [yamlExtensions contains].
  rewrite (String.eqb_sym (filepath.Ext f) ".yaml"), (String.eqb_sym (filepath.Ext f) ".yml").
  destruct (String.eqb ".yaml" (filepath.Ext f)), (String.eqb ".yml" (filepath.Ext f));
    reflexivity.
Qed.

Lemma filterYAMLfiles_hasYAMLExtension (files : list string) :
  filterYAMLfiles files = List.filter hasYAMLExtension files.
Proof.
  rewrite filterYAMLfiles_filter. apply filter_ext. intros f.
  symmetry. apply hasYAMLExtension_isYAML.
Qed.

Lemma filterYAMLfiles_idempotent (files : list string) :
  filterYAMLfiles (filterYAMLfiles files) = filterYAMLfiles files.
Proof.
  rewrite !filterYAMLfiles_filter. induction files as [|f files IH]; [reflexivity|].
  cbn [List.filter]. destruct (isYAML f) eqn:E; [|exact IH].
  cbn [List.filter]. rewrite E, IH. reflexivity.
Qed.

(** C3: the classifier keeps exactly the names whose extension is [.yaml]
    or [.yml], compared byte for byte, in their original order; a file with
    another extension or none is never read by [Template], and a run gives
    the same result and makes the same calls as if the listing did not
    contain it. *)
Theorem filterYAMLfiles_exact_subsequence `{ErrDirNotExistError} (files : list string) :
  filterYAMLfiles files = List.filter hasYAMLExtension files
  /\ (forall f, In f (filterYAMLfiles files)
                <-> In f files /\ (filepath.Ext f = ".yaml" \/ filepath.Ext f = ".yml"))
  /\ (forall a, ReadAddonsDir (ws a) (svcName a) = (files, None) ->
        (forall svc f, In (CallReadAddonsFile svc f) (snd (run (Template a))) ->
                       In f files /\ (filepath.Ext f = ".yaml" \/ filepath.Ext f = ".yml"))
        /\ run (Template (withListing a (List.filter hasYAMLExtension files)))
           = run (Template a)).
Proof.
  assert (Hmem : forall f, In f (filterYAMLfiles files)
                <-> In f files /\ (filepath.Ext f = ".yaml" \/ filepath.Ext f = ".yml")).
  { intros f. rewrite filterYAMLfiles_filter, filter_In, isYAML_iff. reflexivity. }
  split; [apply filterYAMLfiles_hasYAMLExtension|]. split; [exact Hmem|].
  intros a Hdir. split.
  - intros svc f Hin. apply Hmem.
    destruct (Template_trace a []) as (fs & tail & Htrace & [post Hpre] & Htail).
    unfold run in Hin. rewrite Htrace in Hin. rewrite Hdir in Hpre. cbn [fst] in Hpre.
    rewrite Hpre. apply in_or_app. left.
    cbn [app] in Hin. destruct Hin as [Hin|Hin]; [discriminate|].
    apply in_app_or in Hin as [Hin|Hin].
    + unfold readCalls in Hin. apply in_map_iff in Hin as (g & Hg & Hin).
      injection Hg as _ <-. exact Hin.
    + destruct Htail as [->|[m ->]]; [destruct Hin|].
      destruct Hin as [Hin|[]]. discriminate.
  - unfold run. apply Template_ext.
    + reflexivity.
    + cbn [withListing svcName ws ReadAddonsDir snd]. now rewrite Hdir.
    + cbn [withListing svcName ws ReadAddonsDir fst]. rewrite Hdir. cbn [fst].
      rewrite <- filterYAMLfiles_hasYAMLExtension. apply filterYAMLfiles_idempotent.
    + apply Forall_forall. intros f _. reflexivity.
    + intros data. reflexivity.
Qed.

Lemma filterYAMLfiles_exact_subsequence_witness :
  filterYAMLfiles ["notes.txt"; "b.yaml"; "a.yml"; "c.YAML"; "d.Yml"; "README"; "e.yaml.bak"; "f.yamlx"]
    = ["b.yaml"; "a.yml"]
  /\ run (@Template fixtureDirError
            (fixture [("notes.txt", "N"); ("params.yaml", "P"); ("outputs.yaml", "O"); ("x.yaml", "X")]))
     = run (@Template fixtureDirError
              (fixture [("params.yaml", "P"); ("outputs.yaml", "O"); ("x.yaml", "X")])).
Proof.
  split.
  - rewrite (proj1 (@filterYAMLfiles_exact_subsequence fixtureDirError _)).
    vm_compute. reflexivity.
  - pose proof (@filterYAMLfiles_exact_subsequence fixtureDirError
                  ["notes.txt"; "params.yaml"; "outputs.yaml"; "x.yaml"]) as (_ & _ & Hrun).
    destruct (Hrun (fixture [("notes.txt", "N"); ("params.yaml", "P"); ("outputs.yaml", "O"); ("x.yaml", "X")]) eq_refl)
      as [_ Heq].
    rewrite <- Heq. vm_compute. reflexivity.
Defined.

(** The base name of a retained file is [base] exactly when the file is
    [base.yaml] or [base.yml], for a [base] without dot or separator. *)
Lemma nameWithoutExt_yaml (f base : string) :
  filepath.Ext (base +:+ ".yaml") = ".yaml" ->
  filepath.Ext (base +:+ ".yml") = ".yml" ->
  isYAML f = true ->
  nameWithoutExt f = base <-> f = base +:+ ".yaml" \/ f = base +:+ ".yml".
Proof.
  intros Hyaml Hyml Hf. split.
  - intros Hbase. pose proof (nameWithoutExt_Ext f) as Hname. rewrite Hbase in Hname.
    apply isYAML_iff in Hf as [Hext|Hext]; rewrite Hext in Hname; auto.
  - intros [->| ->]; unfold nameWithoutExt.
    + rewrite Hyaml. apply TrimSuffix_append.
    + rewrite Hyml. apply TrimSuffix_append.
Qed.

(** C4: for a retained file, the slot is chosen by the name with its final
    extension stripped: [params] (that is, the file [params.yaml] or
    [params.yml]) sets the parameters slot, [outputs] ([outputs.yaml] or
    [outputs.yml]) sets the outputs slot, and every other name is appended
    to the resources slot; the comparison is exact. *)
Theorem category_routing_exact (f content : string) (addonFiles : gmap string string) :
  isYAML f = true ->
  (nameWithoutExt f = "params" <-> f = "params.yaml" \/ f = "params.yml")
  /\ (nameWithoutExt f = "outputs" <-> f = "outputs.yaml" \/ f = "outputs.yml")
  /\ (nameWithoutExt f = "params" ->
        addFile addonFiles f content = <["params" := strings.TrimSpace content]> addonFiles)
  /\ (nameWithoutExt f = "outputs" ->
        addFile addonFiles f content = <["outputs" := strings.TrimSpace content]> addonFiles)
  /\ (nameWithoutExt f <> "params" -> nameWithoutExt f <> "outputs" ->
        addFile addonFiles f content
        = <["resources" := index addonFiles "resources" +:+ strings.TrimSpace content +:+ nl]>
            addonFiles).
Proof.
  intros Hf. repeat split.
  - apply (nameWithoutExt_yaml f "params"); [reflexivity | reflexivity | exact Hf].
  - apply (nameWithoutExt_yaml f "params"); [reflexivity | reflexivity | exact Hf].
  - apply (nameWithoutExt_yaml f "outputs"); [reflexivity | reflexivity | exact Hf].
  - apply (nameWithoutExt_yaml f "outputs"); [reflexivity | reflexivity | exact Hf].
  - intros Hp. apply addFile_params. unfold isParams. now apply String.eqb_eq.
  - intros Ho. apply addFile_outputs. unfold isOutputs. now apply String.eqb_eq.
  - intros Hp Ho. apply addFile_resources.
    unfold isResources, isParams, isOutputs, paramsFileWithoutExt, outputsFileWithoutExt.
    apply String.eqb_neq in Hp, Ho. now rewrite Hp, Ho.
Qed.

Lemma category_routing_exact_witness :
  addFile ∅ "Params.yaml" "Q" = <["resources" := "Q" +:+ nl]> ∅
  /\ addFile ∅ "params.txt.yaml" "Z" = <["resources" := "Z" +:+ nl]> ∅
  /\ addFile ∅ "params.yml" " P " = <["params" := "P"]> ∅.
Proof.
  split; [|split].
  - destruct (category_routing_exact "Params.yaml" "Q" ∅ eq_refl) as (_ & _ & _ & _ & Hres).
    rewrite Hres; [reflexivity | vm_compute; discriminate | vm_compute; discriminate].
  - destruct (category_routing_exact "params.txt.yaml" "Z" ∅ eq_refl) as (_ & _ & _ & _ & Hres).
    rewrite Hres; [reflexivity | vm_compute; discriminate | vm_compute; discriminate].
  - destruct (category_routing_exact "params.yml" " P " ∅ eq_refl) as (_ & _ & Hpar & _).
    rewrite Hpar; [reflexivity | vm_compute; reflexivity].
Defined.

Lemma readAddonFiles_result `{ErrDirNotExistError} (a : Addons) (fs : list string)
    (m : gmap string string) :
  fst (run (readAddonFiles a fs ∅)) = inl m ->
  readsSucceed a fs /\ m = aggregate (contentOf a) fs ∅.
Proof.
  unfold run. destruct (readAddonFiles a fs ∅ []) as [r log'] eqn:Hrun.
  cbn [fst]. intros ->. apply readAddonFiles_inl in Hrun as (Hok & Hm & _). auto.
Qed.

Lemma aggregate_lastSeen_params (content : string -> string) (fs : list string) :
  index (aggregate content fs ∅) paramsFileWithoutExt
  = lastSeen content (List.filter isParams fs).
Proof.
  rewrite aggregate_params. unfold lastSeen.
  destruct (last (List.filter isParams fs)); [reflexivity | apply index_empty].
Qed.

Lemma aggregate_lastSeen_outputs (content : string -> string) (fs : list string) :
  index (aggregate content fs ∅) outputsFileWithoutExt
  = lastSeen content (List.filter isOutputs fs).
Proof.
  rewrite aggregate_outputs. unfold lastSeen.
  destruct (last (List.filter isOutputs fs)); [reflexivity | apply index_empty].
Qed.

Lemma aggregate_resourcesBlock (content : string -> string) (fs : list string) :
  index (aggregate content fs ∅) resourcesFiles
  = resourcesBlock content (List.filter isResources fs).
Proof. rewrite aggregate_resources, index_empty. reflexivity. Qed.

(** C2: when the reads succeed, the resources slot is the trimmed content of
    each resource file followed by a newline, in listing order, and the
    parameters and outputs slots hold the trimmed content of the last file
    of their category. *)
Theorem aggregation_semantics `{ErrDirNotExistError} (a : Addons) (fileNames : list string) :
  readsSucceed a (filterYAMLfiles fileNames) ->
  exists addonFiles,
    fst (run (readAddonFiles a (filterYAMLfiles fileNames) ∅)) = inl addonFiles
    /\ index addonFiles "resources"
       = resourcesBlock (contentOf a) (List.filter isResources (filterYAMLfiles fileNames))
    /\ index addonFiles "params"
       = lastSeen (contentOf a) (List.filter isParams (filterYAMLfiles fileNames))
    /\ index addonFiles "outputs"
       = lastSeen (contentOf a) (List.filter isOutputs (filterYAMLfiles fileNames)).
Proof.
  intros Hok. exists (aggregate (contentOf a) (filterYAMLfiles fileNames) ∅).
  unfold run. rewrite readAddonFiles_ok by exact Hok. cbn [fst].
  split; [reflexivity|]. split; [apply aggregate_resourcesBlock|].
  split; [apply aggregate_lastSeen_params | apply aggregate_lastSeen_outputs].
Qed.

Lemma aggregation_semantics_witness :
  exists addonFiles,
    fst (run (@readAddonFiles fixtureDirError
                (fixture [("a.yaml", "A"); ("params.yaml", " P1 "); ("b.yaml", "B");
                          ("params.yml", "P2" +:+ nl)])
                (filterYAMLfiles ["a.yaml"; "params.yaml"; "b.yaml"; "params.yml"]) ∅))
      = inl addonFiles
    /\ index addonFiles "resources" = "A" +:+ nl +:+ "B" +:+ nl
    /\ index addonFiles "params" = "P2"
    /\ index addonFiles "outputs" = "".
Proof.
  destruct (@aggregation_semantics fixtureDirError
              (fixture [("a.yaml", "A"); ("params.yaml", " P1 "); ("b.yaml", "B");
                        ("params.yml", "P2" +:+ nl)])
              ["a.yaml"; "params.yaml"; "b.yaml"; "params.yml"])
    as (m & Hrun & Hres & Hpar & Hout).
  - repeat constructor.
  - exists m. split; [exact Hrun|]. rewrite Hres, Hpar, Hout.
    vm_compute. repeat split.
Defined.

(** C5: on the success path [Template] hands the parser the template
    [addons/cf.yml] and the service name with, for each block, the lines of
    the trimmed block split at newlines, and returns the parser's text, or
    its error unchanged. *)
Theorem renderer_adapter `{ErrDirNotExistError} (a : Addons) (fileNames : list string)
    (addonFiles : gmap string string) :
  ReadAddonsDir (ws a) (svcName a) = (fileNames, None) ->
  fst (run (readAddonFiles a (filterYAMLfiles fileNames) ∅)) = inl addonFiles ->
  validateNoMissingFiles addonFiles = None ->
  let data :=
    {| SvcName := svcName a;
       Parameters := strings.Split (strings.TrimSpace (index addonFiles "params")) nl;
       Resources := strings.Split (strings.TrimSpace (index addonFiles "resources")) nl;
       Outputs := strings.Split (strings.TrimSpace (index addonFiles "outputs")) nl |} in
  run (Template a)
  = (match Parse (parser a) "addons/cf.yml" data with
     | (_, Some err) => ("", Some err)
     | (content, None) => (content, None)
     end,
     [CallReadAddonsDir (svcName a)]
       ++ map (CallReadAddonsFile (svcName a)) (filterYAMLfiles fileNames)
       ++ [CallParse "addons/cf.yml" data])%list.
Proof.
  intros Hdir Hloop Hvalid data.
  apply readAddonFiles_result in Hloop as [Hok ->].
  unfold run. rewrite (Template_reads_ok a fileNames [] Hdir Hok). cbv zeta.
  rewrite Hvalid. reflexivity.
Qed.

Lemma renderer_adapter_witness :
  run (@Template fixtureDirError
         (fixture [("params.yaml", "Param1:" +:+ nl +:+ "  Type: String");
                   ("outputs.yaml", "Output1:" +:+ nl +:+ "  Value: foo");
                   ("s3-bucket.yaml", "Bucket:" +:+ nl +:+ "  Type: AWS::S3::Bucket")]))
  = (("addons/cf.yml api P[Param1:|  Type: String] R[Bucket:|  Type: AWS::S3::Bucket] O[Output1:|  Value: foo]",
      None),
     [CallReadAddonsDir "api"; CallReadAddonsFile "api" "params.yaml";
      CallReadAddonsFile "api" "outputs.yaml"; CallReadAddonsFile "api" "s3-bucket.yaml";
      CallParse "addons/cf.yml"
        {| SvcName := "api";
           Parameters := ["Param1:"; "  Type: String"];
           Resources := ["Bucket:"; "  Type: AWS::S3::Bucket"];
           Outputs := ["Output1:"; "  Value: foo"] |}]).
Proof.
  rewrite (@renderer_adapter fixtureDirError _
             ["params.yaml"; "outputs.yaml"; "s3-bucket.yaml"]
             (aggregate
                (contentOf (fixture [("params.yaml", "Param1:" +:+ nl +:+ "  Type: String");
                   ("outputs.yaml", "Output1:" +:+ nl +:+ "  Value: foo");
                   ("s3-bucket.yaml", "Bucket:" +:+ nl +:+ "  Type: AWS::S3::Bucket")]))
                ["params.yaml"; "outputs.yaml"; "s3-bucket.yaml"] ∅)).
  - vm_compute. reflexivity.
  - reflexivity.
  - vm_compute. reflexivity.
  - vm_compute. reflexivity.
Defined.

(** C6: when the listing of the directory fails, [Template] returns the
    empty text and an [ErrDirNotExist] holding the service name and the
    failure, after the one call that lists the directory: no file is read
    and the parser is not called; the error is not one that
    [validateNoMissingFiles] returns. *)
Theorem directory_not_found `{ErrDirNotExistError} (a : Addons) (fileNames : list string)
    (err : error) :
  ReadAddonsDir (ws a) (svcName a) = (fileNames, Some err) ->
  run (Template a)
  = (("", Some (ErrDirNotExist (svcName a) err)), [CallReadAddonsDir (svcName a)])
  /\ (forall f, validateNoMissingFiles f <> Some (ErrDirNotExist (svcName a) err)).
Proof.
  intros Hdir. split.
  - unfold run. now rewrite (Template_dir_error a fileNames err).
  - intros f. unfold validateNoMissingFiles. destruct (missingFiles f); discriminate.
Qed.

Lemma directory_not_found_witness :
  run (@Template fixtureDirError fixtureNoDir)
  = (("", Some (ErrDirNotExist "api" (errorString "open addons: no such file or directory"))),
     [CallReadAddonsDir "api"]).
Proof.
  apply (@directory_not_found fixtureDirError fixtureNoDir []
           (errorString "open addons: no such file or directory")).
  reflexivity.
Defined.

(** C7: when the read of a file fails, [Template] stops there: it returns
    the empty text and an error that wraps the failure, whose message names
    the file and the service; the files after it are not read, the parser is
    not called and the error is not one of validation.  Whenever some read
    of a listed YAML file fails, there is such a first failing read. *)
Theorem read_error_fails_fast `{ErrDirNotExistError} (a : Addons) (fileNames : list string) :
  ReadAddonsDir (ws a) (svcName a) = (fileNames, None) ->
  (forall pre f post err,
     filterYAMLfiles fileNames = (pre ++ f :: post)%list ->
     readsSucceed a pre ->
     snd (ReadAddonsFile (ws a) (svcName a) f) = Some err ->
     run (Template a)
     = (("", Some (wrapError ("read addons file " +:+ f +:+ " under service " +:+ svcName a
                                +:+ ": " +:+ Error err) err)),
        [CallReadAddonsDir (svcName a)]
          ++ map (CallReadAddonsFile (svcName a)) pre
          ++ [CallReadAddonsFile (svcName a) f])%list
     /\ (forall path data, ~ In (CallParse path data) (snd (run (Template a))))
     /\ (forall m, validateNoMissingFiles m <> snd (fst (run (Template a)))))
  /\ (forall g, In g (filterYAMLfiles fileNames) ->
                snd (ReadAddonsFile (ws a) (svcName a) g) <> None ->
                exists pre f post err,
                  filterYAMLfiles fileNames = (pre ++ f :: post)%list
                  /\ readsSucceed a pre
                  /\ snd (ReadAddonsFile (ws a) (svcName a) f) = Some err).
Proof.
  intros Hdir. split.
  - intros pre f post err Hsplit Hpre Hf.
    assert (Hrun : run (Template a)
      = (("", Some (readError a f err)),
         [CallReadAddonsDir (svcName a)] ++ readCalls a pre
           ++ [CallReadAddonsFile (svcName a) f])%list).
    { unfold run. now rewrite (Template_read_error a fileNames pre post f err). }
    split; [exact Hrun|]. rewrite Hrun. cbn [fst snd]. split.
    + intros path data Hin. cbn [app] in Hin. destruct Hin as [Hin|Hin]; [discriminate|].
      apply in_app_or in Hin as [Hin|Hin].
      * unfold readCalls in Hin. apply in_map_iff in Hin as (g & Hg & _). discriminate.
      * destruct Hin as [Hin|[]]. discriminate.
    + intros m. unfold validateNoMissingFiles, readError.
      destruct (missingFiles m); discriminate.
  - intros g Hg Hfail.
    destruct (readAddonFiles_cases a (filterYAMLfiles fileNames))
      as [Hok|(pre & f & post & err & Hsplit & Hpre & Hf)].
    + exfalso. apply Hfail. unfold readsSucceed in Hok.
      rewrite List.Forall_forall in Hok. now apply Hok.
    + exists pre, f, post, err. auto.
Qed.

Lemma read_error_fails_fast_witness :
  run (@Template fixtureDirError
         (withListing (fixture [("params.yaml", "P"); ("outputs.yaml", "O")])
                      ["params.yaml"; "notes.txt"; "s3.yaml"; "outputs.yaml"; "db.yml"]))
  = (("", Some (wrapError "read addons file s3.yaml under service api: no such file"
                          (errorString "no such file"))),
     [CallReadAddonsDir "api"; CallReadAddonsFile "api" "params.yaml";
      CallReadAddonsFile "api" "s3.yaml"]).
Proof.
  apply (proj1 (@read_error_fails_fast fixtureDirError
           (withListing (fixture [("params.yaml", "P"); ("outputs.yaml", "O")])
                        ["params.yaml"; "notes.txt"; "s3.yaml"; "outputs.yaml"; "db.yml"])
           ["params.yaml"; "notes.txt"; "s3.yaml"; "outputs.yaml"; "db.yml"] eq_refl)
           ["params.yaml"] "s3.yaml" ["outputs.yaml"; "db.yml"] (errorString "no such file")).
  - vm_compute. reflexivity.
  - repeat constructor.
  - reflexivity.
Defined.

(** C8: two runs for the same service name, with the same result of the
    listing, the same results of the reads of the listed YAML files and the
    same parser, return the same text and error and make the same calls; the
    calls of a run are the listing, reads of listed YAML files and at most
    the call of the parser, none of which writes. *)
Theorem Template_deterministic `{ErrDirNotExistError} (a1 a2 : Addons) :
  svcName a1 = svcName a2 ->
  ReadAddonsDir (ws a1) (svcName a1) = ReadAddonsDir (ws a2) (svcName a2) ->
  (forall f, In f (filterYAMLfiles (fst (ReadAddonsDir (ws a1) (svcName a1)))) ->
             ReadAddonsFile (ws a1) (svcName a1) f = ReadAddonsFile (ws a2) (svcName a2) f) ->
  (forall data, Parse (parser a1) addonsTemplatePath data
                = Parse (parser a2) addonsTemplatePath data) ->
  run (Template a1) = run (Template a2)
  /\ (forall c, In c (snd (run (Template a1))) ->
        c = CallReadAddonsDir (svcName a1)
        \/ (exists f, c = CallReadAddonsFile (svcName a1) f
                      /\ In f (filterYAMLfiles (fst (ReadAddonsDir (ws a1) (svcName a1)))))
        \/ (exists data, c = CallParse addonsTemplatePath data)).
Proof.
  intros Hsvc Hdir Hreads Hparse. split.
  - unfold run. apply Template_ext; try assumption.
    + now rewrite Hdir, Hsvc.
    + now rewrite Hdir, Hsvc.
    + apply List.Forall_forall. intros f Hf. rewrite (Hreads f Hf), Hsvc. reflexivity.
  - intros c Hin.
    destruct (Template_trace a1 []) as (fs & tail & Htrace & [post Hpre] & Htail).
    unfold run in Hin. rewrite Htrace in Hin. cbn [app] in Hin.
    destruct Hin as [<-|Hin]; [now left|]. right.
    apply in_app_or in Hin as [Hin|Hin].
    + left. unfold readCalls in Hin. apply in_map_iff in Hin as (g & <- & Hg).
      exists g. split; [reflexivity|]. rewrite Hpre. apply in_or_app. now left.
    + right. destruct Htail as [->|[m ->]]; [destruct Hin|].
      destruct Hin as [<-|[]]. eauto.
Qed.

Lemma Template_deterministic_witness :
  run (@Template fixtureDirError
         (fixture [("params.yaml", "P"); ("outputs.yaml", "O"); ("s3.yaml", "B")]))
  = run (@Template fixtureDirError
           (withListing
              (fixture [("extra.yaml", "E"); ("params.yaml", "P"); ("outputs.yaml", "O");
                        ("s3.yaml", "B"); ("notes.txt", "N")])
              ["params.yaml"; "outputs.yaml"; "s3.yaml"])).
Proof.
  apply (@Template_deterministic fixtureDirError).
  - reflexivity.
  - reflexivity.
  - intros f Hf. vm_compute in Hf.
    destruct Hf as [<-|[<-|[<-|[]]]]; reflexivity.
  - intros data. reflexivity.
Defined.

(** C9: whenever [Template] returns an error, the text it returns is
    empty. *)
Theorem error_implies_empty_text `{ErrDirNotExistError} (a : Addons) :
  snd (fst (run (Template a))) <> None -> fst (fst (run (Template a))) = "".
Proof.
  unfold run, Template, bind, callReadAddonsDir, callParse.
  destruct (ReadAddonsDir (ws a) (svcName a)) as [fileNames [err|]]; [reflexivity|].
  destruct (readAddonFiles a (filterYAMLfiles fileNames) ∅ _) as [[m|err] log];
    [|reflexivity].
  destruct (validateNoMissingFiles m) as [err|]; [reflexivity|].
  destruct (Parse (parser a) _ _) as [content [err|]]; [reflexivity|].
  cbn. intros Hne. now contradiction Hne.
Qed.

Lemma error_implies_empty_text_witness :
  fst (fst (run (@Template fixtureDirError (fixture [("s3.yaml", "B")])))) = ""
  /\ fst (fst (run (@Template fixtureDirError
                      {| svcName := "api"; parser := fixtureFailingParser;
                         ws := fixtureWs [("params.yaml", "P"); ("outputs.yaml", "O");
                                          ("s3.yaml", "B")] |}))) = "".
Proof.
  split; apply (@error_implies_empty_text fixtureDirError); vm_compute; discriminate.
Defined.

(** ** Validation *)

Lemma resourcesBlock_eq_nil (content : string -> string) (fs : list string) :
  resourcesBlock content fs = "" <-> fs = [].
Proof.
  split; [|intros ->; reflexivity].
  destruct fs as [|f fs]; [reflexivity|]. cbn [resourcesBlock]. intros Hnil.
  apply append_eq_nil in Hnil as [_ Hnil]. discriminate.
Qed.

(** The list built by [validateNoMissingFiles], category by category. *)
Lemma missingFiles_spec (f : gmap string string) :
  missingFiles f
  = ((if String.eqb (index f "params") "" then ["params.yaml"] else [])
     ++ (if String.eqb (index f "outputs") "" then ["outputs.yaml"] else [])
     ++ (if String.eqb (index f "resources") "" then [resourcesRequirement] else []))%list.
Proof.
  unfold missingFiles, paramsFileWithoutExt, outputsFileWithoutExt, resourcesFiles.
  destruct (String.eqb (index f "params") ""), (String.eqb (index f "outputs") ""),
    (String.eqb (index f "resources") ""); reflexivity.
Qed.

Lemma resourcesRequirement_missing (f : gmap string string) :
  In resourcesRequirement (missingFiles f) <-> index f "resources" = "".
Proof.
  rewrite missingFiles_spec, <- String.eqb_eq.
  destruct (String.eqb (index f "params") ""), (String.eqb (index f "outputs") ""),
    (String.eqb (index f "resources") ""); cbn [app In];
    split; intros Hin; try reflexivity; try discriminate; auto;
    repeat (destruct Hin as [Hin|Hin]; try discriminate); destruct Hin.
Qed.

Lemma validateNoMissingFiles_spec (f : gmap string string) :
  validateNoMissingFiles f
  = match missingFiles f with
    | [] => None
    | _ => Some (errorString (missingMessage (missingFiles f)))
    end.
Proof. unfold validateNoMissingFiles. destruct (missingFiles f); reflexivity. Qed.

(** C10: when the loop has run to its end, validation reports the resources
    requirement exactly when no YAML file was a resource file: then
    [validateNoMissingFiles] returns, and [Template] returns with the empty
    text and without calling the parser, the error whose list of missing
    files ends with the requirement; with a resource file the error, if
    any, lists only [params.yaml] and [outputs.yaml].  A resource file whose
    content trims to nothing leaves the slot equal to a newline, which trims
    to nothing but is not empty: the check passes, and when the two other
    slots are not empty [validateNoMissingFiles] returns [nil] and
    [Template] calls the parser, with the single empty line as resources. *)
Theorem resources_check_counts_files `{ErrDirNotExistError} (a : Addons)
    (fileNames : list string) (addonFiles : gmap string string) :
  fst (run (readAddonFiles a (filterYAMLfiles fileNames) ∅)) = inl addonFiles ->
  let resourceFiles := List.filter isResources (filterYAMLfiles fileNames) in
  let others :=
    ((if String.eqb (index addonFiles "params") "" then ["params.yaml"] else [])
     ++ (if String.eqb (index addonFiles "outputs") "" then ["outputs.yaml"] else []))%list in
  let failure := fun missing : list string =>
    errorString ("addons directory has missing file(s): " +:+ strings.Join missing ", ") in
  let reads :=
    ([CallReadAddonsDir (svcName a)]
       ++ map (CallReadAddonsFile (svcName a)) (filterYAMLfiles fileNames))%list in
  (In resourcesRequirement (missingFiles addonFiles) <-> resourceFiles = [])
  /\ (index addonFiles "resources" = "" <-> resourceFiles = [])
  /\ (resourceFiles = [] ->
      validateNoMissingFiles addonFiles = Some (failure (others ++ [resourcesRequirement])%list)
      /\ (ReadAddonsDir (ws a) (svcName a) = (fileNames, None) ->
          run (Template a)
          = (("", Some (failure (others ++ [resourcesRequirement])%list)), reads)))
  /\ (resourceFiles <> [] ->
      validateNoMissingFiles addonFiles
      = match others with [] => None | _ => Some (failure others) end
      /\ (ReadAddonsDir (ws a) (svcName a) = (fileNames, None) -> others <> [] ->
          run (Template a) = (("", Some (failure others)), reads)))
  /\ (forall f, resourceFiles = [f] ->
                strings.TrimSpace (contentOf a f) = "" ->
                index addonFiles "resources" = nl
                /\ strings.TrimSpace (index addonFiles "resources") = ""
                /\ ~ In resourcesRequirement (missingFiles addonFiles)
                /\ (others = [] -> validateNoMissingFiles addonFiles = None)
                /\ (ReadAddonsDir (ws a) (svcName a) = (fileNames, None) -> others = [] ->
                    let data :=
                      {| SvcName := svcName a;
                         Parameters :=
                           strings.Split (strings.TrimSpace (index addonFiles "params")) nl;
                         Resources := [""];
                         Outputs :=
                           strings.Split (strings.TrimSpace (index addonFiles "outputs")) nl |} in
                    run (Template a)
                    = (match Parse (parser a) "addons/cf.yml" data with
                       | (_, Some err) => ("", Some err)
                       | (content, None) => (content, None)
                       end,
                       (reads ++ [CallParse "addons/cf.yml" data])%list))).
Proof.
  intros Hloop resourceFiles others failure reads.
  apply readAddonFiles_result in Hloop as [Hok ->].
  set (m := aggregate (contentOf a) (filterYAMLfiles fileNames) ∅) in *.
  assert (Hempty : index m "resources" = "" <-> resourceFiles = []).
  { subst m resourceFiles. change "resources" with resourcesFiles.
    rewrite aggregate_resourcesBlock. apply resourcesBlock_eq_nil. }
  assert (Hwith : index m "resources" = "" ->
                  validateNoMissingFiles m = Some (failure (others ++ [resourcesRequirement])%list)).
  { intros Hres. rewrite validateNoMissingFiles_spec, missingFiles_spec.
    apply String.eqb_eq in Hres. rewrite Hres, app_assoc. fold others.
    destruct (others ++ [resourcesRequirement])%list eqn:Hlist; [|reflexivity].
    now apply app_eq_nil in Hlist as [_ Hlist]. }
  assert (Hwithout : index m "resources" <> "" ->
                     validateNoMissingFiles m
                     = match others with [] => None | _ => Some (failure others) end).
  { intros Hres. rewrite validateNoMissingFiles_spec, missingFiles_spec.
    apply String.eqb_neq in Hres. rewrite Hres, app_nil_r. fold others.
    destruct others; reflexivity. }
  assert (Hrun : ReadAddonsDir (ws a) (svcName a) = (fileNames, None) ->
                 run (Template a)
                 = match validateNoMissingFiles m with
                   | Some err => (("", Some err), reads)
                   | None =>
                       (rendered (Parse (parser a) addonsTemplatePath (renderData a m)),
                        (reads ++ [CallParse addonsTemplatePath (renderData a m)])%list)
                   end).
  { intros Hdir. unfold run. rewrite (Template_reads_ok a fileNames [] Hdir Hok). cbv zeta.
    fold m. destruct (validateNoMissingFiles m); [reflexivity|].
    subst reads. unfold readCalls. now rewrite <- !app_assoc. }
  split; [|split; [|split; [|split]]].
  - rewrite resourcesRequirement_missing. exact Hempty.
  - exact Hempty.
  - intros Hnone. apply Hempty in Hnone. split; [now apply Hwith|].
    intros Hdir. rewrite (Hrun Hdir), (Hwith Hnone). reflexivity.
  - intros Hsome. assert (Hres : index m "resources" <> "") by (now rewrite Hempty).
    split; [now apply Hwithout|].
    intros Hdir Hothers. rewrite (Hrun Hdir), (Hwithout Hres).
    destruct others; [now contradiction Hothers | reflexivity].
  - intros f Hf Hblank.
    assert (Hslot : index m "resources" = nl).
    { subst m. change "resources" with resourcesFiles.
      fold resourceFiles in Hf. subst resourceFiles.
      rewrite aggregate_resourcesBlock, Hf. cbn [resourcesBlock].
      rewrite Hblank. reflexivity. }
    assert (Hres : index m "resources" <> "") by (rewrite Hslot; discriminate).
    split; [exact Hslot|]. split; [rewrite Hslot; vm_compute; reflexivity|].
    split; [rewrite resourcesRequirement_missing; exact Hres|].
    split.
    + intros Hothers. rewrite (Hwithout Hres), Hothers. reflexivity.
    + intros Hdir Hothers. cbv zeta. rewrite (Hrun Hdir), (Hwithout Hres), Hothers.
      unfold renderData, paramsFileWithoutExt, outputsFileWithoutExt, resourcesFiles.
      rewrite Hslot.
      change (strings.Split (strings.TrimSpace nl) nl) with [""].
      reflexivity.
Qed.

Lemma resources_check_counts_files_witness :
  index (aggregate
           (contentOf (fixture [("params.yaml", "P"); ("outputs.yaml", "O");
                                ("blank.yaml", "  " +:+ nl +:+ " ")]))
           ["params.yaml"; "outputs.yaml"; "blank.yaml"] ∅) "resources" = nl
  /\ validateNoMissingFiles
       (aggregate
          (contentOf (fixture [("params.yaml", "P"); ("outputs.yaml", "O");
                               ("blank.yaml", "  " +:+ nl +:+ " ")]))
          ["params.yaml"; "outputs.yaml"; "blank.yaml"] ∅) = None
  /\ run (@Template fixtureDirError
            (fixture [("params.yaml", "P"); ("outputs.yaml", "O");
                      ("blank.yaml", "  " +:+ nl +:+ " ")]))
     = (("addons/cf.yml api P[P] R[] O[O]", None),
        [CallReadAddonsDir "api"; CallReadAddonsFile "api" "params.yaml";
         CallReadAddonsFile "api" "outputs.yaml"; CallReadAddonsFile "api" "blank.yaml";
         CallParse "addons/cf.yml"
           {| SvcName := "api"; Parameters := ["P"]; Resources := [""]; Outputs := ["O"] |}])
  /\ run (@Template fixtureDirError (fixture [("params.yaml", "P"); ("outputs.yml", "O")]))
     = (("", Some (errorString
                     ("addons directory has missing file(s): at least one resource YAML file such as "
                        +:+ dquote +:+ "s3-bucket.yaml" +:+ dquote))),
        [CallReadAddonsDir "api"; CallReadAddonsFile "api" "params.yaml";
         CallReadAddonsFile "api" "outputs.yml"]).
Proof.
  destruct (@resources_check_counts_files fixtureDirError
              (fixture [("params.yaml", "P"); ("outputs.yaml", "O");
                        ("blank.yaml", "  " +:+ nl +:+ " ")])
              ["params.yaml"; "outputs.yaml"; "blank.yaml"]
              (aggregate
                 (contentOf (fixture [("params.yaml", "P"); ("outputs.yaml", "O");
                                      ("blank.yaml", "  " +:+ nl +:+ " ")]))
                 ["params.yaml"; "outputs.yaml"; "blank.yaml"] ∅))
    as (_ & _ & _ & _ & Hblank); [vm_compute; reflexivity|].
  destruct (Hblank "blank.yaml") as (Hslot & _ & _ & Hvalid & Hrun);
    [vm_compute; reflexivity | vm_compute; reflexivity|].
  destruct (@resources_check_counts_files fixtureDirError
              (fixture [("params.yaml", "P"); ("outputs.yml", "O")])
              ["params.yaml"; "outputs.yml"]
              (aggregate (contentOf (fixture [("params.yaml", "P"); ("outputs.yml", "O")]))
                 ["params.yaml"; "outputs.yml"] ∅))
    as (_ & _ & Hnone & _); [vm_compute; reflexivity|].
  destruct (Hnone eq_refl) as [_ Hfail].
  split; [exact Hslot|]. split; [apply Hvalid; vm_compute; reflexivity|]. split.
  - rewrite Hrun; [vm_compute; reflexivity | reflexivity | vm_compute; reflexivity].
  - rewrite Hfail; [vm_compute; reflexivity | reflexivity].
Defined.

(** C1 (as amended): validation requires the parameters slot and the outputs
    slot, each the trimmed content of a file, and the resources slot, as
    accumulated and not trimmed again, to be non-empty.  Otherwise [Template]
    returns the empty text, without calling the parser, and an error whose
    message lists [params.yaml] when the parameters slot is empty,
    [outputs.yaml] when the outputs slot is empty and the resources
    requirement when the resources slot is empty, in this order and nothing
    else: all three for an empty listing, the first two when the only YAML
    file is a resource file. *)
Theorem validation_enumerates_missing `{ErrDirNotExistError} (a : Addons)
    (fileNames : list string) (addonFiles : gmap string string) :
  ReadAddonsDir (ws a) (svcName a) = (fileNames, None) ->
  fst (run (readAddonFiles a (filterYAMLfiles fileNames) ∅)) = inl addonFiles ->
  let missing :=
    ((if String.eqb (index addonFiles "params") "" then ["params.yaml"] else [])
     ++ (if String.eqb (index addonFiles "outputs") "" then ["outputs.yaml"] else [])
     ++ (if String.eqb (index addonFiles "resources") "" then [resourcesRequirement] else []))%list in
  (missing <> [] <-> index addonFiles "params" = "" \/ index addonFiles "outputs" = ""
                     \/ index addonFiles "resources" = "")
  /\ (missing <> [] ->
      run (Template a)
      = (("", Some (errorString ("addons directory has missing file(s): "
                                   +:+ strings.Join missing ", "))),
         [CallReadAddonsDir (svcName a)]
           ++ map (CallReadAddonsFile (svcName a)) (filterYAMLfiles fileNames))%list)
  /\ (missing = [] -> validateNoMissingFiles addonFiles = None)
  /\ (fileNames = [] -> missing = ["params.yaml"; "outputs.yaml"; resourcesRequirement])
  /\ (forall f, filterYAMLfiles fileNames = [f] -> isResources f = true ->
                missing = ["params.yaml"; "outputs.yaml"]).
Proof.
  intros Hdir Hloop missing.
  apply readAddonFiles_result in Hloop as [Hok Hagg].
  assert (Hmissing : missingFiles addonFiles = missing) by apply missingFiles_spec.
  split; [|split; [|split; [|split]]].
  - subst missing. rewrite <- !String.eqb_eq.
    destruct (String.eqb (index addonFiles "params") ""),
      (String.eqb (index addonFiles "outputs") ""),
      (String.eqb (index addonFiles "resources") ""); cbn [app];
      split; intros Hm; try discriminate; auto;
      try (exfalso; now apply Hm);
      destruct Hm as [Hm|[Hm|Hm]]; discriminate.
  - intros Hne. unfold run.
    rewrite (Template_reads_ok a fileNames [] Hdir Hok). cbv zeta.
    rewrite <- Hagg, validateNoMissingFiles_spec, Hmissing.
    destruct missing; [now contradiction Hne | reflexivity].
  - intros Hnil. rewrite validateNoMissingFiles_spec, Hmissing, Hnil. reflexivity.
  - intros ->. subst addonFiles missing. reflexivity.
  - intros f Hf Hres. subst missing addonFiles. rewrite Hf.
    change "params" with paramsFileWithoutExt.
    change "outputs" with outputsFileWithoutExt.
    change "resources" with resourcesFiles.
    rewrite aggregate_lastSeen_params, aggregate_lastSeen_outputs, aggregate_resourcesBlock.
    cbn [List.filter]. rewrite Hres.
    unfold isResources in Hres. apply andb_true_iff in Hres as [Hp Ho].
    apply negb_true_iff in Hp, Ho. rewrite Hp, Ho.
    cbn [resourcesBlock]. unfold lastSeen. cbn [last].
    destruct (String.eqb_spec (strings.TrimSpace (contentOf a f) +:+ nl +:+ "") "") as [E|_].
    + apply append_eq_nil in E as [_ E]. discriminate.
    + reflexivity.
Qed.

Lemma validation_enumerates_missing_witness :
  run (@Template fixtureDirError (fixture [("s3-bucket.yaml", "Bucket:")]))
  = (("", Some (errorString "addons directory has missing file(s): params.yaml, outputs.yaml")),
     [CallReadAddonsDir "api"; CallReadAddonsFile "api" "s3-bucket.yaml"])
  /\ run (@Template fixtureDirError (fixture []))
     = (("", Some (errorString ("addons directory has missing file(s): params.yaml, outputs.yaml, "
                                  +:+ "at least one resource YAML file such as "
                                  +:+ dquote +:+ "s3-bucket.yaml" +:+ dquote))),
        [CallReadAddonsDir "api"]).
Proof.
  split.
  - destruct (@validation_enumerates_missing fixtureDirError
                (fixture [("s3-bucket.yaml", "Bucket:")]) ["s3-bucket.yaml"]
                (aggregate (contentOf (fixture [("s3-bucket.yaml", "Bucket:")]))
                   ["s3-bucket.yaml"] ∅))
      as (_ & Hrun & _ & _ & Hone).
    + reflexivity.
    + vm_compute. reflexivity.
    + rewrite Hrun.
      * rewrite (Hone "s3-bucket.yaml"); vm_compute; reflexivity.
      * rewrite (Hone "s3-bucket.yaml"); [discriminate | vm_compute; reflexivity
                                          | vm_compute; reflexivity].
  - destruct (@validation_enumerates_missing fixtureDirError (fixture []) [] ∅)
      as (_ & Hrun & _ & Hall & _).
    + reflexivity.
    + reflexivity.
    + rewrite Hrun.
      * rewrite (Hall eq_refl). vm_compute. reflexivity.
      * rewrite (Hall eq_refl). discriminate.
Defined.

(** C1, as stated, fails: a resource file of white space only leaves a
    resources slot that is empty after trimming, and [Template] reports no
    missing file and renders. *)
Lemma validation_after_trimming_counterexample :
  fst (run (@readAddonFiles fixtureDirError
              (fixture [("params.yaml", "P"); ("outputs.yaml", "O"); ("blank.yaml", " ")])
              (filterYAMLfiles ["params.yaml"; "outputs.yaml"; "blank.yaml"]) ∅))
  = inl (<["resources" := nl]> (<["outputs" := "O"]> (<["params" := "P"]> ∅)))
  /\ strings.TrimSpace
       (index (<["resources" := nl]> (<["outputs" := "O"]> (<["params" := "P"]> ∅))) "resources")
     = ""
  /\ validateNoMissingFiles (<["resources" := nl]> (<["outputs" := "O"]> (<["params" := "P"]> ∅)))
     = None
  /\ run (@Template fixtureDirError
            (fixture [("params.yaml", "P"); ("outputs.yaml", "O"); ("blank.yaml", " ")]))
     = (("addons/cf.yml api P[P] R[] O[O]", None),
        [CallReadAddonsDir "api"; CallReadAddonsFile "api" "params.yaml";
         CallReadAddonsFile "api" "outputs.yaml"; CallReadAddonsFile "api" "blank.yaml";
         CallParse "addons/cf.yml"
           {| SvcName := "api"; Parameters := ["P"]; Resources := [""]; Outputs := ["O"] |}]).
Proof. repeat split; vm_compute; reflexivity. Qed.

(** * Further properties of the package *)

(** ** [contains] and [filterYAMLfiles] *)

(** [contains] is membership in the slice. *)
Theorem contains_iff_In (arr : list string) (el : string) :
  contains arr el = true <-> In el arr.
Proof.
  induction arr as [|item arr IH]; cbn [contains In].
  - split; [discriminate | tauto].
  - destruct (String.eqb_spec item el) as [->|Hne].
    + split; auto.
    + rewrite IH. split; [auto | intros [E|Hin]; [contradiction | exact Hin]].
Qed.

(** [filterYAMLfiles] works name by name: it distributes over the
    concatenation of listings, filtering twice changes nothing, and it
    never returns more names than it was given. *)
Theorem filterYAMLfiles_compose (l1 l2 : list string) :
  filterYAMLfiles (l1 ++ l2) = (filterYAMLfiles l1 ++ filterYAMLfiles l2)%list
  /\ filterYAMLfiles (filterYAMLfiles l1) = filterYAMLfiles l1
  /\ (length (filterYAMLfiles l1) <= length l1)%nat.
Proof.
  split; [|split].
  - rewrite !filterYAMLfiles_filter. apply List.filter_app.
  - apply filterYAMLfiles_idempotent.
  - rewrite filterYAMLfiles_filter. apply List.filter_length_le.
Qed.

(** ** [validateNoMissingFiles] *)

Lemma index_eq_nil (f : gmap string string) (k : string) :
  index f k <> "" <-> exists v, f !! k = Some v /\ v <> "".
Proof.
  unfold index. destruct (f !! k) as [v|]; cbn.
  - split; [eauto | intros (w & [= <-] & Hw); exact Hw].
  - split; [congruence | intros (w & Hw & _); discriminate].
Qed.

Lemma validateNoMissingFiles_None (f : gmap string string) :
  validateNoMissingFiles f = None
  <-> index f "params" <> "" /\ index f "outputs" <> "" /\ index f "resources" <> "".
Proof.
  rewrite validateNoMissingFiles_spec, missingFiles_spec, <- !String.eqb_neq.
  destruct (String.eqb (index f "params") ""), (String.eqb (index f "outputs") ""),
    (String.eqb (index f "resources") ""); cbn [app];
    split; try discriminate; try tauto; intros (H1 & H2 & H3); discriminate.
Qed.

(** [validateNoMissingFiles] returns [nil] exactly when the three keys
    [params], [outputs] and [resources] are all in the map with a value that
    is not empty: a key that is missing counts like an empty value. *)
Theorem validateNoMissingFiles_nil_iff (f : gmap string string) :
  validateNoMissingFiles f = None
  <-> (exists p, f !! "params" = Some p /\ p <> "")
      /\ (exists o, f !! "outputs" = Some o /\ o <> "")
      /\ (exists r, f !! "resources" = Some r /\ r <> "").
Proof. rewrite validateNoMissingFiles_None, !index_eq_nil. reflexivity. Qed.

(** [validateNoMissingFiles] looks at the three keys only: adding, changing
    or removing any other key does not change its result. *)
Theorem validateNoMissingFiles_other_keys (f : gmap string string) (k v : string) :
  k <> "params" -> k <> "outputs" -> k <> "resources" ->
  validateNoMissingFiles (<[k := v]> f) = validateNoMissingFiles f
  /\ validateNoMissingFiles (delete k f) = validateNoMissingFiles f.
Proof.
  intros Hp Ho Hr.
  assert (Hins : forall k', k <> k' -> index (<[k := v]> f) k' = index f k')
    by (intros k' Hne; now apply index_insert_ne).
  assert (Hdel : forall k', k <> k' -> index (delete k f) k' = index f k')
    by (intros k' Hne; unfold index; now rewrite lookup_delete_ne).
  split; rewrite !validateNoMissingFiles_spec, !missingFiles_spec.
  - now rewrite !Hins by assumption.
  - now rewrite !Hdel by assumption.
Qed.

Lemma validateNoMissingFiles_other_keys_witness :
  validateNoMissingFiles (<["notes" := "n"]> (<["params" := "P"]> ∅))
  = validateNoMissingFiles (<["params" := "P"]> ∅).
Proof.
  apply (validateNoMissingFiles_other_keys (<["params" := "P"]> ∅) "notes" "n");
    discriminate.
Defined.

(** ** The keys of [addonFiles] *)

Lemma addFile_dom (m : gmap string string) (f c : string) :
  dom (addFile m f c)
  = {[ if isParams f then paramsFileWithoutExt
       else if isOutputs f then outputsFileWithoutExt else resourcesFiles ]} ∪ dom m.
Proof.
  destruct (classify_cases f) as [[Hp Hr]|[(Hp & Ho & Hr)|(Hp & Ho & Hr)]].
  - rewrite addFile_params, Hp by exact Hp. apply dom_insert_L.
  - rewrite addFile_outputs, Hp, Ho by exact Ho. apply dom_insert_L.
  - rewrite addFile_resources, Hp, Ho by exact Hr. apply dom_insert_L.
Qed.

Lemma aggregate_dom (content : string -> string) (fs : list string) (m : gmap string string)
    (k : string) :
  k ∈ dom (aggregate content fs m)
  <-> k ∈ dom m
      \/ (k = "params" /\ exists f, In f fs /\ isParams f = true)
      \/ (k = "outputs" /\ exists f, In f fs /\ isOutputs f = true)
      \/ (k = "resources" /\ exists f, In f fs /\ isResources f = true).
Proof.
  revert m; induction fs as [|f fs IH]; intros m.
  - cbn [aggregate fold_left In]. split; [auto|].
    intros [Hk|[(_ & g & [] & _)|[(_ & g & [] & _)|(_ & g & [] & _)]]]. exact Hk.
  - rewrite aggregate_cons, IH, addFile_dom, elem_of_union, elem_of_singleton. cbn [In].
    destruct (classify_cases f) as [[Hp Hr]|[(Hp & Ho & Hr)|(Hp & Ho & Hr)]].
    + rewrite Hp. split.
      * intros [[->|H]|[(-> & g & Hg & Hg')|[(-> & g & Hg & Hg')|(-> & g & Hg & Hg')]]]; eauto 10.
      * intros [H|[(-> & g & [<-|Hg] & Hg')|[(-> & g & [<-|Hg] & Hg')|(-> & g & [<-|Hg] & Hg')]]];
          eauto 10; try (apply isParams_not_isOutputs in Hp); congruence.
    + rewrite Hp, Ho. split.
      * intros [[->|H]|[(-> & g & Hg & Hg')|[(-> & g & Hg & Hg')|(-> & g & Hg & Hg')]]]; eauto 10.
      * intros [H|[(-> & g & [<-|Hg] & Hg')|[(-> & g & [<-|Hg] & Hg')|(-> & g & [<-|Hg] & Hg')]]];
          eauto 10; congruence.
    + rewrite Hp, Ho. split.
      * intros [[->|H]|[(-> & g & Hg & Hg')|[(-> & g & Hg & Hg')|(-> & g & Hg & Hg')]]]; eauto 10.
      * intros [H|[(-> & g & [<-|Hg] & Hg')|[(-> & g & [<-|Hg] & Hg')|(-> & g & [<-|Hg] & Hg')]]];
          eauto 10; congruence.
Qed.

(** When the loop of [Template] runs to its end, the map has no other key
    than [params], [outputs] and [resources], and it has one of these
    exactly when a YAML file of that category was listed. *)
Theorem addonFiles_keys `{ErrDirNotExistError} (a : Addons) (fileNames : list string)
    (addonFiles : gmap string string) :
  fst (run (readAddonFiles a (filterYAMLfiles fileNames) ∅)) = inl addonFiles ->
  dom addonFiles ⊆ {["params"; "outputs"; "resources"]}
  /\ ("params" ∈ dom addonFiles
      <-> exists f, In f (filterYAMLfiles fileNames) /\ isParams f = true)
  /\ ("outputs" ∈ dom addonFiles
      <-> exists f, In f (filterYAMLfiles fileNames) /\ isOutputs f = true)
  /\ ("resources" ∈ dom addonFiles
      <-> exists f, In f (filterYAMLfiles fileNames) /\ isResources f = true).
Proof.
  intros Hloop. apply readAddonFiles_result in Hloop as [_ ->].
  assert (Hdom := aggregate_dom (contentOf a) (filterYAMLfiles fileNames) ∅).
  split; [|split; [|split]].
  - intros k Hk. apply Hdom in Hk as [Hk|[[-> _]|[[-> _]|[-> _]]]]; set_solver.
  - rewrite Hdom. split; [|eauto 10].
    intros [Hk|[[_ Hk]|[[? _]|[? _]]]]; [set_solver | exact Hk | discriminate | discriminate].
  - rewrite Hdom. split; [|eauto 10].
    intros [Hk|[[? _]|[[_ Hk]|[? _]]]]; [set_solver | discriminate | exact Hk | discriminate].
  - rewrite Hdom. split; [|eauto 10].
    intros [Hk|[[? _]|[[? _]|[_ Hk]]]]; [set_solver | discriminate | discriminate | exact Hk].
Qed.

Lemma addonFiles_keys_witness :
  dom (aggregate (contentOf (fixture [("params.yml", "P"); ("s3.yaml", "B")]))
         ["params.yml"; "s3.yaml"] ∅)
  ⊆ {["params"; "outputs"; "resources"]}.
Proof.
  apply (@addonFiles_keys fixtureDirError (fixture [("params.yml", "P"); ("s3.yaml", "B")])
           ["params.yml"; "s3.yaml"]).
  vm_compute. reflexivity.
Defined.

(** ** What a run of [Template] needs, returns and calls *)

Lemma lastSeen_not_nil (content : string -> string) (fs : list string) :
  lastSeen content fs <> "" ->
  exists f, In f fs /\ strings.TrimSpace (content f) <> "".
Proof.
  unfold lastSeen. destruct (last fs) as [f|] eqn:Hlast; [|congruence].
  intros Hne. exists f. split; [|exact Hne].
  apply last_Some in Hlast as [l' ->]. apply in_or_app. right. now left.
Qed.

Lemma isParams_yaml (f : string) :
  isYAML f = true -> isParams f = true -> f = "params.yaml" \/ f = "params.yml".
Proof.
  intros Hf Hp. apply (nameWithoutExt_yaml f "params"); [reflexivity | reflexivity | exact Hf |].
  now apply String.eqb_eq.
Qed.

Lemma isOutputs_yaml (f : string) :
  isYAML f = true -> isOutputs f = true -> f = "outputs.yaml" \/ f = "outputs.yml".
Proof.
  intros Hf Ho. apply (nameWithoutExt_yaml f "outputs"); [reflexivity | reflexivity | exact Hf |].
  now apply String.eqb_eq.
Qed.

Lemma In_filterYAMLfiles (f : string) (fileNames : list string) :
  In f (filterYAMLfiles fileNames) <-> In f fileNames /\ isYAML f = true.
Proof. rewrite filterYAMLfiles_filter. apply filter_In. Qed.

(** [Template] returns without error only if the listing and every read of
    a YAML file succeeded, the listing has a file [params.yaml] or
    [params.yml] and a file [outputs.yaml] or [outputs.yml] whose content is
    not blank, and at least one other YAML file, and the parser succeeded;
    the text is then the parser's. *)
Theorem Template_success_requires `{ErrDirNotExistError} (a : Addons) :
  snd (fst (run (Template a))) = None ->
  exists fileNames,
    ReadAddonsDir (ws a) (svcName a) = (fileNames, None)
    /\ readsSucceed a (filterYAMLfiles fileNames)
    /\ (exists p, In p fileNames /\ (p = "params.yaml" \/ p = "params.yml")
                  /\ strings.TrimSpace (contentOf a p) <> "")
    /\ (exists o, In o fileNames /\ (o = "outputs.yaml" \/ o = "outputs.yml")
                  /\ strings.TrimSpace (contentOf a o) <> "")
    /\ (exists r, In r fileNames /\ isYAML r = true /\ isResources r = true)
    /\ (exists data, Parse (parser a) "addons/cf.yml" data = (fst (fst (run (Template a))), None)).
Proof.
  intros Hnil. destruct (ReadAddonsDir (ws a) (svcName a)) as [fileNames [err|]] eqn:Hdir.
  { unfold run in Hnil. rewrite (Template_dir_error a fileNames err) in Hnil by exact Hdir.
    discriminate. }
  exists fileNames. split; [reflexivity|].
  destruct (readAddonFiles_cases a (filterYAMLfiles fileNames))
    as [Hok|(pre & f & post & err & Hsplit & Hpre & Hf)].
  2:{ unfold run in Hnil.
      rewrite (Template_read_error a fileNames pre post f err) in Hnil by assumption.
      discriminate. }
  split; [exact Hok|].
  pose proof (Template_reads_ok a fileNames [] Hdir Hok) as Hrun. cbv zeta in Hrun.
  unfold run in *. rewrite Hrun in *. clear Hrun.
  set (m := aggregate (contentOf a) (filterYAMLfiles fileNames) ∅) in *.
  destruct (validateNoMissingFiles m) as [err|] eqn:Hvalid; [discriminate|].
  apply validateNoMissingFiles_None in Hvalid as (Hp & Ho & Hr). subst m.
  change "params" with paramsFileWithoutExt in Hp.
  change "outputs" with outputsFileWithoutExt in Ho.
  change "resources" with resourcesFiles in Hr.
  rewrite aggregate_lastSeen_params in Hp. rewrite aggregate_lastSeen_outputs in Ho.
  rewrite aggregate_resourcesBlock in Hr.
  apply lastSeen_not_nil in Hp as (p & [Hp Hp']%filter_In & Hpc).
  apply lastSeen_not_nil in Ho as (o & [Ho Ho']%filter_In & Hoc).
  apply In_filterYAMLfiles in Hp as [Hp Hpy], Ho as [Ho Hoy].
  split; [exists p; auto using isParams_yaml|].
  split; [exists o; auto using isOutputs_yaml|].
  split.
  - destruct (List.filter isResources (filterYAMLfiles fileNames)) as [|r rs] eqn:Hres.
    + now contradiction Hr.
    + assert (Hin : In r (List.filter isResources (filterYAMLfiles fileNames)))
        by (rewrite Hres; now left).
      apply filter_In in Hin as [Hin Hr']. apply In_filterYAMLfiles in Hin as [Hin Hy].
      exists r. auto.
  - eexists. cbn [fst snd] in *.
    destruct (Parse (parser a) addonsTemplatePath _) as [c [err|]] eqn:Hparse;
      [discriminate|]. cbn. exact Hparse.
Qed.

Lemma Template_success_requires_witness :
  exists fileNames,
    ReadAddonsDir (ws (fixture [("params.yml", "P"); ("outputs.yaml", "O"); ("db.yml", "D")])) "api"
    = (fileNames, None)
    /\ exists r, In r fileNames /\ isYAML r = true /\ isResources r = true.
Proof.
  destruct (@Template_success_requires fixtureDirError
              (fixture [("params.yml", "P"); ("outputs.yaml", "O"); ("db.yml", "D")]))
    as (fileNames & Hdir & _ & _ & _ & Hres & _).
  - vm_compute. reflexivity.
  - exists fileNames. split; [exact Hdir | exact Hres].
Defined.

(** An error returned by [Template] is of one of four kinds: an
    [ErrDirNotExist] for a failed listing, the wrapped error of a failed
    read of a listed YAML file, the error of [validateNoMissingFiles] for a
    sublist, not empty and in the same order, of [params.yaml],
    [outputs.yaml] and the resources requirement, or the error the parser
    returned. *)
Theorem Template_error_kinds `{ErrDirNotExistError} (a : Addons) (e : error) :
  snd (fst (run (Template a))) = Some e ->
  (exists fileNames err,
     ReadAddonsDir (ws a) (svcName a) = (fileNames, Some err)
     /\ e = ErrDirNotExist (svcName a) err)
  \/ (exists f err,
        In f (filterYAMLfiles (fst (ReadAddonsDir (ws a) (svcName a))))
        /\ snd (ReadAddonsFile (ws a) (svcName a) f) = Some err
        /\ e = wrapError ("read addons file " +:+ f +:+ " under service " +:+ svcName a
                            +:+ ": " +:+ Error err) err)
  \/ (exists missing,
        missing <> []
        /\ missing `sublist_of` ["params.yaml"; "outputs.yaml"; resourcesRequirement]
        /\ e = errorString ("addons directory has missing file(s): "
                              +:+ strings.Join missing ", "))
  \/ (exists data content, Parse (parser a) "addons/cf.yml" data = (content, Some e)).
Proof.
  intros He. destruct (ReadAddonsDir (ws a) (svcName a)) as [fileNames [err|]] eqn:Hdir.
  { left. unfold run in He. rewrite (Template_dir_error a fileNames err) in He by exact Hdir.
    injection He as <-. eauto. }
  right. cbn [fst].
  destruct (readAddonFiles_cases a (filterYAMLfiles fileNames))
    as [Hok|(pre & f & post & err & Hsplit & Hpre & Hf)].
  2:{ left. unfold run in He.
      rewrite (Template_read_error a fileNames pre post f err) in He by assumption.
      injection He as <-. exists f, err. split; [|split; [exact Hf | reflexivity]].
      rewrite Hsplit. apply in_or_app. right. now left. }
  right.
  pose proof (Template_reads_ok a fileNames [] Hdir Hok) as Hrun. cbv zeta in Hrun.
  unfold run in He. rewrite Hrun in He. clear Hrun.
  set (m := aggregate (contentOf a) (filterYAMLfiles fileNames) ∅) in *.
  rewrite validateNoMissingFiles_spec in He.
  destruct (missingFiles m) as [|x missing] eqn:Hmissing.
  - right. destruct (Parse (parser a) addonsTemplatePath (renderData a m)) as [c [err|]] eqn:Hparse;
      [|discriminate].
    injection He as <-. eauto.
  - left. injection He as <-. exists (x :: missing). split; [discriminate|]. split; [|reflexivity].
    rewrite <- Hmissing, missingFiles_spec.
    destruct (String.eqb (index m "params") ""), (String.eqb (index m "outputs") ""),
      (String.eqb (index m "resources") ""); cbn [app];
      repeat first [apply sublist_nil | apply sublist_skip | apply sublist_cons].
Qed.

Lemma Template_error_kinds_witness :
  exists missing,
    missing <> []
    /\ missing `sublist_of` ["params.yaml"; "outputs.yaml"; resourcesRequirement]
    /\ errorString "addons directory has missing file(s): outputs.yaml"
       = errorString ("addons directory has missing file(s): " +:+ strings.Join missing ", ").
Proof.
  destruct (@Template_error_kinds fixtureDirError
              (fixture [("params.yaml", "P"); ("s3.yaml", "B")])
              (errorString "addons directory has missing file(s): outputs.yaml"))
    as [(fs & err & Hdir & _)|[(f & err & _ & _ & He)|[Hmissing|(data & c & Hparse)]]].
  - vm_compute. reflexivity.
  - discriminate.
  - discriminate.
  - exact Hmissing.
  - discriminate.
Defined.

(** The calls of a run of [Template]: one listing of the directory of its
    service, first; then reads, under the same service, of the YAML files of
    the listing, in order, up to the first that fails; then, only if all of
    them were read, at most one call of the parser, with the template
    [addons/cf.yml] and the name of the service. *)
Theorem Template_calls `{ErrDirNotExistError} (a : Addons) :
  exists fs tail,
    snd (run (Template a))
    = (CallReadAddonsDir (svcName a) :: map (CallReadAddonsFile (svcName a)) fs ++ tail)%list
    /\ fs `prefix_of` filterYAMLfiles (fst (ReadAddonsDir (ws a) (svcName a)))
    /\ (tail = []
        \/ (fs = filterYAMLfiles (fst (ReadAddonsDir (ws a) (svcName a)))
            /\ exists data, tail = [CallParse "addons/cf.yml" data]
                            /\ SvcName data = svcName a)).
Proof.
  destruct (ReadAddonsDir (ws a) (svcName a)) as [fileNames [err|]] eqn:Hdir.
  - exists [], []. unfold run. rewrite (Template_dir_error a fileNames err) by exact Hdir.
    cbn [fst snd]. repeat split; [apply prefix_nil | now left].
  - cbn [fst].
    destruct (readAddonFiles_cases a (filterYAMLfiles fileNames))
      as [Hok|(pre & f & post & err & Hsplit & Hpre & Hf)].
    + pose proof (Template_reads_ok a fileNames [] Hdir Hok) as Hrun.
      cbv zeta in Hrun. unfold run. rewrite Hrun.
      destruct (validateNoMissingFiles _) as [err|].
      * exists (filterYAMLfiles fileNames), []. cbn [snd app].
        rewrite app_nil_r. repeat split; [reflexivity | now left].
      * eexists (filterYAMLfiles fileNames), [CallParse addonsTemplatePath _].
        cbn [snd app]. repeat split; [reflexivity|]. right. split; [reflexivity|].
        eexists. split; reflexivity.
    + unfold run. rewrite (Template_read_error a fileNames pre post f err) by assumption.
      exists (pre ++ [f])%list, []. cbn [snd app]. rewrite Hsplit. repeat split.
      * unfold readCalls. rewrite map_app, app_nil_r. reflexivity.
      * exists post. now rewrite <- app_assoc.
      * now left.
Qed.

(** ** What the result does not depend on *)

Lemma slots_determine `{ErrDirNotExistError} (a : Addons) (m1 m2 : gmap string string) :
  index m1 "params" = index m2 "params" ->
  index m1 "outputs" = index m2 "outputs" ->
  index m1 "resources" = index m2 "resources" ->
  validateNoMissingFiles m1 = validateNoMissingFiles m2
  /\ renderData a m1 = renderData a m2.
Proof.
  intros Hp Ho Hr. split.
  - rewrite !validateNoMissingFiles_spec, !missingFiles_spec, Hp, Ho, Hr. reflexivity.
  - unfold renderData, paramsFileWithoutExt, outputsFileWithoutExt, resourcesFiles.
    rewrite Hp, Ho, Hr. reflexivity.
Qed.

(** Where the parameters and outputs files stand in the listing does not
    matter: two listings whose reads succeed, with the same resource files in
    the same order and the same last parameters file and last outputs file,
    give the same text and error. *)
Theorem Template_listing_order `{ErrDirNotExistError} (a : Addons) (l1 l2 : list string) :
  readsSucceed a (filterYAMLfiles l1) ->
  readsSucceed a (filterYAMLfiles l2) ->
  List.filter isResources (filterYAMLfiles l1) = List.filter isResources (filterYAMLfiles l2) ->
  last (List.filter isParams (filterYAMLfiles l1)) = last (List.filter isParams (filterYAMLfiles l2)) ->
  last (List.filter isOutputs (filterYAMLfiles l1)) = last (List.filter isOutputs (filterYAMLfiles l2)) ->
  fst (run (Template (withListing a l1))) = fst (run (Template (withListing a l2))).
Proof.
  intros Hok1 Hok2 Hres Hpar Hout. unfold run.
  rewrite (Template_reads_ok (withListing a l1) l1 [] eq_refl Hok1).
  rewrite (Template_reads_ok (withListing a l2) l2 [] eq_refl Hok2).
  cbv zeta.
  change (contentOf (withListing a l1)) with (contentOf a).
  change (contentOf (withListing a l2)) with (contentOf a).
  destruct (slots_determine a (aggregate (contentOf a) (filterYAMLfiles l1) ∅)
              (aggregate (contentOf a) (filterYAMLfiles l2) ∅)) as [Hvalid Hdata].
  - change "params" with paramsFileWithoutExt.
    rewrite !aggregate_lastSeen_params. unfold lastSeen. now rewrite Hpar.
  - change "outputs" with outputsFileWithoutExt.
    rewrite !aggregate_lastSeen_outputs. unfold lastSeen. now rewrite Hout.
  - change "resources" with resourcesFiles.
    rewrite !aggregate_resourcesBlock. now rewrite Hres.
  - rewrite Hvalid. clear Hvalid.
    destruct (validateNoMissingFiles (aggregate (contentOf a) (filterYAMLfiles l2) ∅));
      [reflexivity|]. cbn [fst].
    change (renderData (withListing a l1)) with (renderData a).
    change (renderData (withListing a l2)) with (renderData a).
    rewrite Hdata. reflexivity.
Qed.

Lemma Template_listing_order_witness :
  fst (run (@Template fixtureDirError
              (withListing
                 (fixture [("params.yaml", "P"); ("a.yaml", "A"); ("outputs.yml", "O"); ("b.yaml", "B")])
                 ["params.yaml"; "a.yaml"; "outputs.yml"; "b.yaml"])))
  = fst (run (@Template fixtureDirError
                (withListing
                   (fixture [("params.yaml", "P"); ("a.yaml", "A"); ("outputs.yml", "O"); ("b.yaml", "B")])
                   ["a.yaml"; "notes.txt"; "b.yaml"; "outputs.yml"; "params.yaml"]))).
Proof.
  apply (@Template_listing_order fixtureDirError).
  - repeat constructor.
  - repeat constructor.
  - vm_compute. reflexivity.
  - vm_compute. reflexivity.
  - vm_compute. reflexivity.
Defined.

Lemma addFile_trim (m : gmap string string) (f c1 c2 : string) :
  strings.TrimSpace c1 = strings.TrimSpace c2 -> addFile m f c1 = addFile m f c2.
Proof. intros Htrim. unfold addFile. now rewrite Htrim. Qed.

Lemma aggregate_trim (c1 c2 : string -> string) (fs : list string) (m : gmap string string) :
  Forall (fun f => strings.TrimSpace (c1 f) = strings.TrimSpace (c2 f)) fs ->
  aggregate c1 fs m = aggregate c2 fs m.
Proof.
  revert m; induction fs as [|f fs IH]; intros m Hfs; [reflexivity|].
  apply Forall_cons in Hfs as [Hf Hfs].
  rewrite !aggregate_cons, (addFile_trim m f _ _ Hf). now apply IH.
Qed.

(** White space around the content of the files does not matter: two
    workspaces with the same successful listing, whose YAML files are all
    read and have the same content once trimmed, give the same run (same
    text, same error, same calls) with the same parser. *)
Theorem Template_ignores_surrounding_space `{ErrDirNotExistError} (a1 a2 : Addons)
    (fileNames : list string) :
  svcName a1 = svcName a2 ->
  parser a1 = parser a2 ->
  ReadAddonsDir (ws a1) (svcName a1) = (fileNames, None) ->
  ReadAddonsDir (ws a2) (svcName a2) = (fileNames, None) ->
  readsSucceed a1 (filterYAMLfiles fileNames) ->
  readsSucceed a2 (filterYAMLfiles fileNames) ->
  (forall f, In f (filterYAMLfiles fileNames) ->
             strings.TrimSpace (contentOf a1 f) = strings.TrimSpace (contentOf a2 f)) ->
  run (Template a1) = run (Template a2).
Proof.
  intros Hsvc Hparser Hdir1 Hdir2 Hok1 Hok2 Htrim. unfold run.
  rewrite (Template_reads_ok a1 fileNames [] Hdir1 Hok1).
  rewrite (Template_reads_ok a2 fileNames [] Hdir2 Hok2).
  cbv zeta.
  rewrite (aggregate_trim (contentOf a1) (contentOf a2)) by (now apply List.Forall_forall).
  unfold readCalls, renderData. rewrite Hsvc, Hparser. reflexivity.
Qed.

Lemma Template_ignores_surrounding_space_witness :
  run (@Template fixtureDirError
         (fixture [("params.yaml", "  P" +:+ nl); ("outputs.yaml", "O"); ("s3.yaml", nl +:+ "B: 1" +:+ nl +:+ nl)]))
  = run (@Template fixtureDirError
           (fixture [("params.yaml", "P"); ("outputs.yaml", " O "); ("s3.yaml", "B: 1")])).
Proof.
  apply (@Template_ignores_surrounding_space fixtureDirError _ _
           ["params.yaml"; "outputs.yaml"; "s3.yaml"]).
  - reflexivity.
  - reflexivity.
  - reflexivity.
  - reflexivity.
  - repeat constructor.
  - repeat constructor.
  - intros f Hf. vm_compute in Hf.
    destruct Hf as [<-|[<-|[<-|[]]]]; vm_compute; reflexivity.
Defined.

(** ** The base name and the extension of a file name *)

Lemma extLoop_shape (path : string) (n : nat) :
  (forall j c, (n <= j)%nat -> String.get j path = Some c -> c <> "."%char /\ c <> "/"%char) ->
  forall k c, String.get k (filepath.extLoop path n) = Some c ->
              (k = 0%nat -> c = "."%char)
              /\ ((0 < k)%nat -> c <> "."%char /\ c <> "/"%char).
Proof.
  induction n as [|i IH]; intros Hafter k c Hget; cbn [filepath.extLoop] in Hget.
  - destruct k; discriminate.
  - destruct (String.get i path) as [c0|] eqn:Hi; [|destruct k; discriminate].
    unfold filepath.IsPathSeparator in Hget.
    destruct (Ascii.eqb_spec c0 "/") as [Hsep|Hsep]; [destruct k; discriminate|].
    destruct (Ascii.eqb_spec c0 ".") as [Hdot|Hdot].
    + unfold slice in Hget.
      destruct (Nat.lt_ge_cases k (String.length path - i)) as [Hlt|Hge].
      * rewrite String.substring_correct1 in Hget by exact Hlt. split.
        -- intros ->. cbn in Hget. congruence.
        -- intros Hpos. apply (Hafter (k + i)%nat); [lia | exact Hget].
      * rewrite String.substring_correct2 in Hget by exact Hge. discriminate.
    + apply IH; [|exact Hget].
      intros j c1 Hj Hc1. destruct (Nat.eq_dec j i) as [->|Hne].
      * rewrite Hi in Hc1. injection Hc1 as <-. auto.
      * apply (Hafter j); [lia | exact Hc1].
Qed.

Lemma get_length (s : string) (j : nat) (c : ascii) :
  String.get j s = Some c -> (j < String.length s)%nat.
Proof.
  revert j; induction s as [|c0 s IH]; intros [|j] Hget; cbn in *;
    try discriminate; [lia|].
  apply IH in Hget. lia.
Qed.

(** The switch of [Template] splits a file name in two: the base name and
    the extension put together again give the name, and the extension is
    either empty or a dot followed by bytes that are neither a dot nor a
    path separator. *)
Theorem nameWithoutExt_Ext_split (fileName : string) :
  nameWithoutExt fileName +:+ filepath.Ext fileName = fileName
  /\ (String.length (nameWithoutExt fileName) + String.length (filepath.Ext fileName)
      = String.length fileName)%nat
  /\ (forall k c, String.get k (filepath.Ext fileName) = Some c ->
                  (k = 0%nat -> c = "."%char)
                  /\ ((0 < k)%nat -> c <> "."%char /\ c <> "/"%char)).
Proof.
  split; [apply nameWithoutExt_Ext|]. split.
  - rewrite <- length_append, nameWithoutExt_Ext. reflexivity.
  - apply extLoop_shape. intros j c Hj Hget. apply get_length in Hget. lia.
Qed.

(** ** [New] followed by [Template] *)

(** [New] returns an [Addons] exactly when the workspace could be created,
    otherwise the error of the workspace, wrapped; every call made by
    [Template] on the [Addons] it returns carries the service name that was
    given to [New]. *)
Theorem New_then_Template `{ErrDirNotExistError} `{Packages} (svc : string) :
  (forall w err, workspace_New = (w, Some err) ->
     New svc = (None, Some (wrapError ("workspace cannot be created: " +:+ Error err) err)))
  /\ (forall w, workspace_New = (w, None) ->
        exists a, New svc = (Some a, None)
                  /\ forall c, In c (snd (run (Template a))) ->
                       c = CallReadAddonsDir svc
                       \/ (exists f, c = CallReadAddonsFile svc f)
                       \/ (exists data, c = CallParse "addons/cf.yml" data /\ SvcName data = svc)).
Proof.
  split.
  - intros w err Hnew. unfold New. rewrite Hnew. reflexivity.
  - intros w Hnew. unfold New. rewrite Hnew. eexists. split; [reflexivity|].
    intros c Hin.
    destruct (Template_trace {| svcName := svc; parser := template_New; ws := w |} [])
      as (fs & tail & Htrace & _ & Htail).
    unfold run in Hin. rewrite Htrace in Hin. cbn [app svcName] in Hin.
    destruct Hin as [<-|Hin]; [now left|]. right.
    apply in_app_or in Hin as [Hin|Hin].
    + left. unfold readCalls in Hin. apply in_map_iff in Hin as (g & <- & _). eauto.
    + right. destruct Htail as [->|[m ->]]; [destruct Hin|].
      destruct Hin as [<-|[]]. eexists. split; reflexivity.
Qed.

Lemma New_then_Template_witness :
  @New fixtureDirError fixtureNoWorkspace "api"
  = (None, Some (wrapError "workspace cannot be created: workspace not found"
                           (errorString "workspace not found")))
  /\ exists a, @New fixtureDirError (fixturePackages [("s3.yaml", "B")]) "api" = (Some a, None).
Proof.
  split.
  - apply (proj1 (@New_then_Template fixtureDirError fixtureNoWorkspace "api")
             (fixtureWs []) (errorString "workspace not found")).
    reflexivity.
  - destruct (proj2 (@New_then_Template fixtureDirError (fixturePackages [("s3.yaml", "B")]) "api")
                (fixtureWs [("s3.yaml", "B")]) eq_refl) as (a & Ha & _).
    exists a. exact Ha.
Defined.

(** * Properties of the command [svc init] *)

Section SvcInitProperties.
Import cli.
Context `{ErrDirNotExistError} `{Declarations}.

Lemma pathLoop_same (name path : string) (existingSvcs : list config.Service) :
  (forall s, In s existingSvcs -> config.Type' s = LoadBalancedWebServiceType ->
             config.Name s = name) ->
  pathLoop name path existingSvcs = path.
Proof.
  induction existingSvcs as [|s rest IH]; intros Hall; cbn [pathLoop]; [reflexivity|].
  destruct (String.eqb_spec (config.Type' s) LoadBalancedWebServiceType) as [Ht|Ht]; cbn [andb].
  - rewrite (Hall s (or_introl eq_refl) Ht), String.eqb_refl. cbn [negb].
    apply IH. intros s' Hs'. apply Hall. now right.
  - apply IH. intros s' Hs'. apply Hall. now right.
Qed.

Lemma pathLoop_other (name path : string) (existingSvcs : list config.Service) :
  (exists s, In s existingSvcs /\ config.Type' s = LoadBalancedWebServiceType
             /\ config.Name s <> name) ->
  pathLoop name path existingSvcs = name.
Proof.
  induction existingSvcs as [|s rest IH]; intros (s' & Hin & Ht & Hn); [destruct Hin|].
  cbn [pathLoop].
  destruct (String.eqb (config.Type' s) LoadBalancedWebServiceType
            && negb (String.eqb (config.Name s) name)) eqn:Hs; [reflexivity|].
  apply IH. destruct Hin as [->|Hin]; [|eauto].
  apply String.eqb_eq in Ht. apply String.eqb_neq in Hn. rewrite Ht, Hn in Hs. discriminate.
Qed.

(** The manifest of a load balanced web service gets the path [/], unless
    the store lists another load balanced web service of the application,
    under a different name: then the path is the name of the new service.
    The store is asked once, for the services of the application, and its
    error is returned as it is; the options are not changed. *)
Theorem load_balanced_manifest_path (o : initSvcOpts) (evs : list event)
    (existingSvcs : list config.Service) :
  ListServices (store_ o) (AppName (globalOpts (vars o))) = (existingSvcs, None) ->
  exists path,
    newLoadBalancedWebServiceManifest o evs
    = ((Some (manifest.NewLoadBalancedWebService
                {| manifest.lbServiceProps :=
                     {| manifest.Name := Name (vars o);
                        manifest.Dockerfile := DockerfilePath (vars o) |};
                   manifest.lbPort := Port (vars o);
                   manifest.lbPath := path |}), None),
       o, (evs ++ [EvListServices (AppName (globalOpts (vars o)))])%list)
    /\ ((forall s, In s existingSvcs -> config.Type' s = LoadBalancedWebServiceType ->
                   config.Name s = Name (vars o)) -> path = "/")
    /\ ((exists s, In s existingSvcs /\ config.Type' s = LoadBalancedWebServiceType
                   /\ config.Name s <> Name (vars o)) -> path = Name (vars o)).
Proof.
  intros Hlist. exists (pathLoop (Name (vars o)) "/" existingSvcs). split; [|split].
  - unfold newLoadBalancedWebServiceManifest, bindM, getOpts, callListServices, retM.
    rewrite Hlist. reflexivity.
  - apply pathLoop_same.
  - apply pathLoop_other.
Qed.

(** [newManifest] asks the store only for a load balanced web service: a
    backend service gets its manifest from the options alone, and any other
    service type is an error that names the type; neither makes a call or
    changes the options. *)
Theorem newManifest_without_store (o : initSvcOpts) (evs : list event) :
  ServiceType (vars o) <> LoadBalancedWebServiceType ->
  (ServiceType (vars o) = BackendServiceType ->
   newManifest o evs
   = ((Some (manifest.NewBackendService
               {| manifest.beServiceProps :=
                    {| manifest.Name := Name (vars o);
                       manifest.Dockerfile := DockerfilePath (vars o) |};
                  manifest.bePort := Port (vars o) |}), None), o, evs))
  /\ (ServiceType (vars o) <> BackendServiceType ->
      newManifest o evs
      = ((None, Some (errorString ("service type " +:+ ServiceType (vars o)
                                     +:+ " doesn't have a manifest"))), o, evs)).
Proof.
  intros Hlb. apply String.eqb_neq in Hlb.
  unfold newManifest, bindM, getOpts. rewrite Hlb. split.
  - intros Hbe. apply String.eqb_eq in Hbe. rewrite Hbe. reflexivity.
  - intros Hbe. apply String.eqb_neq in Hbe. rewrite Hbe. reflexivity.
Qed.

End SvcInitProperties.

Lemma load_balanced_manifest_path_witness :
  exists path,
    fst (fst (@cli.newLoadBalancedWebServiceManifest cli.fixtureDeclarations
                (cli.fixtureOpts "Load Balanced Web Service" "api" "Dockerfile" 80
                   [{| cli.config.App := "demo"; cli.config.Name := "jobs";
                       cli.config.Type' := "Backend Service" |};
                    {| cli.config.App := "demo"; cli.config.Name := "front";
                       cli.config.Type' := "Load Balanced Web Service" |}]
                   [] "" false) []))
    = (Some (cli.manifest.NewLoadBalancedWebService
               {| cli.manifest.lbServiceProps :=
                    {| cli.manifest.Name := "api"; cli.manifest.Dockerfile := "Dockerfile" |};
                  cli.manifest.lbPort := 80;
                  cli.manifest.lbPath := path |}), None)
    /\ path = "api".
Proof.
  destruct (@load_balanced_manifest_path cli.fixtureDeclarations
              (cli.fixtureOpts "Load Balanced Web Service" "api" "Dockerfile" 80
                 [{| cli.config.App := "demo"; cli.config.Name := "jobs";
                     cli.config.Type' := "Backend Service" |};
                  {| cli.config.App := "demo"; cli.config.Name := "front";
                     cli.config.Type' := "Load Balanced Web Service" |}]
                 [] "" false) [] _ eq_refl) as (path & Hrun & _ & Hother).
  exists path. split.
  - rewrite Hrun. reflexivity.
  - apply Hother. eexists. split; [right; left; reflexivity|]. split; [reflexivity | discriminate].
Defined.

Lemma newManifest_without_store_witness :
  @cli.newManifest cli.fixtureDeclarations
     (cli.fixtureOpts "Scheduled Job" "api" "Dockerfile" 80 [] [] "" false) []
  = ((None, Some (errorString "service type Scheduled Job doesn't have a manifest")),
     cli.fixtureOpts "Scheduled Job" "api" "Dockerfile" 80 [] [] "" false, []).
Proof.
  apply (@newManifest_without_store cli.fixtureDeclarations
           (cli.fixtureOpts "Scheduled Job" "api" "Dockerfile" 80 [] [] "" false) []);
    discriminate.
Defined.

(** ** [strconv.ParseUint] and [strconv.Itoa] *)

Section Strconv.
Context `{ErrDirNotExistError}.
Variable Quote : string -> string.

Lemma parseUintLoop_decimal (s0 s : string) (maxVal n r : Z) :
  0 <= n <= maxVal -> maxVal < 2 ^ 64 ->
  strconv.parseUintLoop Quote s0 10 (strconv.maxUint64 / 10 + 1) maxVal s n = (r, None) ->
  allDigits s /\ r = decimalValue s n /\ 0 <= r <= maxVal.
Proof.
  revert n; induction s as [|ch s IH]; intros n Hn Hmax Hrun; cbn [strconv.parseUintLoop] in Hrun.
  - injection Hrun as <-. cbn. auto.
  - cbv zeta in Hrun.
    destruct ((0x30 <=? byteZ ch) && (byteZ ch <=? 0x39)) eqn:Hdigit.
    + apply andb_true_iff in Hdigit as [Hlo Hhi].
      apply Z.leb_le in Hlo, Hhi.
      destruct (10 <=? byteZ ch - 0x30) eqn:Hbase; [discriminate|].
      destruct (strconv.maxUint64 / 10 + 1 <=? n) eqn:Hcut; [discriminate|].
      apply Z.leb_gt in Hcut.
      assert (Hn10 : n * 10 < 2 ^ 64).
      { unfold strconv.maxUint64 in Hcut.
        change ((2 ^ 64 - 1) / 10 + 1) with 1844674407370955162 in Hcut.
        change (2 ^ 64) with 18446744073709551616. lia. }
      rewrite (Z.mod_small (n * 10)) in Hrun by lia.
      destruct (((n * 10 + (byteZ ch - 0x30)) mod 2 ^ 64 <? n * 10)
                || (maxVal <? (n * 10 + (byteZ ch - 0x30)) mod 2 ^ 64)) eqn:Hover;
        [discriminate|].
      apply orb_false_iff in Hover as [Hwrap Hle].
      apply Z.ltb_ge in Hwrap, Hle.
      assert (Hsmall : n * 10 + (byteZ ch - 0x30) < 2 ^ 64).
      { destruct (Z_lt_le_dec (n * 10 + (byteZ ch - 0x30)) (2 ^ 64)) as [Hlt|Hge]; [exact Hlt|].
        exfalso.
        assert (Hmod : (n * 10 + (byteZ ch - 0x30)) mod 2 ^ 64
                       = n * 10 + (byteZ ch - 0x30) - 2 ^ 64).
        { symmetry. apply (Z.mod_unique _ _ 1); lia. }
        rewrite Hmod in Hwrap. lia. }
      rewrite Z.mod_small in Hrun, Hle by lia.
      apply IH in Hrun as (Hs & Hr & Hrange); [|lia|exact Hmax].
      cbn [allDigits decimalValue]. auto.
    + destruct ((0x61 <=? strconv.lower (byteZ ch)) && (strconv.lower (byteZ ch) <=? 0x7A))
        eqn:Hletter; [|discriminate].
      apply andb_true_iff in Hletter as [Hlo Hhi]. apply Z.leb_le in Hlo, Hhi.
      destruct (10 <=? strconv.lower (byteZ ch) - 0x61 + 10) eqn:Hbase; [discriminate|].
      apply Z.leb_gt in Hbase. lia.
Qed.

Lemma ParseUint_decimal (s : string) (r : Z) :
  strconv.ParseUint Quote s 10 16 = (r, None) ->
  s <> "" /\ allDigits s /\ r = decimalValue s 0 /\ 0 <= r <= 65535 /\ r mod 2 ^ 16 = r.
Proof.
  unfold strconv.ParseUint. destruct (String.eqb_spec s "") as [->|Hne]; [discriminate|].
  intros Hrun. apply parseUintLoop_decimal in Hrun as (Hs & Hr & Hrange).
  - change (Z.shiftl 1 16 - 1) with 65535 in Hrange.
    repeat split; try assumption; try lia. apply Z.mod_small.
    change (2 ^ 16) with 65536. lia.
  - change (Z.shiftl 1 16 - 1) with 65535. lia.
  - change (Z.shiftl 1 16 - 1) with 65535. change (2 ^ 64) with 18446744073709551616. lia.
Qed.

Lemma byteZ_digit (d : Z) :
  0 <= d <= 9 -> byteZ (ascii_of_N (Z.to_N (0x30 + d))) = 0x30 + d.
Proof.
  intros Hd. unfold byteZ. rewrite N_ascii_embedding by lia. lia.
Qed.

Lemma parseUintLoop_digit (s0 s : string) (maxVal n d : Z) :
  0 <= d <= 9 -> 0 <= n -> n * 10 + d <= maxVal -> maxVal < 2 ^ 64 ->
  strconv.parseUintLoop Quote s0 10 (strconv.maxUint64 / 10 + 1) maxVal
    (String (ascii_of_N (Z.to_N (0x30 + d))) s) n
  = strconv.parseUintLoop Quote s0 10 (strconv.maxUint64 / 10 + 1) maxVal s (n * 10 + d).
Proof.
  intros Hd Hn Hle Hmax. cbn [strconv.parseUintLoop]. cbv zeta.
  rewrite byteZ_digit by exact Hd.
  change (2 ^ 64) with 18446744073709551616 in *.
  replace ((0x30 <=? 0x30 + d) && (0x30 + d <=? 0x39)) with true
    by (symmetry; apply andb_true_iff; split; apply Z.leb_le; lia).
  replace (0x30 + d - 0x30) with d by lia.
  replace (10 <=? d) with false by (symmetry; apply Z.leb_gt; lia).
  unfold strconv.maxUint64.
  change ((2 ^ 64 - 1) / 10 + 1) with 1844674407370955162.
  replace (1844674407370955162 <=? n) with false by (symmetry; apply Z.leb_gt; lia).
  rewrite (Z.mod_small (n * 10)) by lia.
  rewrite (Z.mod_small (n * 10 + d)) by lia.
  replace ((n * 10 + d <? n * 10) || (maxVal <? n * 10 + d)) with false; [reflexivity|].
  symmetry. apply orb_false_iff. split; apply Z.ltb_ge; lia.
Qed.

Lemma parseUintLoop_formatDecimal (s0 acc : string) (maxVal u : Z) (fuel : nat) :
  0 <= u <= maxVal -> maxVal < 2 ^ 64 -> u < 10 ^ Z.of_nat fuel ->
  strconv.parseUintLoop Quote s0 10 (strconv.maxUint64 / 10 + 1) maxVal
    (strconv.formatDecimal fuel u acc) 0
  = strconv.parseUintLoop Quote s0 10 (strconv.maxUint64 / 10 + 1) maxVal acc u.
Proof.
  revert u acc; induction fuel as [|fuel IH]; intros u acc Hu Hmax Hfuel.
  - cbn in Hfuel. cbn [strconv.formatDecimal]. replace u with 0 by lia. reflexivity.
  - cbn [strconv.formatDecimal]. cbv zeta.
    assert (Hmod : 0 <= u mod 10 <= 9) by (pose proof (Z.mod_pos_bound u 10); lia).
    pose proof (Z.div_mod u 10 ltac:(lia)) as Hdiv.
    destruct (u <? 10) eqn:Hsmall.
    + apply Z.ltb_lt in Hsmall. rewrite parseUintLoop_digit by lia.
      rewrite Z.mod_small by lia. reflexivity.
    + apply Z.ltb_ge in Hsmall.
      rewrite IH.
      * rewrite parseUintLoop_digit by lia. f_equal. lia.
      * lia.
      * exact Hmax.
      * rewrite Nat2Z.inj_succ, Z.pow_succ_r in Hfuel by lia.
        apply Z.div_lt_upper_bound; lia.
Qed.

Lemma formatDecimal_not_nil (fuel : nat) (u : Z) (acc : string) :
  strconv.formatDecimal (S fuel) u acc <> "".
Proof.
  revert u acc; induction fuel as [|fuel IH]; intros u acc.
  - cbn [strconv.formatDecimal]. destruct (u <? 10); discriminate.
  - change (strconv.formatDecimal (S (S fuel)) u acc)
      with (if u <? 10 then String (ascii_of_N (Z.to_N (0x30 + u mod 10))) acc
            else strconv.formatDecimal (S fuel) (u / 10)
                   (String (ascii_of_N (Z.to_N (0x30 + u mod 10))) acc)).
    destruct (u <? 10); [discriminate | apply IH].
Qed.

(** A port written by [Itoa] is read back by [ParseUint]. *)
Lemma Itoa_ParseUint (p : Z) :
  0 <= p <= 65535 -> strconv.ParseUint Quote (strconv.Itoa p) 10 16 = (p, None).
Proof.
  intros Hp. unfold strconv.ParseUint, strconv.Itoa.
  replace (p <? 0) with false by (symmetry; apply Z.ltb_ge; lia).
  destruct (String.eqb_spec (strconv.formatDecimal 20 p "") "") as [Hnil|_].
  - now apply formatDecimal_not_nil in Hnil.
  - change (Z.shiftl 1 16 - 1) with 65535.
    rewrite parseUintLoop_formatDecimal; [reflexivity | lia | | ].
    + change (2 ^ 64) with 18446744073709551616. lia.
    + change (10 ^ Z.of_nat 20) with 100000000000000000000. lia.
Qed.

End Strconv.

(** ** The port of the service *)

Section SvcPort.
Import cli.
Context `{ErrDirNotExistError} `{Declarations}.

Ltac run_M :=
  unfold bindM, retM, getOpts, logCall, emit, setDf, setPort, setVars,
    callGetExposedPorts, callGet in *;
  cbn [vars df fs ws store_ deployer manifestPath setupParser
       globalOpts ServiceType Name DockerfilePath Port fst snd] in *.

(** When no port was given and the Dockerfile exposes exactly one port,
    [askSvcPort] takes it without asking, also when the parser of the
    Dockerfile reports an error besides; the other variables keep their
    values. *)
Theorem askSvcPort_single_port (o : initSvcOpts) (evs : list event) (p : Z) (err : option error) :
  Port (vars o) = 0 ->
  GetExposedPorts (setupParser o (vars o)) = ([p], err) ->
  exists o',
    askSvcPort o evs
    = (None, o',
       (evs ++ [EvLog Infof [fmtParsePortFromDockerfileStart;
                             HighlightUserInput (DockerfilePath (vars o));
                             HighlightUserInput (Name (vars o))];
                EvGetExposedPorts]
            ++ match err with Some e => [EvLog Debugln [Error e]] | None => [] end
            ++ [EvLog Successf [fmtParsePortFromDockerfileComplete;
                                HighlightUserInput (strconv.Itoa p)]])%list)
    /\ Port (vars o') = p
    /\ ServiceType (vars o') = ServiceType (vars o)
    /\ Name (vars o') = Name (vars o)
    /\ DockerfilePath (vars o') = DockerfilePath (vars o).
Proof.
  intros Hport Hports. unfold askSvcPort. run_M. rewrite Hport. cbn [Z.eqb negb].
  rewrite Hports.
  destruct err as [e|]; run_M; eexists;
    (split; [rewrite <- ?app_assoc; reflexivity | repeat split]).
Qed.

(** When no port was given, the Dockerfile exposes no port or several, and
    [askSvcPort] returns without error, the prompt was asked and gave a
    string, not empty, of decimal digits, and the port is their value, at
    most 65535. *)
Theorem askSvcPort_answer (o o' : initSvcOpts) (evs evs' : list event) (ports : list Z)
    (err : option error) :
  Port (vars o) = 0 ->
  GetExposedPorts (setupParser o (vars o)) = (ports, err) ->
  length ports <> 1%nat ->
  askSvcPort o evs = (None, o', evs') ->
  exists defaultPort answer,
    defaultPort = match ports with [] => "80" | p :: _ => strconv.Itoa p end
    /\ Get (prompt (globalOpts (vars o))) svcInitSvcPortPrompt svcInitSvcPortHelpPrompt
           ValidateSvcPort (Some defaultPort) = (answer, None)
    /\ answer <> "" /\ allDigits answer
    /\ Port (vars o') = decimalValue answer 0
    /\ 0 <= Port (vars o') <= 65535.
Proof.
  intros Hport Hports Hlen Hrun. unfold askSvcPort in Hrun. run_M.
  rewrite Hport in Hrun. cbn [Z.eqb negb] in Hrun. rewrite Hports in Hrun.
  exists (match ports with [] => "80" | p :: _ => strconv.Itoa p end).
  assert (Hprompt : forall d o1 evs1,
             promptSvcPort d o1 evs1 = (None, o', evs') ->
             exists answer,
               Get (prompt (globalOpts (vars o1))) svcInitSvcPortPrompt svcInitSvcPortHelpPrompt
                   ValidateSvcPort (Some d) = (answer, None)
               /\ answer <> "" /\ allDigits answer
               /\ Port (vars o') = decimalValue answer 0
               /\ 0 <= Port (vars o') <= 65535).
  { intros d o1 evs1 Hp. unfold promptSvcPort in Hp. run_M.
    change (fmt.Sprintf svcInitSvcPortPrompt []) with svcInitSvcPortPrompt in Hp.
    change (fmt.Sprintf svcInitSvcPortHelpPrompt []) with svcInitSvcPortHelpPrompt in Hp.
    destruct (Get (prompt (globalOpts (vars o1))) svcInitSvcPortPrompt svcInitSvcPortHelpPrompt
                ValidateSvcPort (Some d)) as [answer [e|]]; [discriminate|].
    destruct (strconv.ParseUint Quote answer 10 16) as [r [e|]] eqn:Hparse; [discriminate|].
    apply ParseUint_decimal in Hparse as (Hne & Hdigits & Hr & Hrange & Hmod).
    injection Hp as <- _. cbn [vars Port]. rewrite Hmod.
    exists answer. repeat split; try assumption; lia. }
  destruct ports as [|p [|q rest]]; [| now contradiction Hlen |].
  - destruct err as [e|]; run_M; apply Hprompt in Hrun as (answer & Hget & Hrest);
      exists answer; (split; [reflexivity | split; [exact Hget | exact Hrest]]).
  - destruct err as [e|]; run_M; apply Hprompt in Hrun as (answer & Hget & Hrest);
      exists answer; (split; [reflexivity | split; [exact Hget | exact Hrest]]).
Qed.

(** When no port was given, the Dockerfile exposes no port or several, and
    the prompt returns the default it was offered, the port is 80 when no
    port is exposed and the first exposed port otherwise. *)
Theorem askSvcPort_default (o : initSvcOpts) (evs : list event) (ports : list Z)
    (err : option error) :
  Port (vars o) = 0 ->
  GetExposedPorts (setupParser o (vars o)) = (ports, err) ->
  length ports <> 1%nat ->
  Forall (fun p => 0 <= p <= 65535) ports ->
  (forall d, Get (prompt (globalOpts (vars o))) svcInitSvcPortPrompt svcInitSvcPortHelpPrompt
                 ValidateSvcPort (Some d) = (d, None)) ->
  fst (fst (askSvcPort o evs)) = None
  /\ Port (vars (snd (fst (askSvcPort o evs)))) = hd 80 ports.
Proof.
  intros Hport Hports Hlen Hrange Hget. unfold askSvcPort. run_M.
  rewrite Hport. cbn [Z.eqb negb]. rewrite Hports.
  assert (Hprompt : forall p o1 evs1,
             0 <= p <= 65535 ->
             prompt (globalOpts (vars o1)) = prompt (globalOpts (vars o)) ->
             fst (fst (promptSvcPort (strconv.Itoa p) o1 evs1)) = None
             /\ Port (vars (snd (fst (promptSvcPort (strconv.Itoa p) o1 evs1)))) = p).
  { intros p o1 evs1 Hp Hsame. unfold promptSvcPort. run_M.
    change (fmt.Sprintf svcInitSvcPortPrompt []) with svcInitSvcPortPrompt.
    change (fmt.Sprintf svcInitSvcPortHelpPrompt []) with svcInitSvcPortHelpPrompt.
    rewrite Hsame, Hget, Itoa_ParseUint by exact Hp. cbn [fst snd vars Port].
    split; [reflexivity|]. apply Z.mod_small. change (2 ^ 16) with 65536. lia. }
  destruct ports as [|p [|q rest]]; [| now contradiction Hlen |].
  - change defaultSvcPortString with (strconv.Itoa 80). cbn [hd].
    destruct err as [e|]; run_M; apply Hprompt; try lia; reflexivity.
  - apply Forall_cons in Hrange as [Hp _]. cbn [hd].
    destruct err as [e|]; run_M; apply Hprompt; try lia; reflexivity.
Qed.

End SvcPort.

Lemma askSvcPort_single_port_witness :
  exists o',
    fst (@cli.askSvcPort fixtureDirError cli.fixtureDeclarations
           (cli.fixtureOpts "Backend Service" "api" "Dockerfile" 0 [] [5000] "" false) [])
    = (None, o')
    /\ cli.Port (cli.vars o') = 5000.
Proof.
  destruct (@askSvcPort_single_port fixtureDirError cli.fixtureDeclarations
              (cli.fixtureOpts "Backend Service" "api" "Dockerfile" 0 [] [5000] "" false)
              [] 5000 None eq_refl eq_refl) as (o' & Hrun & Hport & _).
  exists o'. rewrite Hrun. split; [reflexivity | exact Hport].
Defined.

Lemma askSvcPort_answer_witness :
  exists defaultPort answer,
    defaultPort = "8080" /\ answer = "443"
    /\ cli.Port (cli.vars (snd (fst (@cli.askSvcPort fixtureDirError cli.fixtureDeclarations
           (cli.fixtureOpts "Backend Service" "api" "Dockerfile" 0 [] [8080; 9090] "443" false)
           [])))) = decimalValue answer 0.
Proof.
  destruct (@askSvcPort_answer fixtureDirError cli.fixtureDeclarations
              (cli.fixtureOpts "Backend Service" "api" "Dockerfile" 0 [] [8080; 9090] "443" false)
              (snd (fst (@cli.askSvcPort fixtureDirError cli.fixtureDeclarations
                 (cli.fixtureOpts "Backend Service" "api" "Dockerfile" 0 [] [8080; 9090] "443" false)
                 [])))
              []
              (snd (@cli.askSvcPort fixtureDirError cli.fixtureDeclarations
                 (cli.fixtureOpts "Backend Service" "api" "Dockerfile" 0 [] [8080; 9090] "443" false)
                 []))
              [8080; 9090] None)
    as (d & answer & Hd & Hget & _ & _ & Hport & _).
  - reflexivity.
  - reflexivity.
  - cbn. lia.
  - vm_compute. reflexivity.
  - exists d, answer. split; [rewrite Hd; vm_compute; reflexivity|].
    split; [|exact Hport]. rewrite Hd in Hget. vm_compute in Hget. congruence.
Defined.

Lemma askSvcPort_default_witness :
  cli.Port (cli.vars (snd (fst (@cli.askSvcPort fixtureDirError cli.fixtureDeclarations
     (cli.fixtureOptsEnter "Backend Service" "api" "Dockerfile" 0 [] [8080; 9090] false) []))))
  = 8080.
Proof.
  apply (@askSvcPort_default fixtureDirError cli.fixtureDeclarations
           (cli.fixtureOptsEnter "Backend Service" "api" "Dockerfile" 0 [] [8080; 9090] false)
           [] [8080; 9090] None).
  - reflexivity.
  - reflexivity.
  - cbn. lia.
  - repeat constructor; lia.
  - intros d. reflexivity.
Defined.

(** ** The manifest file and [Execute] *)

Section SvcExecute.
Import cli.
Context `{ErrDirNotExistError} `{Declarations}.

Ltac run_M :=
  unfold bindM, retM, getOpts, logCall, emit, setManifestPath,
    callWriteServiceManifest, callRelPath, callListServices, callGetApplication,
    callAddServiceToApp, callCreateService in *;
  cbn [vars df fs ws store_ deployer manifestPath setupParser
       globalOpts ServiceType Name DockerfilePath Port fst snd] in *.

(** [newManifest] leaves the options as they are and makes no call but, at
    most, the listing of the services. *)
Lemma newManifest_shape (o : initSvcOpts) (evs : list event) :
  exists r new,
    newManifest o evs = (r, o, (evs ++ new)%list)
    /\ (new = [] \/ new = [EvListServices (AppName (globalOpts (vars o)))]).
Proof.
  unfold newManifest, newLoadBalancedWebServiceManifest, newBackendServiceManifest. run_M.
  destruct (String.eqb (ServiceType (vars o)) LoadBalancedWebServiceType).
  - destruct (ListServices (store_ o) (AppName (globalOpts (vars o)))) as [svcs [err|]];
      eexists _, _; split; try reflexivity; now right.
  - destruct (String.eqb (ServiceType (vars o)) BackendServiceType);
      eexists _, []; rewrite app_nil_r; split; try reflexivity; now left.
Qed.


(** [createManifest] leaves the options as they are; its calls are the
    listing of the services, the writing of the manifest, the computation of
    the relative path and the log; when it returns without error, the
    manifest was handed to the workspace under the name of the service. *)
Lemma createManifest_shape (o : initSvcOpts) (evs : list event) :
  exists r new,
    createManifest o evs = (r, o, (evs ++ new)%list)
    /\ Forall manifestEvent new
    /\ (snd r = None -> exists m, In (EvWriteServiceManifest m (Name (vars o))) new).
Proof.
  unfold createManifest. run_M.
  destruct (newManifest_shape o evs) as ([m err] & new & Hnew & Hshape). rewrite Hnew.
  assert (Hev : Forall manifestEvent new)
    by (destruct Hshape as [-> | ->]; repeat constructor).
  destruct err as [err|].
  { eexists _, new. split; [reflexivity|]. split; [exact Hev | discriminate]. }
  destruct (WriteServiceManifest (ws o) m (Name (vars o))) as [path [[fileName|err]|]].
  - destruct (relPath fileName) as [rel [err|]].
    + eexists _, (new ++ [_; _])%list. rewrite <- !app_assoc. split; [reflexivity|].
      split; [|discriminate]. apply Forall_app. split; [exact Hev | repeat constructor].
    + eexists _, (new ++ [_; _; _; _; _; _])%list. rewrite <- !app_assoc.
      split; [reflexivity|]. split.
      * apply Forall_app. split; [exact Hev | repeat constructor].
      * intros _. eexists. apply in_or_app. right. left. reflexivity.
  - eexists _, (new ++ [_])%list. rewrite <- !app_assoc. split; [reflexivity|].
    split; [|discriminate]. apply Forall_app. split; [exact Hev | repeat constructor].
  - destruct (relPath path) as [rel [err|]].
    + eexists _, (new ++ [_; _])%list. rewrite <- !app_assoc. split; [reflexivity|].
      split; [|discriminate]. apply Forall_app. split; [exact Hev | repeat constructor].
    + eexists _, (new ++ [_; _; _; _; _; _])%list. rewrite <- !app_assoc.
      split; [reflexivity|]. split.
      * apply Forall_app. split; [exact Hev | repeat constructor].
      * intros _. eexists. apply in_or_app. right. left. reflexivity.
Qed.

Lemma manifestEvent_not_create (new : list event) (svc : config.Service) :
  Forall manifestEvent new -> ~ In (EvCreateService svc) new.
Proof.
  intros Hev Hin. rewrite List.Forall_forall in Hev. exact (Hev _ Hin).
Qed.

Lemma manifestEvent_not_start (new : list event) (l : string) :
  Forall manifestEvent new -> ~ In (EvStart l) new.
Proof.
  intros Hev Hin. rewrite List.Forall_forall in Hev. exact (Hev _ Hin).
Qed.

(** In every run of [Execute], the service is saved in the store only as
    the last call, for the application, name and type of the options, after
    the application was found, the manifest handed to the workspace and the
    repositories added without error, between the start and the stop of the
    progress indicator; a progress indicator that is started is stopped;
    and when [Execute] returns without error the service was saved.  The
    variables of the options are not changed. *)
Theorem Execute_order (o : initSvcOpts) (evs : list event) :
  exists r o' new,
    Execute o evs = (r, o', (evs ++ new)%list)
    /\ vars o' = vars o
    /\ (forall svc, In (EvCreateService svc) new ->
          svc = {| config.App := AppName (globalOpts (vars o));
                   config.Name := Name (vars o);
                   config.Type' := ServiceType (vars o) |}
          /\ exists app pre m,
               GetApplication (store_ o) (AppName (globalOpts (vars o))) = (app, None)
               /\ AddServiceToApp (deployer o) app (Name (vars o)) = None
               /\ In (EvWriteServiceManifest m (Name (vars o))) pre
               /\ ~ In (EvCreateService svc) pre
               /\ new = (EvGetApplication (AppName (globalOpts (vars o))) :: pre
                           ++ [EvStart (fmt.Sprintf fmtAddSvcToAppStart [Name (vars o)]);
                               EvAddServiceToApp app (Name (vars o));
                               EvStop (Ssuccessf fmtAddSvcToAppComplete [Name (vars o)]);
                               EvCreateService svc])%list)
    /\ (r = None -> exists svc, In (EvCreateService svc) new
                                /\ CreateService (store_ o) svc = None)
    /\ (forall l, In (EvStart l) new -> exists l', In (EvStop l') new).
Proof.
  unfold Execute. run_M.
  destruct (GetApplication (store_ o) (AppName (globalOpts (vars o)))) as [app [err|]] eqn:Happ.
  { eexists _, o, [_]. split; [reflexivity|]. split; [reflexivity|]. split; [|split].
    - intros svc [Hin|[]]. discriminate.
    - discriminate.
    - intros l [Hin|[]]. discriminate. }
  destruct (createManifest_shape o (evs ++ [EvGetApplication (AppName (globalOpts (vars o)))]))
    as ([mp merr] & newM & Hcm & Hev & Hwritten).
  rewrite Hcm. destruct merr as [err|].
  { eexists _, o, (_ :: newM)%list. rewrite <- app_assoc. split; [reflexivity|].
    split; [reflexivity|]. split; [|split].
    - intros svc [Hin|Hin]; [discriminate|]. now apply manifestEvent_not_create in Hin.
    - discriminate.
    - intros l [Hin|Hin]; [discriminate|]. now apply manifestEvent_not_start in Hin. }
  destruct (Hwritten eq_refl) as [m Hm]. run_M.
  destruct (AddServiceToApp (deployer o) app (Name (vars o))) as [err|] eqn:Hadd.
  { eexists _, _, (_ :: newM ++ [_; _; _])%list. rewrite <- !app_assoc.
    split; [reflexivity|]. split; [reflexivity|]. split; [|split].
    - intros svc [Hin|Hin]; [discriminate|]. apply in_app_or in Hin as [Hin|Hin].
      + now apply manifestEvent_not_create in Hin.
      + destruct Hin as [Hin|[Hin|[Hin|[]]]]; discriminate.
    - discriminate.
    - intros l _. eexists. right. apply in_or_app. right. right. right. left. reflexivity. }
  run_M.
  set (svc0 := {| config.App := AppName (globalOpts (vars o));
                  config.Name := Name (vars o);
                  config.Type' := ServiceType (vars o) |}).
  assert (Horder : forall svc,
             In (EvCreateService svc)
                (EvGetApplication (AppName (globalOpts (vars o))) :: newM
                   ++ [EvStart (fmt.Sprintf fmtAddSvcToAppStart [Name (vars o)]);
                       EvAddServiceToApp app (Name (vars o));
                       EvStop (Ssuccessf fmtAddSvcToAppComplete [Name (vars o)]);
                       EvCreateService svc0])%list ->
             svc = svc0).
  { intros svc [Hin|Hin]; [discriminate|]. apply in_app_or in Hin as [Hin|Hin].
    - now apply manifestEvent_not_create in Hin.
    - destruct Hin as [Hin|[Hin|[Hin|[Hin|[]]]]]; try discriminate.
      now injection Hin as <-. }
  destruct (CreateService (store_ o) svc0) as [err|] eqn:Hcreate;
    (eexists _, _, (EvGetApplication (AppName (globalOpts (vars o))) :: newM
                      ++ [EvStart (fmt.Sprintf fmtAddSvcToAppStart [Name (vars o)]);
                          EvAddServiceToApp app (Name (vars o));
                          EvStop (Ssuccessf fmtAddSvcToAppComplete [Name (vars o)]);
                          EvCreateService svc0])%list;
     split; [rewrite <- !app_assoc; reflexivity|];
     split; [reflexivity|];
     split; [|split]).
  - intros svc Hin. apply Horder in Hin as ->. split; [reflexivity|].
    exists app, newM, m. repeat split; try assumption.
    now apply manifestEvent_not_create.
  - discriminate.
  - intros l _. eexists. right. apply in_or_app. right. right. right. left. reflexivity.
  - intros svc Hin. apply Horder in Hin as ->. split; [reflexivity|].
    exists app, newM, m. repeat split; try assumption.
    now apply manifestEvent_not_create.
  - intros _. exists svc0. split; [|exact Hcreate].
    right. apply in_or_app. right. right. right. right. left. reflexivity.
  - intros l _. eexists. right. apply in_or_app. right. right. right. left. reflexivity.
Qed.

End SvcExecute.

(** ** [Validate] and [Ask] *)

Section SvcAsk.
Import cli.
Context `{ErrDirNotExistError} `{Declarations}.

Ltac run_M :=
  unfold bindM, retM, getOpts, logCall, emit, setDf, setPort, setName, setServiceType,
    setDockerfilePath, setVars, callGetExposedPorts, callGet, callSelectOne,
    callListDockerfiles, callStat in *;
  cbn [vars df fs ws store_ deployer manifestPath setupParser
       globalOpts ServiceType Name DockerfilePath Port fst snd] in *.

(** [Validate] does not change the options, and touches the file system at
    most once, to look at the Dockerfile, and only when a path was given and
    the application name, the service type and the service name passed.
    Without an application name it returns [errNoAppInWorkspace] whatever
    the flags are; with one and no flag given it returns [nil]. *)
Theorem Validate_effects (o : initSvcOpts) (evs : list event) :
  exists r new,
    Validate o evs = (r, o, (evs ++ new)%list)
    /\ (new = []
        \/ (new = [EvStat (DockerfilePath (vars o))]
            /\ DockerfilePath (vars o) <> ""
            /\ AppName (globalOpts (vars o)) <> ""))
    /\ (AppName (globalOpts (vars o)) = "" -> r = Some errNoAppInWorkspace /\ new = [])
    /\ (AppName (globalOpts (vars o)) <> "" -> ServiceType (vars o) = "" ->
        Name (vars o) = "" -> DockerfilePath (vars o) = "" -> Port (vars o) = 0 ->
        r = None /\ new = []).
Proof.
  unfold Validate. run_M.
  destruct (String.eqb_spec (AppName (globalOpts (vars o))) "") as [Happ|Happ].
  { exists (Some errNoAppInWorkspace), []. rewrite app_nil_r.
    repeat split; auto; now intros. }
  destruct (String.eqb_spec (ServiceType (vars o)) "") as [Ht|Ht]; cbn [negb].
  2:{ destruct (validateSvcType (ServiceType (vars o))) as [err|] eqn:Hvt.
      { exists (Some err), []. rewrite app_nil_r.
        repeat split; auto; try contradiction; intros; contradiction. }
      destruct (String.eqb_spec (Name (vars o)) "") as [Hn|Hn]; cbn [negb].
      2:{ destruct (validateSvcName (Name (vars o))) as [err|].
          { exists (Some err), []. rewrite app_nil_r.
            repeat split; auto; try contradiction; intros; contradiction. }
          destruct (String.eqb_spec (DockerfilePath (vars o)) "") as [Hd|Hd]; cbn [negb]; run_M.
          - destruct (negb (Port (vars o) =? 0)); [destruct (validateSvcPort _)|];
              eexists _, []; rewrite app_nil_r;
              repeat split; auto; try contradiction; intros; contradiction.
          - destruct (Stat (fs o) (DockerfilePath (vars o))) as [err|].
            + eexists _, [_]. repeat split; auto; try contradiction; intros; contradiction.
            + destruct (negb (Port (vars o) =? 0)); [destruct (validateSvcPort _)|];
                eexists _, [_];
                repeat split; auto; try contradiction; intros; contradiction. }
      destruct (String.eqb_spec (DockerfilePath (vars o)) "") as [Hd|Hd]; cbn [negb]; run_M.
      - destruct (negb (Port (vars o) =? 0)); [destruct (validateSvcPort _)|];
          eexists _, []; rewrite app_nil_r;
          repeat split; auto; try contradiction; intros; contradiction.
      - destruct (Stat (fs o) (DockerfilePath (vars o))) as [err|].
        + eexists _, [_]. repeat split; auto; try contradiction; intros; contradiction.
        + destruct (negb (Port (vars o) =? 0)); [destruct (validateSvcPort _)|];
            eexists _, [_];
            repeat split; auto; try contradiction; intros; contradiction. }
  destruct (String.eqb_spec (Name (vars o)) "") as [Hn|Hn]; cbn [negb].
  2:{ destruct (validateSvcName (Name (vars o))) as [err|].
      { exists (Some err), []. rewrite app_nil_r.
        repeat split; auto; try contradiction; intros; contradiction. }
      destruct (String.eqb_spec (DockerfilePath (vars o)) "") as [Hd|Hd]; cbn [negb]; run_M.
      - destruct (negb (Port (vars o) =? 0)); [destruct (validateSvcPort _)|];
          eexists _, []; rewrite app_nil_r;
          repeat split; auto; try contradiction; intros; contradiction.
      - destruct (Stat (fs o) (DockerfilePath (vars o))) as [err|].
        + eexists _, [_]. repeat split; auto; try contradiction; intros; contradiction.
        + destruct (negb (Port (vars o) =? 0)); [destruct (validateSvcPort _)|];
            eexists _, [_];
            repeat split; auto; try contradiction; intros; contradiction. }
  destruct (String.eqb_spec (DockerfilePath (vars o)) "") as [Hd|Hd]; cbn [negb]; run_M.
  - destruct (Z.eqb_spec (Port (vars o)) 0) as [Hp|Hp]; cbn [negb];
      [|destruct (validateSvcPort _)];
      eexists _, []; rewrite app_nil_r;
      repeat split; auto; try contradiction; intros; contradiction.
  - destruct (Stat (fs o) (DockerfilePath (vars o))) as [err|].
    + eexists _, [_]. repeat split; auto; try contradiction; intros; contradiction.
    + destruct (negb (Port (vars o) =? 0)); [destruct (validateSvcPort _)|];
        eexists _, [_];
        repeat split; auto; try contradiction; intros; contradiction.
Qed.

End SvcAsk.

Section SvcAskFields.
Import cli.
Context `{ErrDirNotExistError} `{Declarations}.

Ltac run_M :=
  unfold bindM, retM, getOpts, logCall, emit, setDf, setPort, setName, setServiceType,
    setDockerfilePath, setVars, callGetExposedPorts, callGet, callSelectOne,
    callListDockerfiles, callStat in *;
  cbn [vars df fs ws store_ deployer manifestPath setupParser
       globalOpts ServiceType Name DockerfilePath Port fst snd] in *.

Ltac finish_ask :=
  eexists _, _, _; (split; [rewrite <- ?app_assoc; reflexivity|]);
  cbn [vars globalOpts ServiceType Name DockerfilePath Port];
  repeat split; try reflexivity; try (intros; congruence); try (intros; contradiction).

Lemma askSvcType_keeps (o : initSvcOpts) (evs : list event) :
  exists r o' new,
    askSvcType o evs = (r, o', (evs ++ new)%list)
    /\ globalOpts (vars o') = globalOpts (vars o)
    /\ Name (vars o') = Name (vars o)
    /\ DockerfilePath (vars o') = DockerfilePath (vars o)
    /\ Port (vars o') = Port (vars o)
    /\ (ServiceType (vars o) <> "" -> r = None /\ o' = o /\ new = []).
Proof.
  unfold askSvcType. run_M.
  destruct (String.eqb_spec (ServiceType (vars o)) "") as [Ht|Ht]; cbn [negb].
  - destruct (SelectOne _ _ _ _) as [t [err|]]; run_M; finish_ask.
  - exists None, o, []. rewrite app_nil_r. repeat split; reflexivity.
Qed.

Lemma askSvcName_keeps (o : initSvcOpts) (evs : list event) :
  exists r o' new,
    askSvcName o evs = (r, o', (evs ++ new)%list)
    /\ globalOpts (vars o') = globalOpts (vars o)
    /\ ServiceType (vars o') = ServiceType (vars o)
    /\ DockerfilePath (vars o') = DockerfilePath (vars o)
    /\ Port (vars o') = Port (vars o)
    /\ (Name (vars o) <> "" -> r = None /\ o' = o /\ new = []).
Proof.
  unfold askSvcName. run_M.
  destruct (String.eqb_spec (Name (vars o)) "") as [Hn|Hn]; cbn [negb].
  - destruct (Get _ _ _ _ _) as [n [err|]]; run_M; finish_ask.
  - exists None, o, []. rewrite app_nil_r. repeat split; reflexivity.
Qed.

Lemma askDockerfile_keeps (o : initSvcOpts) (evs : list event) :
  exists r o' new,
    askDockerfile o evs = (r, o', (evs ++ new)%list)
    /\ globalOpts (vars o') = globalOpts (vars o)
    /\ ServiceType (vars o') = ServiceType (vars o)
    /\ Name (vars o') = Name (vars o)
    /\ Port (vars o') = Port (vars o)
    /\ (DockerfilePath (vars o) <> "" -> r = None /\ o' = o /\ new = []).
Proof.
  unfold askDockerfile. run_M.
  destruct (String.eqb_spec (DockerfilePath (vars o)) "") as [Hd|Hd]; cbn [negb].
  - destruct (listDockerfiles ".") as [dockerfiles [err|]]; run_M; [finish_ask|].
    destruct (SelectOne _ _ _ _) as [sel [err|]]; run_M; finish_ask.
  - exists None, o, []. rewrite app_nil_r. repeat split; reflexivity.
Qed.

Lemma promptSvcPort_keeps (d : string) (o : initSvcOpts) (evs : list event) :
  exists r o' new,
    promptSvcPort d o evs = (r, o', (evs ++ new)%list)
    /\ globalOpts (vars o') = globalOpts (vars o)
    /\ ServiceType (vars o') = ServiceType (vars o)
    /\ Name (vars o') = Name (vars o)
    /\ DockerfilePath (vars o') = DockerfilePath (vars o).
Proof.
  unfold promptSvcPort. run_M.
  destruct (Get _ _ _ _ _) as [port [err|]]; run_M; [finish_ask|].
  destruct (strconv.ParseUint Quote port 10 16) as [portUint [err|]]; run_M; finish_ask.
Qed.

Lemma askSvcPort_keeps (o : initSvcOpts) (evs : list event) :
  exists r o' new,
    askSvcPort o evs = (r, o', (evs ++ new)%list)
    /\ globalOpts (vars o') = globalOpts (vars o)
    /\ ServiceType (vars o') = ServiceType (vars o)
    /\ Name (vars o') = Name (vars o)
    /\ DockerfilePath (vars o') = DockerfilePath (vars o)
    /\ (Port (vars o) <> 0 -> r = None /\ o' = o /\ new = []).
Proof.
  unfold askSvcPort. run_M.
  destruct (Z.eqb_spec (Port (vars o)) 0) as [Hp|Hp]; cbn [negb].
  2:{ exists None, o, []. rewrite app_nil_r. repeat split; reflexivity. }
  assert (Hprompt : forall d o1 evs1 pre,
             evs1 = (evs ++ pre)%list ->
             vars o1 = vars o ->
             exists r o' new,
               promptSvcPort d o1 evs1 = (r, o', (evs ++ new)%list)
               /\ globalOpts (vars o') = globalOpts (vars o)
               /\ ServiceType (vars o') = ServiceType (vars o)
               /\ Name (vars o') = Name (vars o)
               /\ DockerfilePath (vars o') = DockerfilePath (vars o)
               /\ (Port (vars o) <> 0 -> r = None /\ o' = o /\ new = [])).
  { intros d o1 evs1 pre -> Hvars.
    destruct (promptSvcPort_keeps d o1 (evs ++ pre)%list) as (r & o' & new & Hrun & Hrest).
    exists r, o', (pre ++ new)%list. rewrite app_assoc, <- Hvars.
    split; [exact Hrun|]. repeat split; try apply Hrest. all: intros; congruence. }
  destruct (GetExposedPorts (setupParser o (vars o))) as [ports [err|]];
    run_M; destruct ports as [|p [|q rest]]; run_M.
  all: try (eapply Hprompt; [rewrite <- ?app_assoc; reflexivity | reflexivity]).
  all: finish_ask.
Qed.

Lemma keepsGiven_trans (o1 o2 o3 : initSvcOpts) :
  keepsGiven o1 o2 -> keepsGiven o2 o3 -> keepsGiven o1 o3.
Proof.
  intros (T1 & N1 & D1 & P1) (T2 & N2 & D2 & P2). repeat apply conj; intros Hg.
  - rewrite <- (T1 Hg) in Hg |- *. exact (T2 Hg).
  - rewrite <- (N1 Hg) in Hg |- *. exact (N2 Hg).
  - rewrite <- (D1 Hg) in Hg |- *. exact (D2 Hg).
  - rewrite <- (P1 Hg) in Hg |- *. exact (P2 Hg).
Qed.

Lemma askSvcType_given (o : initSvcOpts) (evs : list event) :
  exists r o' new,
    askSvcType o evs = (r, o', (evs ++ new)%list) /\ keepsGiven o o'
    /\ (ServiceType (vars o) <> "" -> r = None /\ o' = o /\ new = []).
Proof.
  destruct (askSvcType_keeps o evs) as (r & o' & new & E & G & N & D & P & T).
  exists r, o', new. split; [exact E|]. split; [|exact T].
  repeat apply conj; intros Hg; try assumption.
  destruct (T Hg) as (_ & -> & _). reflexivity.
Qed.

Lemma askSvcName_given (o : initSvcOpts) (evs : list event) :
  exists r o' new,
    askSvcName o evs = (r, o', (evs ++ new)%list) /\ keepsGiven o o'
    /\ (Name (vars o) <> "" -> r = None /\ o' = o /\ new = []).
Proof.
  destruct (askSvcName_keeps o evs) as (r & o' & new & E & G & T & D & P & N).
  exists r, o', new. split; [exact E|]. split; [|exact N].
  repeat apply conj; intros Hg; try assumption.
  destruct (N Hg) as (_ & -> & _). reflexivity.
Qed.

Lemma askDockerfile_given (o : initSvcOpts) (evs : list event) :
  exists r o' new,
    askDockerfile o evs = (r, o', (evs ++ new)%list) /\ keepsGiven o o'
    /\ (DockerfilePath (vars o) <> "" -> r = None /\ o' = o /\ new = []).
Proof.
  destruct (askDockerfile_keeps o evs) as (r & o' & new & E & G & T & N & P & D).
  exists r, o', new. split; [exact E|]. split; [|exact D].
  repeat apply conj; intros Hg; try assumption.
  destruct (D Hg) as (_ & -> & _). reflexivity.
Qed.

Lemma askSvcPort_given (o : initSvcOpts) (evs : list event) :
  exists r o' new,
    askSvcPort o evs = (r, o', (evs ++ new)%list) /\ keepsGiven o o'
    /\ (Port (vars o) <> 0 -> r = None /\ o' = o /\ new = []).
Proof.
  destruct (askSvcPort_keeps o evs) as (r & o' & new & E & G & T & N & D & P).
  exists r, o', new. split; [exact E|]. split; [|exact P].
  repeat apply conj; intros Hg; try assumption.
  destruct (P Hg) as (_ & -> & _). reflexivity.
Qed.

(** [Ask] asks only for what was not given: a service type, a name or a
    Dockerfile path that is not empty and a port that is not zero are still
    there when [Ask] returns, with or without error; and when all four were
    given, [Ask] returns [nil] without any call, on the same options. *)
Theorem Ask_keeps_given (o : initSvcOpts) (evs : list event) :
  exists r o' new,
    Ask o evs = (r, o', (evs ++ new)%list)
    /\ (ServiceType (vars o) <> "" -> ServiceType (vars o') = ServiceType (vars o))
    /\ (Name (vars o) <> "" -> Name (vars o') = Name (vars o))
    /\ (DockerfilePath (vars o) <> "" -> DockerfilePath (vars o') = DockerfilePath (vars o))
    /\ (Port (vars o) <> 0 -> Port (vars o') = Port (vars o))
    /\ (ServiceType (vars o) <> "" -> Name (vars o) <> "" ->
        DockerfilePath (vars o) <> "" -> Port (vars o) <> 0 ->
        r = None /\ o' = o /\ new = []).
Proof.
  assert (Hgoal : exists r o' new,
             Ask o evs = (r, o', (evs ++ new)%list) /\ keepsGiven o o'
             /\ (ServiceType (vars o) <> "" -> Name (vars o) <> "" ->
                 DockerfilePath (vars o) <> "" -> Port (vars o) <> 0 ->
                 r = None /\ o' = o /\ new = [])).
  { unfold Ask, bindM, retM.
    destruct (askSvcType_given o evs) as (r1 & o1 & n1 & E1 & K1 & I1). rewrite E1.
    assert (Hidle1 : ServiceType (vars o) <> "" -> r1 = None /\ o1 = o /\ n1 = []) by exact I1.
    destruct r1 as [err|].
    { exists (Some err), o1, n1. split; [reflexivity|]. split; [exact K1|].
      intros Ht _ _ _. destruct (I1 Ht) as (? & _). discriminate. }
    destruct (askSvcName_given o1 (evs ++ n1)%list) as (r2 & o2 & n2 & E2 & K2 & I2).
    rewrite E2. pose proof (keepsGiven_trans _ _ _ K1 K2) as K12.
    destruct r2 as [err|].
    { exists (Some err), o2, (n1 ++ n2)%list. rewrite app_assoc.
      split; [reflexivity|]. split; [exact K12|].
      intros Ht Hn _ _. destruct (I1 Ht) as (_ & -> & _).
      destruct (I2 Hn) as (? & _). discriminate. }
    destruct (askDockerfile_given o2 ((evs ++ n1) ++ n2)%list) as (r3 & o3 & n3 & E3 & K3 & I3).
    rewrite E3. pose proof (keepsGiven_trans _ _ _ K12 K3) as K123.
    destruct r3 as [err|].
    { exists (Some err), o3, (n1 ++ n2 ++ n3)%list. rewrite !app_assoc.
      split; [reflexivity|]. split; [exact K123|].
      intros Ht Hn Hd _. destruct (I1 Ht) as (_ & -> & _).
      destruct (I2 Hn) as (_ & -> & _). destruct (I3 Hd) as (? & _). discriminate. }
    destruct (askSvcPort_given o3 (((evs ++ n1) ++ n2) ++ n3)%list)
      as (r4 & o4 & n4 & E4 & K4 & I4).
    rewrite E4. pose proof (keepsGiven_trans _ _ _ K123 K4) as K1234.
    exists r4, o4, (n1 ++ n2 ++ n3 ++ n4)%list. rewrite !app_assoc.
    split; [destruct r4; reflexivity|]. split; [exact K1234|].
    intros Ht Hn Hd Hp. destruct (I1 Ht) as (_ & -> & ->).
    destruct (I2 Hn) as (_ & -> & ->). destruct (I3 Hd) as (_ & -> & ->).
    destruct (I4 Hp) as (-> & -> & ->). repeat split. }
  destruct Hgoal as (r & o' & new & E & (T & N & D & P) & I).
  exists r, o', new. repeat apply conj; assumption.
Qed.

End SvcAskFields.

(** ** Sample runs *)

Lemma contains_iff_In_witness : contains [".yaml"; ".yml"] ".yml" = true.
Proof. apply contains_iff_In. right. left. reflexivity. Defined.

Lemma filterYAMLfiles_compose_witness :
  filterYAMLfiles (["a.yaml"; "notes.txt"] ++ ["b.yml"; "c"])
  = (filterYAMLfiles ["a.yaml"; "notes.txt"] ++ filterYAMLfiles ["b.yml"; "c"])%list.
Proof. apply filterYAMLfiles_compose. Defined.

Lemma validateNoMissingFiles_nil_iff_witness :
  validateNoMissingFiles (<["resources" := "R"]> (<["outputs" := "O"]> (<["params" := "P"]> ∅)))
  = None.
Proof.
  apply validateNoMissingFiles_nil_iff.
  split; [|split]; eexists; (split; [reflexivity | discriminate]).
Defined.

Lemma Template_calls_witness :
  exists fs tail,
    snd (run (@Template fixtureDirError (fixture [("params.yaml", "P"); ("s3.yaml", "B")])))
    = (CallReadAddonsDir "api" :: map (CallReadAddonsFile "api") fs ++ tail)%list
    /\ fs `prefix_of` ["params.yaml"; "s3.yaml"].
Proof.
  destruct (@Template_calls fixtureDirError (fixture [("params.yaml", "P"); ("s3.yaml", "B")]))
    as (fs & tail & Htrace & Hprefix & _).
  exists fs, tail. split; [exact Htrace | exact Hprefix].
Defined.

Lemma nameWithoutExt_Ext_split_witness :
  nameWithoutExt "s3-bucket.v2.yaml" +:+ filepath.Ext "s3-bucket.v2.yaml" = "s3-bucket.v2.yaml".
Proof. apply nameWithoutExt_Ext_split. Defined.


Lemma Execute_order_witness :
  exists r o' new,
    @cli.Execute fixtureDirError cli.fixtureDeclarations
      (cli.fixtureOpts "Backend Service" "api" "Dockerfile" 80 [] [] "" false) []
    = (r, o', new)
    /\ (r = None ->
        exists svc, In (cli.EvCreateService svc) new
                    /\ svc = {| cli.config.App := "demo"; cli.config.Name := "api";
                                cli.config.Type' := "Backend Service" |}).
Proof.
  destruct (@Execute_order fixtureDirError cli.fixtureDeclarations
              (cli.fixtureOpts "Backend Service" "api" "Dockerfile" 80 [] [] "" false) [])
    as (r & o' & new & Hrun & _ & Hsaved & Hnil & _).
  exists r, o', new. split; [exact Hrun|].
  intros Hr. destruct (Hnil Hr) as (svc & Hin & _). exists svc. split; [exact Hin|].
  apply Hsaved. exact Hin.
Defined.

Lemma Validate_effects_witness :
  exists r new,
    @cli.Validate cli.fixtureDeclarations
      (cli.fixtureOpts "" "" "" 0 [] [] "" false) []
    = (r, cli.fixtureOpts "" "" "" 0 [] [] "" false, new)
    /\ r = None /\ new = [].
Proof.
  destruct (@Validate_effects cli.fixtureDeclarations
              (cli.fixtureOpts "" "" "" 0 [] [] "" false) [])
    as (r & new & Hrun & _ & _ & Hempty).
  exists r, new. split; [exact Hrun|].
  apply Hempty; [discriminate | reflexivity..].
Defined.

Lemma Ask_keeps_given_witness :
  exists r o' new,
    @cli.Ask fixtureDirError cli.fixtureDeclarations
      (cli.fixtureOpts "" "api" "" 0 [] [5000] "x" false) []
    = (r, o', new)
    /\ cli.Name (cli.vars o') = "api".
Proof.
  destruct (@Ask_keeps_given fixtureDirError cli.fixtureDeclarations
              (cli.fixtureOpts "" "api" "" 0 [] [5000] "x" false) [])
    as (r & o' & new & Hrun & _ & Hname & _).
  exists r, o', new. split; [exact Hrun|]. apply Hname. discriminate.
Defined.
